(** * MP4_Converter: stream selection, command construction and the batch loop

    A shallow embedding of [MP4_Converter.py].  The pure helpers
    ([get_english_audio_indices], [get_video_codec], [get_subtitle_streams],
    [build_ffmpeg_cmd]) are functions; the code that talks to the outside
    ([probe_streams], [convert_to_mp4], [process_folder]) runs in a small
    monad that threads a file system, collects the events of the run and
    propagates Python exceptions.

    Conventions.
    - Python [str] values are Rocq strings (byte strings).  Case folding and
      whitespace are those of ASCII.
    - A dict read with [.get(key, default)] is a record of optional fields or
      a [gmap]; [d[key]] on an absent key raises [KeyError].
    - External programs (ffprobe, ffmpeg), the directory listing and the name
      of a new temporary file are oracles gathered in a [world]; the theorems
      quantify over every world.  The engine may write its output file, the
      last argument of its command, and touches nothing else.
    - The file system maps a path to a regular file or a directory.  A call
      raises [OSError] when the path it needs is missing or of the wrong
      kind; a call that has what it needs succeeds.
    - [print] appends a status line to the events and does not fail.  The
      progress animation thread, the durations ([show_time],
      [totalRunTime]) and the wait for a running ffmpeg before the batch
      ([check_if_process_running]) only print and sleep; they are left out
      of the batch, the two "Completed"/"Total runtime" lines are kept as
      events.  The wait is modelled on its own, after the batch, with the
      command line of the script and the two scanning scripts of
      [Resources]. *)

From stdpp Require Import base strings gmap list pretty sorting.
From Stdlib Require Import Ascii.


(** ** Exceptions and results *)

Inductive exn :=
| KeyError            (* d[key] with key absent *)
| CalledProcessError  (* subprocess.run(..., check=True), non-zero exit *)
| JSONDecodeError     (* json.loads on malformed output *)
| OSError             (* FileNotFoundError, FileExistsError, IsADirectoryError, ... *)
| ShutilError         (* shutil.Error: destination path already exists *)
| SystemExit.         (* sys.exit; not an Exception subclass *)

Global Instance exn_eq_dec : EqDecision exn.
Proof. solve_decision. Defined.

(** [except Exception] catches everything but [SystemExit]. *)
Definition is_Exception (e : exn) : bool :=
  match e with SystemExit => false | _ => true end.

Inductive result (A : Type) :=
| Ok (a : A)
| Raise (e : exn).
Global Arguments Ok {A} a.
Global Arguments Raise {A} e.

Global Instance result_ret : MRet result := @Ok.
Global Instance result_bind : MBind result := λ A B f r,
  match r with Ok a => f a | Raise e => Raise e end.

(** ** Python string helpers *)

Module PyStr.

(** [str.lower], ASCII letters. *)
Definition ascii_lower (c : ascii) : ascii :=
  let n := N_of_ascii c in
  if ((65 <=? n) && (n <=? 90))%N then ascii_of_N (n + 32) else c.

Fixpoint lower (s : string) : string :=
  match s with
  | EmptyString => EmptyString
  | String c s' => String (ascii_lower c) (lower s')
  end.

(** [str.isspace] on ASCII: TAB..CR, FS..US and the space. *)
Definition isspace (c : ascii) : bool :=
  let n := N_of_ascii c in
  (((9 <=? n) && (n <=? 13)) || ((28 <=? n) && (n <=? 32)))%N.

Fixpoint lstrip (s : string) : string :=
  match s with
  | EmptyString => EmptyString
  | String c s' => if isspace c then lstrip s' else s
  end.

(** [str.strip()] *)
Definition strip (s : string) : string :=
  String.rev (lstrip (String.rev (lstrip s))).

(** [s.startswith(p)] *)
Fixpoint startswith (s p : string) {struct p} : bool :=
  match p, s with
  | EmptyString, _ => true
  | String a p', String b s' => if decide (a = b) then startswith s' p' else false
  | String _ _, EmptyString => false
  end.

(** [s.endswith(p)]: [p] is [s] or one of its proper suffixes. *)
Fixpoint endswith (s p : string) : bool :=
  bool_decide (s = p) ||
  match s with
  | EmptyString => false
  | String _ s' => endswith s' p
  end.

(** [w in s] on strings: [w] occurs in [s] as a contiguous substring. *)
Fixpoint contains (s w : string) : bool :=
  startswith s w ||
  match s with
  | EmptyString => false
  | String _ s' => contains s' w
  end.

(** [s.rfind(c)] for a one-character needle, [-1] when absent. *)
Fixpoint rfind_from (i : Z) (c : ascii) (s : string) (found : Z) : Z :=
  match s with
  | EmptyString => found
  | String a s' => rfind_from (i + 1) c s' (if decide (a = c) then i else found)
  end.
Definition rfind (s : string) (c : ascii) : Z := rfind_from 0 c s (-1).

(** [s[i:j]] for [0 <= i]. *)
Definition slice (s : string) (i j : Z) : string :=
  String.substring (Z.to_nat i) (Z.to_nat (j - i)) s.

Definition slice_from (s : string) (i : Z) : string :=
  String.substring (Z.to_nat i) (String.length s - Z.to_nat i) s.

(** every character of [s] is [c] *)
Fixpoint all_char (c : ascii) (s : string) : bool :=
  match s with
  | EmptyString => true
  | String a s' => if decide (a = c) then all_char c s' else false
  end.

End PyStr.

(** ** Probe output

    [json.loads] of ffprobe's [-show_streams -print_format json] output: a
    dict with a ["streams"] list; each entry is a dict with an integer
    ["index"], strings ["codec_type"] and ["codec_name"], and a ["tags"]
    dict of strings.  Every key may be absent. *)

Record stream := Stream {
  index : option Z;
  codec_type : option string;
  codec_name : option string;
  tags : option (gmap string string)
}.

Record probe_output := ProbeOutput {
  streams : option (list stream)
}.

(** [s.get("tags", {}).get(key, dflt)] *)
Definition tag (s : stream) (key dflt : string) : string :=
  default dflt (default ∅ (tags s) !! key).

(** [str(s["index"])] *)
Definition str_index (s : stream) : result string :=
  match index s with
  | Some i => Ok (pretty i)
  | None => Raise KeyError
  end.

(** [[f(s) for s in l if cond(s)]]: the condition is evaluated first, the
    element expression only for the elements that pass; the first exception
    aborts the comprehension. *)
Fixpoint comprehension {A B} (f : A → result B) (cond : A → bool)
    (l : list A) : result (list B) :=
  match l with
  | [] => Ok []
  | s :: l' =>
      if cond s then
        b ← f s; bs ← comprehension f cond l'; Ok (b :: bs)
      else comprehension f cond l'
  end.

(** ** Track selection *)

Definition english_or_und (s : stream) : bool :=
  bool_decide (tag s "language" "und" ∈ ["eng"; "und"]).

Definition get_english_audio_indices (audio_streams : probe_output)
    : result (list string) :=
  comprehension str_index english_or_und (default [] (streams audio_streams)).

Fixpoint get_video_codec_loop (l : list stream) : option string :=
  match l with
  | [] => None
  | s :: l' =>
      if bool_decide (codec_type s = Some "video")
      then Some (PyStr.lower (default "" (codec_name s)))
      else get_video_codec_loop l'
  end.

Definition get_video_codec (video_streams : probe_output) : option string :=
  get_video_codec_loop (default [] (streams video_streams)).

Record subtitle := Subtitle {
  sub_index : string;
  sub_codec : string;
  sub_language : string;
  sub_title : string
}.

Definition valid_codecs : list string := ["subrip"; "ass"; "ssa"; "mov_text"].

Definition subtitle_ok (s : stream) : bool :=
  match codec_name s with
  | Some c => bool_decide (c ∈ valid_codecs)
  | None => false
  end && english_or_und s.

Definition subtitle_entry (s : stream) : result subtitle :=
  i ← str_index s;
  Ok {| sub_index := i;
        sub_codec := default "unknown" (codec_name s);
        sub_language := tag s "language" "und";
        sub_title := PyStr.strip (tag s "title" "") |}.

Definition get_subtitle_streams (subtitle_streams : probe_output)
    : result (list subtitle) :=
  comprehension subtitle_entry subtitle_ok (default [] (streams subtitle_streams)).

(** ** Command construction *)

Definition build_ffmpeg_cmd (input_file temp_file mode : string)
    (video_codec : option string) (audio_indices : list string)
    (subtitle_streams : list subtitle) : list string :=
  let cmd :=
    if decide (mode = "encode") then
      ["ffmpeg"; "-i"; input_file; "-y";
       "-c:v"; "libx265"; "-x265-params"; "log-level=0"; "-preset"; "fast"; "-crf"; "23";
       "-c:a"; "aac"; "-b:a"; "192k"; "-channel_layout"; "5.1";
       "-map"; "0:v:0"; "-map_metadata"; "-1";
       "-tag:v"; "hvc1"; "-movflags"; "+faststart"; "-loglevel"; "quiet"]
    else
      let cmd :=
        ["ffmpeg"; "-i"; input_file; "-y";
         "-c:v"; "copy"; "-c:a"; "copy"; "-map"; "0:v:0"; "-map_metadata"; "-1";
         "-movflags"; "+faststart"; "-loglevel"; "quiet"] in
      if decide (video_codec = Some "hevc") then cmd ++ ["-tag:v"; "hvc1"] else cmd in
  (* Map English audio streams *)
  let cmd :=
    match audio_indices with
    | [] => cmd
    | _ =>
        fold_left (λ cmd idx,
          (cmd ++ ["-map"; "0:" +:+ idx]) ++ ["-metadata:s:a:0"; "language=eng"])
          audio_indices cmd
    end in
  (* Map first valid subtitle stream *)
  let cmd :=
    match subtitle_streams with
    | [] => cmd
    | sub :: _ =>
        cmd ++ ["-map"; "0:" +:+ sub_index sub; "-c:s"; "mov_text";
                "-metadata:s:s:0"; "language=" +:+ sub_language sub]
    end in
  cmd ++ [temp_file].

(** ** Paths ([posixpath]) *)

Module OsPath.

(** [os.path.join(a, b)] *)
Definition join (a b : string) : string :=
  if PyStr.startswith b "/" then b
  else if decide (a = "") then b
  else if PyStr.endswith a "/" then a +:+ b
  else a +:+ "/" +:+ b.

(** [os.path.splitext(p)]: the extension starts at the last dot of the
    last component; leading dots of that component belong to the root. *)
Definition splitext (p : string) : string * string :=
  let sepIndex := PyStr.rfind p "/" in
  let dotIndex := PyStr.rfind p "." in
  if decide (dotIndex > sepIndex)%Z then
    if PyStr.all_char "." (PyStr.slice p (sepIndex + 1) dotIndex)
    then (p, "")
    else (PyStr.slice p 0 dotIndex, PyStr.slice_from p dotIndex)
  else (p, "").

(** [os.path.basename(p)] *)
Definition basename (p : string) : string :=
  PyStr.slice_from p (PyStr.rfind p "/" + 1).

(** [head.rstrip("/")] *)
Definition rstrip_sep (s : string) : string :=
  String.rev
    ((fix go (r : string) : string :=
        match r with
        | String c r' => if decide (c = "/"%char) then go r' else r
        | EmptyString => EmptyString
        end) (String.rev s)).

(** [os.path.dirname(p)] *)
Definition dirname (p : string) : string :=
  let head := PyStr.slice p 0 (PyStr.rfind p "/" + 1) in
  if PyStr.all_char "/" head then head else rstrip_sep head.

End OsPath.

(** ** File system, events and the monad of the script *)

(** A path names a regular file or a directory; both have an [st_size]. *)
Inductive node :=
| File (size : N)
| Dir (size : N).

Abbreviation filesystem := (gmap string node).

Definition is_dir (fs : filesystem) (p : string) : bool :=
  match fs !! p with Some (Dir _) => true | _ => false end.

Definition is_file (fs : filesystem) (p : string) : bool :=
  match fs !! p with Some (File _) => true | _ => false end.

(** The status lines of the script, without their decoration. *)
Inductive message :=
| NoEnglishAudio                (* "No English audio found. Skipping." *)
| AV1Detected                   (* "AV1 codec detected. Please use encode mode." *)
| RunningIn (mode : string)     (* "Running in {mode} mode." *)
| DoneProcessing                (* "Done processing." *)
| CompletedIn                   (* show_time: "Completed in ..." *)
| FFmpegError                   (* "FFmpeg error: {e}" *)
| UnexpectedError (e : exn)     (* "Unexpected error: {e}" *)
| Banner                        (* directories, mode, subfolder flag *)
| FileCount (idx total : nat)   (* "File {idx}/{total_files}" *)
| Processing (file : string)    (* "Processing: {file}" *)
| MovedEncoded (old new : N)    (* "Moved encoded file. Old Size: ..MB New Size: ..MB" *)
| ErrorProcessing               (* "Error processing this video. Moving on..." *)
| TotalRuntime.                 (* "Done! Total runtime: ..." *)

(** What a run does, in order.  File-system events are recorded when the
    call has completed; a call that raises leaves no event. *)
Inductive event :=
| Printed (m : message)
| Ran (cmd : list string)       (* subprocess.run(cmd, ...) was started *)
| Created (p : string)          (* NamedTemporaryFile created p *)
| Wrote (p : string)            (* the conversion engine wrote its output p *)
| MadeDirs (d : string)         (* os.makedirs created d *)
| Moved (src dst : string)      (* shutil.move put src at dst *)
| Removed (p : string).         (* os.remove deleted p *)

Global Instance message_eq_dec : EqDecision message.
Proof. solve_decision. Defined.
Global Instance event_eq_dec : EqDecision event.
Proof. solve_decision. Defined.

Definition M (A : Type) : Type :=
  filesystem → result A * filesystem * list event.

Global Instance M_ret : MRet M := λ A a fs, (Ok a, fs, []).
Global Instance M_bind : MBind M := λ A B k m fs,
  match m fs with
  | (Ok a, fs1, ev1) =>
      match k a fs1 with (r, fs2, ev2) => (r, fs2, ev1 ++ ev2) end
  | (Raise e, fs1, ev1) => (Raise e, fs1, ev1)
  end.

Definition raise {A} (e : exn) : M A := λ fs, (Raise e, fs, []).
Definition lift {A} (r : result A) : M A := λ fs, (r, fs, []).
Definition emit (e : event) : M unit := λ fs, (Ok (), fs, [e]).
Definition print (m : message) : M unit := emit (Printed m).

(** [try: m except ...]: [handler e] is the body of the clause that
    matches [e], [None] when no clause does. *)
Definition try_except {A} (m : M A) (handler : exn → option (M A)) : M A := λ fs,
  match m fs with
  | (Raise e, fs1, ev1) =>
      match handler e with
      | Some h => match h fs1 with (r, fs2, ev2) => (r, fs2, ev1 ++ ev2) end
      | None => (Raise e, fs1, ev1)
      end
  | done => done
  end.

Definition result_of {A} (o : result A * filesystem * list event) : result A := o.1.1.
Definition fs_of {A} (o : result A * filesystem * list event) : filesystem := o.1.2.
Definition events_of {A} (o : result A * filesystem * list event) : list event := o.2.

(** *** File-system calls *)

(** [os.path.isdir(p)] *)
Definition os_path_isdir (p : string) : M bool := λ fs, (Ok (is_dir fs p), fs, []).

(** [os.path.getsize(p)] *)
Definition os_path_getsize (p : string) : M N := λ fs,
  match fs !! p with
  | Some (File n) | Some (Dir n) => (Ok n, fs, [])
  | None => (Raise OSError, fs, [])
  end.

(** [os.remove(p)]: deletes a regular file. *)
Definition os_remove (p : string) : M unit := λ fs,
  match fs !! p with
  | Some (File _) => (Ok (), delete p fs, [Removed p])
  | _ => (Raise OSError, fs, [])
  end.

(** The directory that must hold [p] exists ([""] is the working directory). *)
Definition parent_ok (fs : filesystem) (p : string) : bool :=
  let d := OsPath.dirname p in
  bool_decide (d = "") || is_dir fs d.

(** [shutil.move(src, dst)] for a regular file [src]: into [dst] when [dst]
    is a directory, else onto [dst], replacing a regular file there. *)
Definition shutil_move (src dst : string) : M unit := λ fs,
  match fs !! src with
  | Some (File n) =>
      if is_dir fs dst then
        let real_dst := OsPath.join dst (OsPath.basename src) in
        if bool_decide (is_Some (fs !! real_dst)) then (Raise ShutilError, fs, [])
        else (Ok (), <[real_dst := File n]> (delete src fs), [Moved src real_dst])
      else if parent_ok fs dst
      then (Ok (), <[dst := File n]> (delete src fs), [Moved src dst])
      else (Raise OSError, fs, [])
  | _ => (Raise OSError, fs, [])
  end.

(** *** The outside world *)

Inductive probe_run :=
| ProbeNotStarted                    (* ffprobe could not be launched *)
| ProbeExitNonZero
| ProbeGarbage                       (* exit 0, output is not JSON *)
| ProbeJson (doc : probe_output).

Inductive engine_exit :=
| EngineNotStarted
| EngineExitNonZero
| EngineExitZero.

Record engine_run := EngineRun {
  engine_exit_status : engine_exit;
  engine_written : option N     (* size of the output file it left, if it wrote one *)
}.

Record world := World {
  ffprobe : list string → filesystem → probe_run;
  ffmpeg : list string → filesystem → engine_run;
  listdir : string → filesystem → list string;   (* os.listdir *)
  tempname : filesystem → string;                (* the name NamedTemporaryFile picks *)
  mkdir_size : N                                 (* st_size of a new directory *)
}.

(** [os.makedirs(d, exist_ok=True)]: nothing to do when [d] is a directory;
    [FileExistsError] / [NotADirectoryError] when [d] or the directory that
    holds it is a regular file; otherwise [d] is created (directories
    further up are not tracked). *)
Definition os_makedirs (w : world) (d : string) : M unit := λ fs,
  match fs !! d with
  | Some (Dir _) => (Ok (), fs, [])
  | Some (File _) => (Raise OSError, fs, [])
  | None =>
      if is_file fs (OsPath.dirname d) then (Raise OSError, fs, [])
      else (Ok (), <[d := Dir (mkdir_size w)]> fs, [MadeDirs d])
  end.

(** [tempfile.NamedTemporaryFile(suffix=".mp4", delete=False)]: an empty
    file under a name that was free. *)
Definition NamedTemporaryFile (w : world) : M string := λ fs,
  let p := tempname w fs in
  (Ok p, <[p := File 0]> fs, [Created p]).

(** [list.insert(i, x)] *)
Definition list_insert_at {A} (i : nat) (x : A) (l : list A) : list A :=
  take i l ++ x :: drop i l.

(** [json.loads(subprocess.run(cmd, capture_output=True, check=True).stdout)] *)
Definition run_ffprobe (w : world) (cmd : list string) : M probe_output := λ fs,
  (match ffprobe w cmd fs with
   | ProbeNotStarted => Raise OSError
   | ProbeExitNonZero => Raise CalledProcessError
   | ProbeGarbage => Raise JSONDecodeError
   | ProbeJson doc => Ok doc
   end, fs, [Ran cmd]).

(** [subprocess.run(cmd, check=True)] on an ffmpeg command: the engine may
    write the output file, the last argument, and nothing else. *)
Definition run_ffmpeg (w : world) (cmd : list string) : M unit := λ fs,
  let run := ffmpeg w cmd fs in
  let out := List.last cmd "" in
  match engine_exit_status run with
  | EngineNotStarted => (Raise OSError, fs, [Ran cmd])
  | status =>
      (match status with EngineExitZero => Ok () | _ => Raise CalledProcessError end,
       match engine_written run with Some n => <[out := File n]> fs | None => fs end,
       Ran cmd :: match engine_written run with Some _ => [Wrote out] | None => [] end)
  end.

(** ** Probing and converting one file *)

(** The command line of [probe_streams]; [if select_streams:] is false for
    [None] and for the empty string. *)
Definition probe_cmd (input_file : string) (select_streams : option string)
    : list string :=
  let cmd :=
    ["ffprobe"; "-v"; "error"; "-show_streams"; "-print_format"; "json"; input_file] in
  match select_streams with
  | Some sel =>
      if decide (sel = "") then cmd
      else list_insert_at 5 sel (list_insert_at 4 "-select_streams" cmd)
  | None => cmd
  end.

Definition probe_streams (w : world) (input_file : string)
    (select_streams : option string) : M probe_output :=
  run_ffprobe w (probe_cmd input_file select_streams).

Definition convert_to_mp4 (w : world) (input_file temp_file mode : string) : M bool :=
  try_except
    (audio_streams ← probe_streams w input_file (Some "a");
     video_streams ← probe_streams w input_file None;
     subtitle_streams ← probe_streams w input_file (Some "s");
     audio_indices ← lift (get_english_audio_indices audio_streams);
     let video_codec := get_video_codec video_streams in
     valid_subtitles ← lift (get_subtitle_streams subtitle_streams);
     if bool_decide (audio_indices = []) then
       print NoEnglishAudio;; mret false
     else if bool_decide (mode = "remux") && bool_decide (video_codec = Some "av1") then
       print AV1Detected;; mret false
     else
       let cmd := build_ffmpeg_cmd input_file temp_file mode video_codec
                    audio_indices valid_subtitles in
       print (RunningIn mode);;
       run_ffmpeg w cmd;;
       print DoneProcessing;;
       print CompletedIn;;
       mret true)
    (λ e,
       match e with
       | CalledProcessError => Some (print FFmpegError;; mret false)
       | _ => if is_Exception e then Some (print (UnexpectedError e);; mret false)
              else None
       end).

(** ** Natural ordering of file names *)

Module Natsort.

Inductive chunk :=
| Text (s : string)
| Num (n : N).

Definition is_digit (c : ascii) : bool :=
  let n := N_of_ascii c in ((48 <=? n) && (n <=? 57))%N.

(** Maximal runs of digits and of non-digits, left to right. *)
Fixpoint runs (s : string) : list (bool * string) :=
  match s with
  | EmptyString => []
  | String c s' =>
      let d := is_digit c in
      match runs s' with
      | (d', r) :: rest =>
          if Bool.eqb d d' then (d, String c r) :: rest
          else (d, String c EmptyString) :: (d', r) :: rest
      | [] => [(d, String c EmptyString)]
      end
  end.

(** [int(r)] for a run of decimal digits. *)
Fixpoint int_from (acc : N) (r : string) : N :=
  match r with
  | EmptyString => acc
  | String c r' => int_from (acc * 10 + (N_of_ascii c - 48)) r'
  end.

Definition chunk_of (run : bool * string) : chunk :=
  if run.1 then Num (int_from 0 run.2) else Text run.2.

(** The sort key: text and numbers alternate, text first (an empty text
    is put in front of a leading number). *)
Definition key (s : string) : list chunk :=
  match chunk_of <$> runs s with
  | Num n :: rest => Text "" :: Num n :: rest
  | k => k
  end.

(** Tuple comparison as Python does it, element by element: text with
    text, number with number; [None] is the [TypeError] of any other
    pair. *)
Definition chunk_compare_py (a b : chunk) : option comparison :=
  match a, b with
  | Text s, Text t => Some (String.compare s t)
  | Num m, Num n => Some (N.compare m n)
  | _, _ => None
  end.

Fixpoint key_compare_py (k1 k2 : list chunk) : option comparison :=
  match k1, k2 with
  | [], [] => Some Eq
  | [], _ :: _ => Some Lt
  | _ :: _, [] => Some Gt
  | a :: k1', b :: k2' =>
      match chunk_compare_py a b with
      | Some Eq => key_compare_py k1' k2'
      | c => c
      end
  end.

(** The same comparison made total: text before numbers.  On keys the
    two agree, because text and numbers alternate in every key. *)
Definition chunk_compare (a b : chunk) : comparison :=
  match a, b with
  | Text s, Text t => String.compare s t
  | Num m, Num n => N.compare m n
  | Text _, Num _ => Lt
  | Num _, Text _ => Gt
  end.

Fixpoint key_compare (k1 k2 : list chunk) : comparison :=
  match k1, k2 with
  | [], [] => Eq
  | [], _ :: _ => Lt
  | _ :: _, [] => Gt
  | a :: k1', b :: k2' =>
      match chunk_compare a b with
      | Eq => key_compare k1' k2'
      | c => c
      end
  end.

(** [alternates t k]: the chunks of [k] alternate, starting with text
    when [t] is true and with a number otherwise. *)
Fixpoint alternates (t : bool) (k : list chunk) : Prop :=
  match k with
  | [] => True
  | Text _ :: k' => t = true ∧ alternates false k'
  | Num _ :: k' => t = false ∧ alternates true k'
  end.

Definition natural_leb (a b : string) : bool :=
  match key_compare (key a) (key b) with Gt => false | _ => true end.

Definition natural_le (a b : string) : Prop := natural_leb a b = true.

(** Stable insertion: [x] goes in front of the first element that is not
    smaller than it. *)
Fixpoint insert_sorted (x : string) (l : list string) : list string :=
  match l with
  | [] => [x]
  | y :: l' => if natural_leb x y then x :: y :: l' else y :: insert_sorted x l'
  end.

End Natsort.

(** Modelled from the spec: [natsort.natsorted], a third-party function that
    is not part of the sources.  The spec asks for "natural (human) ordering
    on filenames", in which [Episode 2.mkv] comes before [Episode 10.mkv]:
    names are compared run by run, runs of decimal digits by their numeric
    value and the other runs as text, and names with equal keys keep their
    order (the sort is stable). *)
Definition natsorted (names : list string) : list string :=
  foldr Natsort.insert_sorted [] names.

(** ** The batch loop *)

Definition words_to_ignore : list string := ["sample"; "SAMPLE"; "Sample"; ".DS_Store"].
Definition video_formats : list string := [".mkv"; ".mp4"; ".avi"].

(** [any(f.endswith(ext) for ext in video_formats) and
     not any(w in f for w in words_to_ignore)] *)
Definition is_candidate (f : string) : bool :=
  existsb (λ ext, PyStr.endswith f ext) video_formats &&
  negb (existsb (λ w, PyStr.contains f w) words_to_ignore).

(** [round(size / (1024 * 1024))]: nearest integer, ties to even (exact for
    sizes below 2^53 bytes). *)
Definition round_mb (size : N) : N :=
  let q := (size / 1048576)%N in
  let r := (size mod 1048576)%N in
  if (r <? 524288)%N then q
  else if (524288 <? r)%N then (q + 1)%N
  else if N.even q then q else (q + 1)%N.

Definition output_file_path_of (output_path file : string) (create_subfolders : bool)
    : string :=
  let output_folder_name := (OsPath.splitext file).1 in
  let output_file_name := output_folder_name +:+ ".mp4" in
  if create_subfolders
  then OsPath.join (OsPath.join output_path output_folder_name) output_file_name
  else OsPath.join output_path output_file_name.

(** The success branch of the loop body: "Video process done. Move files to
    new location." and "Delete original file." *)
Definition finalize (w : world) (input_file_path temp_output_file output_file_path
    output_file_dir : string) (create_subfolders : bool) : M unit :=
  (if create_subfolders then os_makedirs w output_file_dir else mret ());;
  input_file_size ← os_path_getsize input_file_path;
  process_file_size ← os_path_getsize temp_output_file;
  shutil_move temp_output_file output_file_path;;
  print (MovedEncoded (round_mb input_file_size) (round_mb process_file_size));;
  os_remove input_file_path.

(** The [except Exception] clause of the loop body; its result says that
    the iteration ends with [continue]. *)
Definition cleanup (temp_output_file : string) (e : exn) : M bool :=
  print (UnexpectedError e);;
  (* Optionally remove temp file if something went wrong *)
  try_except (os_remove temp_output_file)
    (λ e', if is_Exception e' then Some (mret ()) else None);;
  mret true.

(** One iteration of the [for idx, file in enumerate(files, 1)] loop. *)
Definition process_file (w : world) (input_path output_path first_run : string)
    (create_subfolders : bool) (idx total_files : nat) (file : string) : M unit :=
  let input_file_path := OsPath.join input_path file in
  let output_folder_name := (OsPath.splitext file).1 in
  let output_file_dir := OsPath.join output_path output_folder_name in
  let output_file_path := output_file_path_of output_path file create_subfolders in
  temp_output_file ← NamedTemporaryFile w;
  print (FileCount idx total_files);;
  print (Processing file);;
  continue ←
    try_except
      (converted ← convert_to_mp4 w input_file_path temp_output_file first_run;
       (if converted : bool then
          finalize w input_file_path temp_output_file output_file_path
            output_file_dir create_subfolders
        else
          print ErrorProcessing);;
       mret false)
      (λ e, if is_Exception e then Some (cleanup temp_output_file e) else None);
  if continue : bool then mret () else print TotalRuntime.

Fixpoint for_each {A} (body : A → M unit) (l : list A) : M unit :=
  match l with
  | [] => mret ()
  | x :: l' => body x;; for_each body l'
  end.

(** [files = [f for f in natsorted(os.listdir(input_path)) if ...]] *)
Definition discover (w : world) (input_path : string) (fs : filesystem) : list string :=
  filter (λ f, is_candidate f = true) (natsorted (listdir w input_path fs)).

(** [process_folder]; the wait for a running ffmpeg before the loop only
    prints and sleeps and is left out. *)
Definition process_folder (w : world) (input_path output_path first_run : string)
    (create_subfolders : bool) : M unit :=
  in_ok ← os_path_isdir input_path;
  if negb in_ok then raise SystemExit else
  out_ok ← os_path_isdir output_path;
  if negb out_ok then raise SystemExit else
  print Banner;;
  files ← (λ fs, (Ok (discover w input_path fs), fs, []));
  let total_files := length files in
  for_each
    (λ '(idx, file), process_file w input_path output_path first_run
                       create_subfolders idx total_files file)
    (zip (seq 1 total_files) files).

Import Natsort.

(** ** Vocabulary of the statements

    Predicates and lists the theorems are stated with.  None of them is
    part of the program; each is explained by a lemma that ties it to the
    code ([english_or_und_spec], [build_ffmpeg_cmd_shape], ...). *)

(** *** Streams *)

(** The stream carries the ["index"] key that [s["index"]] reads. *)
Definition has_index (s : stream) : Prop := is_Some (index s).

(** The language the selectors see: the ["language"] tag, ["und"] when the
    stream has no tags or no such tag. *)
Definition language (s : stream) : string := tag s "language" "und".

Definition eng_or_und (s : stream) : Prop := language s = "eng" ∨ language s = "und".

Global Instance eng_or_und_dec s : Decision (eng_or_und s).
Proof. unfold eng_or_und. apply _. Defined.

(** The record has no ["tags"] dict, or the dict has no ["language"]. *)
Definition no_language (s : stream) : Prop :=
  tags s = None ∨ ∃ t, tags s = Some t ∧ t !! "language" = None.

Definition is_video (s : stream) : Prop := codec_type s = Some "video".

(** The codec is one of subrip, ass, ssa, mov_text. *)
Definition allowed_codec (s : stream) : Prop :=
  ∃ c, codec_name s = Some c ∧ c ∈ valid_codecs.

Global Instance allowed_codec_dec s : Decision (allowed_codec s).
Proof.
  unfold allowed_codec. destruct (codec_name s) as [c|].
  - destruct (decide (c ∈ valid_codecs)) as [Hc|Hc].
    + left. eauto.
    + right. intros (c' & [= <-] & ?). done.
  - right. intros (c' & [=] & _).
Defined.

Definition allowed_subtitle (s : stream) : Prop := allowed_codec s ∧ eng_or_und s.

Global Instance allowed_subtitle_dec s : Decision (allowed_subtitle s).
Proof. unfold allowed_subtitle. apply _. Defined.

(** [sv] is the first video stream of [ss], in probe order. *)
Definition first_video (ss : list stream) (sv : stream) : Prop :=
  ∃ before after, ss = before ++ sv :: after ∧
    Forall (λ s, ¬ is_video s) before ∧ is_video sv.

(** *** Parts of the ffmpeg command *)

(** The template of the mode, up to the audio mappings: what
    [build_ffmpeg_cmd] gives for no audio and no subtitle, without the
    output path. *)
Definition head_args (input_file mode : string) (video_codec : option string)
    : list string :=
  removelast (build_ffmpeg_cmd input_file "" mode video_codec [] []).

(** Four arguments per selected audio stream. *)
Definition audio_args (audio_indices : list string) : list string :=
  idx ← audio_indices; ["-map"; "0:" +:+ idx; "-metadata:s:a:0"; "language=eng"].

(** The arguments that map one subtitle entry. *)
Definition subtitle_args (sub : option subtitle) : list string :=
  match sub with
  | Some sub => ["-map"; "0:" +:+ sub_index sub; "-c:s"; "mov_text";
                 "-metadata:s:s:0"; "language=" +:+ sub_language sub]
  | None => []
  end.




Definition stream_copy_flags : list string := ["-c:v"; "copy"; "-c:a"; "copy"].

(** *** Runs *)

(** The three probes of [convert_to_mp4] returned the documents [a], [v]
    and [s]. *)
Definition probed (w : world) (input_file : string) (fs : filesystem)
    (a v s : probe_output) : Prop :=
  ffprobe w (probe_cmd input_file (Some "a")) fs = ProbeJson a ∧
  ffprobe w (probe_cmd input_file None) fs = ProbeJson v ∧
  ffprobe w (probe_cmd input_file (Some "s")) fs = ProbeJson s.

(** Probing succeeded and neither selector raised. *)
Definition selected (w : world) (input_file : string) (fs : filesystem)
    (a v s : probe_output) (audio_indices : list string) (subs : list subtitle) : Prop :=
  probed w input_file fs a v s ∧
  get_english_audio_indices a = Ok audio_indices ∧
  get_subtitle_streams s = Ok subs.

(** The events of the three probes. *)
Definition probe_events (input_file : string) : list event :=
  [Ran (probe_cmd input_file (Some "a")); Ran (probe_cmd input_file None);
   Ran (probe_cmd input_file (Some "s"))].

(** The events with which every iteration starts. *)
Definition preamble (tmp : string) (idx total : nat) (file : string) : list event :=
  [Created tmp; Printed (FileCount idx total); Printed (Processing file)].
Global Arguments preamble : simpl never.

(** The events [convert_to_mp4] can leave when its output path is [tmp]. *)
Definition convert_event (tmp : string) (e : event) : bool :=
  match e with
  | Printed (NoEnglishAudio | AV1Detected | RunningIn _ | DoneProcessing
            | CompletedIn | FFmpegError | UnexpectedError _) => true
  | Ran _ => true
  | Wrote p => bool_decide (p = tmp)
  | _ => false
  end.

(** The events [finalize] can leave. *)
Definition finalize_event (e : event) : bool :=
  match e with
  | MadeDirs _ | Moved _ _ | Removed _ | Printed (MovedEncoded _ _) => true
  | _ => false
  end.

(** The file names announced by "Processing: ..." lines, in order. *)
Definition processed (ev : list event) : list string :=
  omap (λ e, match e with Printed (Processing f) => Some f | _ => None end) ev.

(** *** Natural order *)

Global Instance natural_le_dec : RelDecision natural_le.
Proof. intros a b. unfold natural_le. apply _. Defined.

(** The runs of a name alternate between digits and other characters,
    starting with class [d]. *)
Fixpoint runs_alternate (d : bool) (rs : list (bool * string)) : Prop :=
  match rs with
  | [] => True
  | (d', _) :: rs' => d' = d ∧ runs_alternate (negb d) rs'
  end.

(** Unfolds the monad of the script around [convert_to_mp4]. *)
Ltac unfold_M :=
  unfold convert_to_mp4, try_except, probe_streams, run_ffprobe, lift, print, emit,
    mbind, M_bind, mret, M_ret, result_of, fs_of, events_of in *.

(** ** Concrete files and worlds *)

Module Scenario.

Definition a_stream (i : Z) (type codec : string) (lang : option string) : stream :=
  {| index := Some i; codec_type := Some type; codec_name := Some codec;
     tags := (λ l, {["language" := l]}) <$> lang |}.

(** What ffprobe prints for a file with streams [ss]: all of them, or
    those of the class asked for with [-select_streams]. *)
Definition streams_for (cmd : list string) (ss : list stream) : list stream :=
  if decide (cmd !! 4 = Some "-select_streams") then
    match cmd !! 5 with
    | Some "a" => filter (λ s, codec_type s = Some "audio") ss
    | Some "s" => filter (λ s, codec_type s = Some "subtitle") ss
    | _ => []
    end
  else ss.

Definition temp_name : string := "/tmp/tmpk3v9x1.mp4".

(** A host where the one file of the input folder has streams [ss] and
    the engine behaves as [engine]. *)
Definition host (names : list string) (ss : list stream) (engine : engine_run) : world :=
  {| ffprobe := λ cmd _, ProbeJson {| streams := Some (streams_for cmd ss) |};
     ffmpeg := λ _ _, engine;
     listdir := λ _ _, names;
     tempname := λ _, temp_name;
     mkdir_size := 4096 |}.

Definition engine_ok : engine_run :=
  {| engine_exit_status := EngineExitZero; engine_written := Some 700%N |}.

Definition folders (name : string) : filesystem :=
  <["in" := Dir 4096]> (<["out" := Dir 4096]> (<["in/" +:+ name := File 1000]> ∅)).

(** Scenario A: HEVC video, English AC3 audio, English SRT subtitle. *)
Definition movie : list stream :=
  [a_stream 0 "video" "hevc" None; a_stream 1 "audio" "ac3" (Some "eng");
   a_stream 2 "subtitle" "subrip" (Some "eng")].

(** Scenario B: the only audio track is French. *)
Definition clip : list stream :=
  [a_stream 0 "video" "h264" None; a_stream 1 "audio" "ac3" (Some "fre")].

(** Scenario C: AV1 video with an English audio track. *)
Definition show : list stream :=
  [a_stream 0 "video" "AV1" None; a_stream 1 "audio" "opus" (Some "eng")].

(** AV1 video whose only audio track is French. *)
Definition show_fre : list stream :=
  [a_stream 0 "video" "av1" None; a_stream 1 "audio" "opus" (Some "fre")].

(** Two qualifying subtitles and an untagged audio track. *)
Definition subbed : list stream :=
  [a_stream 0 "video" "h264" None; a_stream 1 "audio" "aac" None;
   a_stream 2 "subtitle" "hdmv_pgs_subtitle" (Some "eng");
   a_stream 3 "subtitle" "ass" None; a_stream 4 "subtitle" "subrip" (Some "eng")].

End Scenario.

Module Runs.
Import Scenario.

(** Scenario A, remux, no subfolders. *)
Definition movie_host : world := host ["Movie.mkv"] movie engine_ok.
Definition movie_run :=
  process_file movie_host "in" "out" "remux" false 1 1 "Movie.mkv" (folders "Movie.mkv").

(** Scenario B. *)
Definition clip_host : world := host ["Clip.mkv"] clip engine_ok.
Definition clip_conversion :=
  convert_to_mp4 clip_host "in/Clip.mkv" temp_name "remux"
    (<[temp_name := File 0]> (folders "Clip.mkv")).
Definition clip_run :=
  process_file clip_host "in" "out" "remux" false 1 1 "Clip.mkv" (folders "Clip.mkv").

(** Scenario C, and its variant without an English track. *)
Definition show_host : world := host ["Show.mkv"] show engine_ok.
Definition show_remux :=
  convert_to_mp4 show_host "in/Show.mkv" temp_name "remux" (folders "Show.mkv").
Definition show_fre_host : world := host ["Show.mkv"] show_fre engine_ok.
Definition show_fre_remux :=
  convert_to_mp4 show_fre_host "in/Show.mkv" temp_name "remux" (folders "Show.mkv").

(** Scenario D: a folder listed in an arbitrary order. *)
Definition episodes : list string :=
  ["Episode 10.mkv"; "sample.mkv"; "notes.txt"; "Episode 2.mkv"].
Definition episodes_host : world := host episodes movie engine_ok.
Definition episodes_batch :=
  process_folder episodes_host "in" "out" "remux" false (folders "Episode 2.mkv").
End Runs.

(** ** The command line *)

(** The three ways the script ends before it starts a batch; each prints
    its line and calls [sys.exit(1)]. *)
Inductive cli_error :=
| UsageError      (* "Usage: python script.py <inputPath> <outputPath> <encode|remux> <True|False>" *)
| ModeError       (* "Error: <encode|remux> must be 'encode' or 'remux'." *)
| BooleanError.   (* "Error: <True|False> must be a recognizable boolean value." *)

(** [sys.argv[i]], read only for [i < len(sys.argv)]. *)
Definition argv_at (argv : list string) (i : nat) : string := default "" (argv !! i).

(** The [if __name__ == '__main__':] block: the error the script stops on,
    or the batch it runs. *)
Definition main (w : world) (argv : list string) : cli_error + M unit :=
  if decide (length argv < 5) then inl UsageError else
  let input_path := argv_at argv 1 in
  let output_path := argv_at argv 2 in
  let first_run := PyStr.lower (argv_at argv 3) in
  let create_subfolders_arg := PyStr.lower (argv_at argv 4) in
  if bool_decide (first_run ∉ ["encode"; "remux"]) then inl ModeError else
  if bool_decide (create_subfolders_arg ∈ ["true"; "t"; "yes"; "y"; "1"]) then
    inr (process_folder w input_path output_path first_run true)
  else if bool_decide (create_subfolders_arg ∈ ["false"; "f"; "no"; "n"; "0"]) then
    inr (process_folder w input_path output_path first_run false)
  else inl BooleanError.

(** ** More vocabulary *)

Global Instance engine_exit_eq_dec : EqDecision engine_exit.
Proof. solve_decision. Defined.

(** The spellings the command line reads as yes and as no. *)
Definition true_tokens : list string := ["true"; "t"; "yes"; "y"; "1"].
Definition false_tokens : list string := ["false"; "f"; "no"; "n"; "0"].

(** The name has no path separator, as the names [os.listdir] returns. *)
Definition no_sep (name : string) : Prop := PyStr.contains name "/" = false.

(** The name is empty or made of dots only. *)
Definition only_dots (name : string) : Prop := PyStr.all_char "." name = true.

(** The line [convert_to_mp4] prints for a probe that did not deliver a
    document; [None] for one that did. *)
Definition probe_failure (r : probe_run) : option message :=
  match r with
  | ProbeNotStarted => Some (UnexpectedError OSError)
  | ProbeExitNonZero => Some FFmpegError
  | ProbeGarbage => Some (UnexpectedError JSONDecodeError)
  | ProbeJson _ => None
  end.

(** What an iteration on the input [inp] with the temporary file [tmp] may
    create, write, move and remove. *)
Definition iteration_event (inp tmp : string) (e : event) : Prop :=
  match e with
  | Created p | Wrote p => p = tmp
  | Moved src _ => src = tmp
  | Removed p => p = inp ∨ p = tmp
  | _ => True
  end.

(** What an iteration may leave after its three opening events: no second
    temporary file and no second announcement. *)
Definition body_event (inp tmp : string) (e : event) : Prop :=
  match e with
  | Created _ | Printed (FileCount _ _ | Processing _ | Banner) => False
  | _ => iteration_event inp tmp e
  end.

(** In a run with the events [all] over the input paths [inputs]: what is
    removed is an input or a temporary file of the run, and what is moved
    or written by the engine is a temporary file of the run. *)
Definition batch_event (inputs : list string) (all : list event) (e : event) : Prop :=
  match e with
  | Removed p => p ∈ inputs ∨ Created p ∈ all
  | Moved src _ => Created src ∈ all
  | Wrote p => Created p ∈ all
  | _ => True
  end.

(** The "File idx/total" lines, in order. *)
Definition counted (ev : list event) : list (nat * nat) :=
  omap (λ e, match e with Printed (FileCount i t) => Some (i, t) | _ => None end) ev.

(** The engine commands of a run, in order. *)
Definition engine_cmds (ev : list event) : list (list string) :=
  omap (λ e, match e with
             | Ran ("ffmpeg" :: args) => Some ("ffmpeg" :: args)
             | _ => None
             end) ev.

(** The remux template after the input: stream copy, first video stream,
    no metadata, fast start, quiet. *)
Definition remux_profile : list string :=
  ["-c:v"; "copy"; "-c:a"; "copy"; "-map"; "0:v:0"; "-map_metadata"; "-1";
   "-movflags"; "+faststart"; "-loglevel"; "quiet"].

(** ** The scanning scripts ([Resources])

    Two stand-alone scripts walk a folder tree and probe the audio codecs
    of every [.mp4] below it.  What the tree holds is an oracle, like the
    probes: whether the root exists and the sorted paths of
    [root.rglob("*.mp4")], as strings.  What the scripts write to standard
    error (the "not found" line, the progress counter) is left out. *)

Record tree := Tree {
  exists_path : string → bool;            (* Path(p).exists() *)
  rglob_mp4 : string → list string        (* sorted(Path(p).rglob("*.mp4")) *)
}.

(** [Path(sys.argv[1]) if len(sys.argv) > 1 else Path(".")] *)
Definition root_of (argv : list string) : string :=
  if decide (1 < length argv) then argv_at argv 1 else ".".

(** [if s.get("codec_name")]: the key is there and its string is not empty. *)
Definition truthy (o : option string) : bool :=
  match o with
  | Some c => negb (bool_decide (c = ""))
  | None => false
  end.

(** [ScanDTSAudioTracks_OutputTerminal.py] *)
Module ScanDTS.

(** [audio_codecs]: [None] when ffprobe exits with an error or prints no
    JSON; a probe that cannot be started raises, and nothing catches it. *)
Definition audio_codecs (w : world) (path : string) (fs : filesystem)
    : result (option (list string)) :=
  let cmd := ["ffprobe"; "-v"; "error"; "-select_streams"; "a";
              "-show_entries"; "stream=codec_name"; "-of"; "json"; path] in
  match ffprobe w cmd fs with
  | ProbeNotStarted => Raise OSError
  | ProbeExitNonZero => Ok None
  | ProbeGarbage => Ok None
  | ProbeJson payload =>
      let streams := default [] (streams payload) in
      Ok (Some ((λ s, default "" (codec_name s)) <$>
                filter (λ s, truthy (codec_name s) = true) streams))
  end.

Definition is_dts_only (codecs : list string) : bool :=
  if bool_decide (codecs = []) then false
  else forallb (λ c, PyStr.startswith (PyStr.lower c) "dts") codecs.

(** The [for path in sorted(root.rglob("*.mp4"))] loop: the paths printed,
    and how the loop ended. *)
Fixpoint for_paths (w : world) (fs : filesystem) (paths : list string)
    : list string * result unit :=
  match paths with
  | [] => ([], Ok ())
  | path :: paths' =>
      match audio_codecs w path fs with
      | Raise e => ([], Raise e)
      | Ok None => for_paths w fs paths'
      | Ok (Some codecs) =>
          if is_dts_only codecs
          then let '(out, r) := for_paths w fs paths' in (path :: out, r)
          else for_paths w fs paths'
      end
  end.

(** [main]: the lines printed on standard output and the exit status. *)
Definition main (w : world) (t : tree) (argv : list string) (fs : filesystem)
    : list string * result Z :=
  let root := root_of argv in
  if negb (exists_path t root) then ([], Ok 2%Z)
  else
    let '(out, r) := for_paths w fs (rglob_mp4 t root) in
    (out, _ ← r; Ok 0%Z).

End ScanDTS.

(** [ScanAudioTracks_ExportCSV.py] *)
Module ScanCSV.

Definition audio_codecs (w : world) (path : string) (fs : filesystem)
    : result (option (list string)) :=
  let cmd := ["ffprobe"; "-v"; "error"; "-select_streams"; "a";
              "-show_entries"; "stream=codec_name"; "-of"; "json"; path] in
  match ffprobe w cmd fs with
  | ProbeNotStarted => Raise OSError
  | ProbeExitNonZero => Ok None
  | ProbeGarbage => Ok None
  | ProbeJson payload =>
      let streams := default [] (streams payload) in
      Ok (Some ((λ s, default "" (codec_name s)) <$>
                filter (λ s, truthy (codec_name s) = true) streams))
  end.

Definition header : list string := ["Filename"; "AudioCodec"].

(** The [for index, path in enumerate(paths, start=1)] loop: the rows
    handed to each of the two writers, and how the loop ended. *)
Fixpoint for_paths (w : world) (fs : filesystem) (paths : list string)
    : list (list string) * result unit :=
  match paths with
  | [] => ([], Ok ())
  | path :: paths' =>
      match audio_codecs w path fs with
      | Raise e => ([], Raise e)
      | Ok None => for_paths w fs paths'
      | Ok (Some codecs) =>
          let codec_value :=
            if bool_decide (codecs = []) then "unknown" else String.concat ";" codecs in
          let row := [path; codec_value] in
          let '(rows, r) := for_paths w fs paths' in (row :: rows, r)
      end
  end.

(** What [main] leaves: the rows of [AudioScan_output.txt] ([None] when the
    file was not opened), the rows on standard output, the exit status. *)
Record scan := Scan {
  file_rows : option (list (list string));
  stdout_rows : list (list string);
  status : result Z
}.

Definition main (w : world) (t : tree) (argv : list string) (fs : filesystem) : scan :=
  let root := root_of argv in
  if negb (exists_path t root) then
    {| file_rows := None; stdout_rows := []; status := Ok 2%Z |}
  else
    let '(rows, r) := for_paths w fs (rglob_mp4 t root) in
    {| file_rows := Some (header :: rows); stdout_rows := header :: rows;
       status := _ ← r; Ok 0%Z |}.

End ScanCSV.

(** The command line both scripts probe a file with. *)
Definition scan_cmd (path : string) : list string :=
  ["ffprobe"; "-v"; "error"; "-select_streams"; "a";
   "-show_entries"; "stream=codec_name"; "-of"; "json"; path].

(** The probe of [path] delivers a document. *)
Definition delivers (w : world) (fs : filesystem) (path : string) : bool :=
  match ffprobe w (scan_cmd path) fs with ProbeJson _ => true | _ => false end.

(** The codec names [audio_codecs] reads off a document. *)
Definition codec_names (doc : probe_output) : list string :=
  (λ s, default "" (codec_name s)) <$>
  filter (λ s, truthy (codec_name s) = true) (default [] (streams doc)).

(** The stream has a codec name that is not empty. *)
Definition named (s : stream) (c : string) : Prop := codec_name s = Some c ∧ c ≠ "".

(** The probe of [path] delivers a document with at least one named audio
    stream, and every named one is a DTS variant. *)
Definition dts_only_file (w : world) (fs : filesystem) (path : string) : Prop :=
  ∃ doc, ffprobe w (scan_cmd path) fs = ProbeJson doc ∧
    (∃ s c, s ∈ default [] (streams doc) ∧ named s c) ∧
    (∀ s c, s ∈ default [] (streams doc) → named s c →
       ∃ q, PyStr.lower c = "dts" +:+ q).

(** ffprobe can be started on every path. *)
Definition probes_start (w : world) (fs : filesystem) (paths : list string) : Prop :=
  Forall (λ p, ffprobe w (scan_cmd p) fs ≠ ProbeNotStarted) paths.

(** ** Waiting for a running ffmpeg

    [check_if_process_running] polls [tasklist] and calls itself after
    every poll that finds the process.  [tasklist n] is what the [n]-th
    poll prints, [None] when the program cannot be started; [depth] is the
    number of nested calls the interpreter still allows, after which a call
    raises [RecursionError]. *)

Inductive wait_event :=
| StillRunning (name : string)   (* "Process {name} is running. Sleeping 10 seconds & trying again" *)
| Slept (seconds : nat)          (* sleep(seconds) *)
| NotRunning (name : string)     (* "Process {name} is not running. Continuing..." *)
| CheckError.                    (* "Error checking process: {e}" *)

(** The value returned ([Some None] is Python's [None], the end of the
    function without a [return]), or [None] when the call itself could not
    be made; and the events, in order. *)
Fixpoint check_if_process_running (tasklist : nat → option string) (depth n : nat)
    (process_name : string) : option (option bool) * list wait_event :=
  match depth with
  | 0 => (None, [])
  | S depth' =>
      (* try: *)
      match tasklist n with
      | None => (* except Exception *) (Some (Some false), [CheckError])
      | Some stdout =>
          if PyStr.contains (PyStr.lower stdout) (PyStr.lower process_name) then
            match check_if_process_running tasklist depth' (S n) process_name with
            | (Some _, ev) =>
                (Some None, StillRunning process_name :: Slept 10 :: ev)
            | (None, ev) =>
                (* except Exception *)
                (Some (Some false),
                 StillRunning process_name :: Slept 10 :: ev ++ [CheckError])
            end
          else (Some (Some false), [NotRunning process_name])
      end
  end.

(** The [n]-th poll lists the process: its name occurs in the output, in
    any letter case. *)
Definition listed (tasklist : nat → option string) (process_name : string) (n : nat)
    : Prop :=
  ∃ stdout, tasklist n = Some stdout ∧
    ∃ p q, PyStr.lower stdout = p +:+ PyStr.lower process_name +:+ q.

(** The seconds slept in a run. *)
Definition slept (ev : list wait_event) : nat :=
  sum_list (omap (λ e, match e with Slept s => Some s | _ => None end) ev).

(** ** More concrete cases *)

Module Cases.
Import Scenario.

(** An [.mp4] converted inside its own folder. *)
Definition in_place_host : world := host ["Movie.mp4"] movie engine_ok.
Definition in_place_run :=
  process_file in_place_host "in" "in" "remux" false 1 1 "Movie.mp4" (folders "Movie.mp4").

(** Scenario A with subfolders, where a regular file sits at the place of
    the subfolder. *)
Definition blocked : filesystem := <["out/Movie" := File 1]> (folders "Movie.mkv").
Definition blocked_run :=
  process_file Runs.movie_host "in" "out" "remux" true 1 1 "Movie.mkv" blocked.

(** A host where ffprobe exits with an error on every file. *)
Definition failing_probe_host : world :=
  {| ffprobe := λ _ _, ProbeExitNonZero;
     ffmpeg := λ _ _, engine_ok;
     listdir := λ _ _, ["Movie.mkv"];
     tempname := λ _, temp_name;
     mkdir_size := 4096 |}.

(** An English subtitle stream whose record has no index. *)
Definition unindexed : probe_output :=
  {| streams := Some [{| index := None; codec_type := Some "subtitle";
                         codec_name := Some "subrip";
                         tags := Some {["language" := "eng"]} |}] |}.

(** A library of two files: one with two DTS tracks and a track without a
    codec name, one with a DTS and an AC3 track. *)
Definition library : tree :=
  {| exists_path := λ p, bool_decide (p = "movies");
     rglob_mp4 := λ _, ["movies/a.mp4"; "movies/b.mp4"] |}.

Definition dts_tracks : probe_output :=
  {| streams := Some [a_stream 1 "audio" "dts" (Some "eng");
                      a_stream 2 "audio" "DTS-HD MA" None;
                      {| index := Some 3%Z; codec_type := Some "audio";
                         codec_name := None; tags := None |}] |}.

Definition mixed_tracks : probe_output :=
  {| streams := Some [a_stream 1 "audio" "dts" (Some "eng");
                      a_stream 2 "audio" "ac3" (Some "eng")] |}.

Definition library_host : world :=
  {| ffprobe := λ cmd _,
       if decide (List.last cmd "" = "movies/a.mp4") then ProbeJson dts_tracks
       else ProbeJson mixed_tracks;
     ffmpeg := λ _ _, engine_ok;
     listdir := λ _ _, [];
     tempname := λ _, temp_name;
     mkdir_size := 4096 |}.

(** ffmpeg is listed by the first two polls and gone at the third. *)
Definition polls (n : nat) : option string :=
  if decide (n < 2) then Some "explorer.exe 412 Console; FFMPEG.EXE 977 Console"
  else Some "explorer.exe 412 Console".

End Cases.

(** * Proofs *)

(** ** The shape of the command *)

Lemma fold_audio (ai : list string) (cmd : list string) :
  fold_left (λ cmd idx,
      (cmd ++ ["-map"; "0:" +:+ idx]) ++ ["-metadata:s:a:0"; "language=eng"]) ai cmd
  = cmd ++ audio_args ai.
Proof.
  revert cmd. induction ai as [|idx ai IH]; intros cmd; simpl.
  - by rewrite app_nil_r.
  - rewrite IH. unfold audio_args. simpl. by rewrite <- !app_assoc.
Qed.

Lemma build_ffmpeg_cmd_shape input_file temp_file mode video_codec audio_indices subs :
  build_ffmpeg_cmd input_file temp_file mode video_codec audio_indices subs =
  head_args input_file mode video_codec ++ audio_args audio_indices ++
  subtitle_args (head subs) ++ [temp_file].
Proof.
  unfold build_ffmpeg_cmd, head_args, build_ffmpeg_cmd.
  assert (Haud : ∀ cmd : list string,
    match audio_indices with
    | [] => cmd
    | _ :: _ => fold_left (λ cmd idx,
        (cmd ++ ["-map"; "0:" +:+ idx]) ++ ["-metadata:s:a:0"; "language=eng"])
        audio_indices cmd
    end = cmd ++ audio_args audio_indices).
  { intros cmd. destruct audio_indices; [by rewrite app_nil_r | apply fold_audio]. }
  rewrite Haud.
  assert (Hsub : ∀ cmd : list string,
    match subs with
    | [] => cmd
    | sub :: _ => cmd ++ ["-map"; "0:" +:+ sub_index sub; "-c:s"; "mov_text";
                         "-metadata:s:s:0"; "language=" +:+ sub_language sub]
    end = cmd ++ subtitle_args (head subs)).
  { intros cmd. destruct subs; simpl; [by rewrite app_nil_r | done]. }
  rewrite Hsub.
  repeat case_decide; simpl; by rewrite <- ?app_assoc.
Qed.

Lemma build_ffmpeg_cmd_last input_file temp_file mode video_codec audio_indices subs :
  List.last (build_ffmpeg_cmd input_file temp_file mode video_codec audio_indices subs) ""
  = temp_file.
Proof.
  rewrite build_ffmpeg_cmd_shape, !app_assoc. apply last_last.
Qed.

Lemma audio_args_lookup (ai : list string) (k : nat) (idx : string) :
  ai !! k = Some idx →
  audio_args ai !! (4 * k) = Some "-map" ∧
  audio_args ai !! (4 * k + 1) = Some ("0:" +:+ idx) ∧
  audio_args ai !! (4 * k + 2) = Some "-metadata:s:a:0" ∧
  audio_args ai !! (4 * k + 3) = Some "language=eng".
Proof.
  revert k. induction ai as [|a ai IH]; intros k Hk; [done|].
  destruct k as [|k]; simpl in Hk.
  - by simplify_eq.
  - apply IH in Hk. replace (4 * S k) with (S (S (S (S (4 * k))))) by lia.
    exact Hk.
Qed.




(** ** The selectors *)

Lemma english_or_und_spec s : english_or_und s = true ↔ eng_or_und s.
Proof.
  unfold english_or_und, eng_or_und, language.
  rewrite bool_decide_eq_true, !elem_of_cons, elem_of_nil. tauto.
Qed.

Lemma subtitle_ok_spec s : subtitle_ok s = true ↔ allowed_subtitle s.
Proof.
  unfold subtitle_ok, allowed_subtitle. rewrite andb_true_iff, english_or_und_spec.
  unfold allowed_codec. destruct (codec_name s) as [c|]; simpl.
  - rewrite bool_decide_eq_true. split.
    + intros [? ?]. eauto.
    + intros [(c' & [= <-] & ?) ?]. done.
  - split; [by intros [? _] | by intros [(c' & [=] & _) _]].
Qed.

Lemma no_language_und s : no_language s → language s = "und".
Proof.
  unfold language, tag. intros [-> | (t & -> & Ht)]; simpl.
  - by rewrite lookup_empty.
  - by rewrite Ht.
Qed.

Lemma comprehension_ok {A B} (f : A → result B) (cond : A → bool) (l : list A) :
  Forall (λ s, cond s = true → ∃ b, f s = Ok b) l →
  ∃ bs, comprehension f cond l = Ok bs ∧
        Forall2 (λ b s, f s = Ok b) bs (filter (λ s, cond s = true) l).
Proof.
  induction 1 as [|s l Hs _ (bs & IH & IH2)]; simpl.
  - exists []. split; [done|]. constructor.
  - destruct (cond s) eqn:Hc.
    + destruct (Hs eq_refl) as [b Hb]. exists (b :: bs).
      rewrite Hb, filter_cons_True by done. simpl. rewrite IH. simpl.
      split; [done|]. by constructor.
    + exists bs. rewrite filter_cons_False by (rewrite Hc; done). done.
Qed.

Lemma comprehension_raise {A B} (f : A → result B) (cond : A → bool) (l : list A) e :
  comprehension f cond l = Raise e → ∃ s, s ∈ l ∧ cond s = true ∧ f s = Raise e.
Proof.
  induction l as [|s l IH]; simpl; [done|].
  destruct (cond s) eqn:Hc.
  - destruct (f s) as [b|e'] eqn:Hf; simpl.
    + destruct (comprehension f cond l) eqn:Hl; simpl; [done|].
      intros [= ->]. destruct IH as (s' & ? & ? & ?); [done|].
      exists s'. split; [by right|done].
    + intros [= ->]. exists s. split; [by left|done].
  - intros He. destruct (IH He) as (s' & ? & ? & ?).
    exists s'. split; [by right|done].
Qed.

Lemma str_index_has_index s : has_index s → ∃ b, str_index s = Ok b.
Proof. intros [z Hz]. unfold str_index. rewrite Hz. eauto. Qed.

Lemma get_english_audio_indices_ok (audio_streams : probe_output) :
  Forall has_index (default [] (streams audio_streams)) →
  ∃ l, get_english_audio_indices audio_streams = Ok l ∧
       Forall2 (λ i s, ∃ z, index s = Some z ∧ i = pretty z) l
         (filter eng_or_und (default [] (streams audio_streams))).
Proof.
  intros Hidx. unfold get_english_audio_indices.
  destruct (comprehension_ok str_index english_or_und
              (default [] (streams audio_streams))) as (l & Hl & Hf).
  { eapply Forall_impl; [exact Hidx|]. intros s Hs _. by apply str_index_has_index. }
  exists l. split; [done|].
  erewrite list_filter_iff in Hf by (intros; apply english_or_und_spec).
  eapply Forall2_impl; [exact Hf|]. intros i s. unfold str_index.
  destruct (index s); [|done]. intros [= <-]. eauto.
Qed.

Lemma get_subtitle_streams_ok (subtitle_streams : probe_output) :
  Forall has_index (default [] (streams subtitle_streams)) →
  ∃ subs, get_subtitle_streams subtitle_streams = Ok subs ∧
       Forall2 (λ sub s, ∃ z, index s = Some z ∧ sub_index sub = pretty z ∧
                  sub_codec sub = default "unknown" (codec_name s) ∧
                  sub_language sub = language s)
         subs (filter allowed_subtitle (default [] (streams subtitle_streams))).
Proof.
  intros Hidx. unfold get_subtitle_streams.
  destruct (comprehension_ok subtitle_entry subtitle_ok
              (default [] (streams subtitle_streams))) as (l & Hl & Hf).
  { eapply Forall_impl; [exact Hidx|]. intros s [z Hz] _.
    unfold subtitle_entry, str_index. rewrite Hz. simpl. eauto. }
  exists l. split; [done|].
  erewrite list_filter_iff in Hf by (intros; apply subtitle_ok_spec).
  eapply Forall2_impl; [exact Hf|]. intros sub s. unfold subtitle_entry, str_index.
  destruct (index s) as [z|]; [|done]. simpl. intros [= <-]. simpl. by exists z.
Qed.


Lemma get_video_codec_loop_spec (l : list stream) :
  (Forall (λ s, ¬ is_video s) l ∧ get_video_codec_loop l = None) ∨
  (∃ before s after, l = before ++ s :: after ∧ Forall (λ s, ¬ is_video s) before ∧
     is_video s ∧
     get_video_codec_loop l = Some (PyStr.lower (default "" (codec_name s)))).
Proof.
  induction l as [|a l IH]; simpl.
  - left. split; [constructor|done].
  - case_bool_decide as Ha.
    + right. exists [], a, l. by repeat split.
    + destruct IH as [[Hl Hf] | (before & x & after & -> & Hb & Hx & Hf)].
      * left. split; [by constructor | done].
      * right. exists (a :: before), x, after. repeat split; [by constructor|done..].
Qed.


(** ** Converting one file *)

Lemma convert_to_mp4_selected w inp tmp mode fs a v s ai subs :
  selected w inp fs a v s ai subs →
  convert_to_mp4 w inp tmp mode fs =
    if bool_decide (ai = []) then
      (Ok false, fs, probe_events inp ++ [Printed NoEnglishAudio])
    else if bool_decide (mode = "remux") && bool_decide (get_video_codec v = Some "av1") then
      (Ok false, fs, probe_events inp ++ [Printed AV1Detected])
    else
      let cmd := build_ffmpeg_cmd inp tmp mode (get_video_codec v) ai subs in
      match run_ffmpeg w cmd fs with
      | (Ok _, fs', ev) =>
          (Ok true, fs', probe_events inp ++ [Printed (RunningIn mode)] ++ ev ++
                         [Printed DoneProcessing; Printed CompletedIn])
      | (Raise e, fs', ev) =>
          (Ok false, fs', probe_events inp ++ [Printed (RunningIn mode)] ++ ev ++
             [Printed match e with CalledProcessError => FFmpegError
                    | _ => UnexpectedError e end])
      end.
Proof.
  intros ((Ha & Hv & Hs) & Hai & Hsubs). unfold_M.
  rewrite Ha, Hv, Hs. simpl. rewrite Hai, Hsubs. simpl.
  case_bool_decide; [done|].
  destruct (bool_decide (mode = "remux") && _); [done|].
  unfold run_ffmpeg.
  destruct (ffmpeg w _ fs) as [[] [n|]]; simpl; done.
Qed.

Lemma selected_unique w inp fs a v s ai subs a' v' s' ai' subs' :
  selected w inp fs a v s ai subs → selected w inp fs a' v' s' ai' subs' →
  a' = a ∧ v' = v ∧ s' = s ∧ ai' = ai ∧ subs' = subs.
Proof.
  intros ((Ha & Hv & Hs) & Hai & Hsubs) ((Ha' & Hv' & Hs') & Hai' & Hsubs').
  assert (a' = a) as -> by congruence. assert (v' = v) as -> by congruence.
  assert (s' = s) as -> by congruence. repeat split; congruence.
Qed.

Lemma convert_to_mp4_selection w inp tmp mode fs :
  (∃ a v s ai subs, selected w inp fs a v s ai subs) ∨
  ((∀ a v s ai subs, ¬ selected w inp fs a v s ai subs) ∧
   ∃ ev m, convert_to_mp4 w inp tmp mode fs = (Ok false, fs, ev ++ [Printed m]) ∧
     Forall (λ e, ∃ c, e = Ran c) ev ∧
     (m = FFmpegError ∨ ∃ e, m = UnexpectedError e)).
Proof.
  destruct (ffprobe w (probe_cmd inp (Some "a")) fs) as [| | |a] eqn:Ha;
  [right; (split; [intros ????? ((?&?&?)&?&?); congruence|]);
   unfold_M; rewrite Ha; simpl; eexists [_], _; split; [reflexivity|];
   split; [repeat constructor; eauto | eauto]..|].
  destruct (ffprobe w (probe_cmd inp None) fs) as [| | |v] eqn:Hv;
  [right; (split; [intros ????? ((?&?&?)&?&?); congruence|]);
   unfold_M; rewrite Ha, Hv; simpl; eexists [_; _], _; split; [reflexivity|];
   split; [repeat constructor; eauto | eauto]..|].
  destruct (ffprobe w (probe_cmd inp (Some "s")) fs) as [| | |s] eqn:Hs;
  [right; (split; [intros ????? ((?&?&?)&?&?); congruence|]);
   unfold_M; rewrite Ha, Hv, Hs; simpl; eexists [_; _; _], _; split; [reflexivity|];
   split; [repeat constructor; eauto | eauto]..|].
  destruct (get_english_audio_indices a) as [ai|e] eqn:Hai.
  - destruct (get_subtitle_streams s) as [subs|e] eqn:Hsubs.
    + left. exists a, v, s, ai, subs. by repeat split.
    + right. split; [intros ????? ((?&?&?)&?&?); congruence|].
      unfold_M. rewrite Ha, Hv, Hs. simpl. rewrite Hai, Hsubs. simpl.
      apply comprehension_raise in Hsubs as (x & _ & _ & Hx).
      unfold subtitle_entry, str_index in Hx. destruct (index x); simplify_eq/=.
      eexists [_; _; _], _. split; [reflexivity|]. split; [repeat constructor; eauto | eauto].
  - right. split; [intros ????? ((?&?&?)&?&?); congruence|].
    unfold_M. rewrite Ha, Hv, Hs. simpl. rewrite Hai. simpl.
    apply comprehension_raise in Hai as (x & _ & _ & Hx).
    unfold str_index in Hx. destruct (index x); simplify_eq/=.
    eexists [_; _; _], _. split; [reflexivity|]. split; [repeat constructor; eauto | eauto].
Qed.

Lemma run_ffmpeg_effect w cmd fs :
  ∃ r fs' ev, run_ffmpeg w cmd fs = (r, fs', ev) ∧
    (r = Ok () ∨ r = Raise CalledProcessError ∨ r = Raise OSError) ∧
    ((fs' = fs ∧ ev = [Ran cmd]) ∨
     (∃ n, fs' = <[List.last cmd "" := File n]> fs ∧ ev = [Ran cmd; Wrote (List.last cmd "")])).
Proof.
  unfold run_ffmpeg. destruct (ffmpeg w cmd fs) as [[] [n|]]; simpl;
    eexists _, _, _; (split; [reflexivity|]); split; eauto.
Qed.

Lemma convert_to_mp4_effect w inp tmp mode fs :
  ∃ b fs' ev, convert_to_mp4 w inp tmp mode fs = (Ok b, fs', ev) ∧
    (fs' = fs ∨ ∃ n, fs' = <[tmp := File n]> fs) ∧
    forallb (convert_event tmp) ev = true.
Proof.
  destruct (convert_to_mp4_selection w inp tmp mode fs)
    as [(a & v & s & ai & subs & Hsel) | (_ & ev & m & -> & Hev & Hm)].
  - rewrite (convert_to_mp4_selected _ _ _ _ _ _ _ _ _ _ Hsel).
    case_bool_decide; [eexists _, _, _; split; [reflexivity|]; split; [by left|done]|].
    destruct (_ && _); [eexists _, _, _; split; [reflexivity|]; split; [by left|done]|].
    simpl.
    destruct (run_ffmpeg_effect w (build_ffmpeg_cmd inp tmp mode (get_video_codec v) ai subs) fs)
      as (r & fs' & ev & -> & Hr & Hfs).
    rewrite build_ffmpeg_cmd_last in Hfs.
    assert (Hfs' : fs' = fs ∨ ∃ n, fs' = <[tmp := File n]> fs).
    { destruct Hfs as [[-> _] | (n & -> & _)]; [by left | right; by exists n]. }
    assert (Hev : forallb (convert_event tmp) ev = true).
    { destruct Hfs as [[_ ->] | (n & _ & ->)]; simpl; [done|].
      by rewrite bool_decide_true. }
    destruct Hr as [-> | [-> | ->]]; eexists _, _, _; (split; [reflexivity|]);
      (split; [done|]); simpl; rewrite forallb_app, Hev; done.
  - eexists _, _, _. split; [reflexivity|]. split; [by left|].
    rewrite forallb_app. apply andb_true_iff. split.
    + apply forallb_forall. intros e He%list_elem_of_In.
      rewrite Forall_forall in Hev. destruct (Hev e He) as [c ->]. done.
    + destruct Hm as [-> | [e ->]]; done.
Qed.


(** ** One iteration of the loop *)

Lemma cleanup_run tmp e (fs : filesystem) :
  cleanup tmp e fs =
    (Ok true, if is_file fs tmp then delete tmp fs else fs,
     Printed (UnexpectedError e) :: if is_file fs tmp then [Removed tmp] else []).
Proof.
  unfold cleanup, try_except, os_remove, is_file, print, emit, mbind, M_bind, mret, M_ret.
  destruct (fs !! tmp) as [[n|n]|]; reflexivity.
Qed.

Section process_file.
Context (w : world) (input_path output_path mode : string) (cs : bool)
        (idx total : nat) (file : string) (fs : filesystem).

Let inp := OsPath.join input_path file.
Let tmp := tempname w fs.
Let dst := output_file_path_of output_path file cs.
Let dir := OsPath.join output_path (OsPath.splitext file).1.
Let fs0 : filesystem := <[tmp := File 0]> fs.

Lemma process_file_failed fs1 ev1 :
  convert_to_mp4 w inp tmp mode fs0 = (Ok false, fs1, ev1) →
  process_file w input_path output_path mode cs idx total file fs =
    (Ok (), fs1, preamble tmp idx total file ++ ev1 ++
                 [Printed ErrorProcessing; Printed TotalRuntime]).
Proof.
  subst inp tmp dst dir fs0.
  intros Hc. unfold process_file, NamedTemporaryFile, try_except, print, emit,
    mbind, M_bind, mret, M_ret.
  rewrite Hc. simpl. by rewrite <- app_assoc.
Qed.

Lemma process_file_converted fs1 ev1 :
  convert_to_mp4 w inp tmp mode fs0 = (Ok true, fs1, ev1) →
  process_file w input_path output_path mode cs idx total file fs =
    match finalize w inp tmp dst dir cs fs1 with
    | (Ok _, fs2, ev2) =>
        (Ok (), fs2, preamble tmp idx total file ++ ev1 ++ ev2 ++ [Printed TotalRuntime])
    | (Raise e, fs2, ev2) =>
        if is_Exception e then
          (Ok (), if is_file fs2 tmp then delete tmp fs2 else fs2,
           preamble tmp idx total file ++ ev1 ++ ev2 ++
           Printed (UnexpectedError e) :: if is_file fs2 tmp then [Removed tmp] else [])
        else (Raise e, fs2, preamble tmp idx total file ++ ev1 ++ ev2)
    end.
Proof.
  subst inp tmp dst dir fs0.
  intros Hc. unfold process_file, NamedTemporaryFile, try_except, print, emit,
    mbind, M_bind, mret, M_ret.
  rewrite Hc. simpl.
  destruct (finalize _ _ _ _ _ _ fs1) as [[[[]|e] fs2] ev2]; simpl.
  - by rewrite <- !app_assoc.
  - destruct (is_Exception e); [|done].
    rewrite cleanup_run. simpl. by rewrite app_nil_r, <- !app_assoc.
Qed.
End process_file.

Lemma os_makedirs_spec w dir (fs : filesystem) :
  ∃ r fs' ev, os_makedirs w dir fs = (r, fs', ev) ∧
    ((r = Raise OSError ∧ fs' = fs ∧ ev = []) ∨
     (r = Ok () ∧ fs' = fs ∧ ev = []) ∨
     (r = Ok () ∧ fs !! dir = None ∧ fs' = <[dir := Dir (mkdir_size w)]> fs ∧
      ev = [MadeDirs dir])).
Proof.
  unfold os_makedirs. destruct (fs !! dir) as [[?|?]|] eqn:Hd.
  - eexists _, _, _. split; [reflexivity|]. by left.
  - eexists _, _, _. split; [reflexivity|]. right. by left.
  - destruct (is_file fs (OsPath.dirname dir)).
    + eexists _, _, _. split; [reflexivity|]. by left.
    + eexists _, _, _. split; [reflexivity|]. right. by right.
Qed.

Lemma shutil_move_spec src dst (fs : filesystem) m :
  fs !! src = Some (File m) →
  (∃ real_dst, shutil_move src dst fs =
      (Ok (), <[real_dst := File m]> (delete src fs), [Moved src real_dst]) ∧
      (real_dst = dst ∨ fs !! real_dst = None)) ∨
  (∃ e, shutil_move src dst fs = (Raise e, fs, []) ∧ is_Exception e = true).
Proof.
  intros Hsrc. unfold shutil_move. rewrite Hsrc.
  destruct (is_dir fs dst).
  - case_bool_decide as Hex.
    + right. by exists ShutilError.
    + left. eexists. split; [reflexivity|]. right.
      by apply eq_None_not_Some.
  - destruct (parent_ok fs dst).
    + left. eexists. split; [reflexivity|]. by left.
    + right. by exists OSError.
Qed.

(** [finalize] on a state where the input and the temporary output are two
    distinct regular files. *)
Lemma finalize_spec w inp tmp dst dir cs (fs : filesystem) n m :
  fs !! inp = Some (File n) → fs !! tmp = Some (File m) → inp ≠ tmp →
  (∃ fs' ev real_dst,
      finalize w inp tmp dst dir cs fs =
        (Ok (), fs', ev ++ [Moved tmp real_dst;
                            Printed (MovedEncoded (round_mb n) (round_mb m));
                            Removed inp]) ∧
      fs' !! inp = None ∧
      (ev = [] ∨ ev = [MadeDirs dir])) ∨
  (∃ e fs' ev,
      finalize w inp tmp dst dir cs fs = (Raise e, fs', ev) ∧
      is_Exception e = true ∧
      fs' !! inp = Some (File n) ∧ fs' !! tmp = Some (File m) ∧
      (ev = [] ∨ ev = [MadeDirs dir])).
Proof.
  intros Hinp Htmp Hne.
  assert (Hmk : ∃ r fs1 ev1,
    (if cs then os_makedirs w dir else mret ()) fs = (r, fs1, ev1) ∧
    (r = Ok () ∨ r = Raise OSError) ∧
    fs1 !! inp = Some (File n) ∧ fs1 !! tmp = Some (File m) ∧
    (ev1 = [] ∨ ev1 = [MadeDirs dir])).
  { destruct cs.
    - destruct (os_makedirs_spec w dir fs) as (r & fs1 & ev1 & -> & H).
      exists r, fs1, ev1. split; [done|].
      destruct H as [(-> & -> & ->) | [(-> & -> & ->) | (-> & Hd & -> & ->)]]; eauto 10.
      split; [by left|].
      rewrite !lookup_insert_ne by congruence. eauto. 
    - eexists _, _, _. split; [reflexivity|]. eauto 10. }
  destruct Hmk as (r & fs1 & ev1 & Hmk & Hr & Hinp1 & Htmp1 & Hev1).
  assert (Hfin : finalize w inp tmp dst dir cs fs =
    match r with
    | Ok _ =>
        match shutil_move tmp dst fs1 with
        | (Ok _, fs2, ev2) =>
            match os_remove inp fs2 with
            | (r3, fs3, ev3) =>
                (r3, fs3, ev1 ++ ev2 ++
                   Printed (MovedEncoded (round_mb n) (round_mb m)) :: ev3)
            end
        | (Raise e, fs2, ev2) => (Raise e, fs2, ev1 ++ ev2)
        end
    | Raise e => (Raise e, fs1, ev1)
    end).
  { unfold finalize, mbind, M_bind, os_path_getsize, print, emit. rewrite Hmk.
    destruct r; [|done]. rewrite Hinp1, Htmp1. simpl.
    destruct (shutil_move tmp dst fs1) as [[[[]|e] fs2] ev2]; [|done].
    by destruct (os_remove inp fs2) as [[r3 fs3] ev3]. }
  rewrite Hfin. clear Hfin.
  destruct Hr as [-> | ->]; [|right; exists OSError, fs1, ev1; by repeat split].
  destruct (shutil_move_spec tmp dst fs1 m Htmp1) as [(rd & -> & Hrd) | (e & -> & He)].
  - left. unfold os_remove.
    assert (Hrm : ∃ k, <[rd := File m]> (delete tmp fs1) !! inp = Some (File k)).
    { destruct (decide (rd = inp)) as [->|Hn].
      - exists m. by rewrite lookup_insert_eq.
      - exists n. rewrite lookup_insert_ne, lookup_delete_ne by done. done. }
    destruct Hrm as [k Hk]. rewrite Hk.
    eexists _, ev1, rd. split; [reflexivity|].
    split; [by rewrite lookup_delete_eq | done].
  - right. exists e, fs1, ev1. rewrite app_nil_r. by repeat split.
Qed.


Lemma finalize_total w inp tmp dst dir cs (fs : filesystem) :
  ∃ r fs' ev, finalize w inp tmp dst dir cs fs = (r, fs', ev) ∧
    (r = Ok () ∨ r = Raise OSError ∨ r = Raise ShutilError) ∧
    forallb finalize_event ev = true.
Proof.
  unfold finalize, mbind, M_bind, mret, M_ret, print, emit,
    os_makedirs, os_path_getsize, shutil_move, os_remove.
  destruct cs; repeat (case_match; simplify_eq/=);
    eexists _, _, _; (split; [reflexivity|]); split; eauto.
Qed.

Section one_file.
Context (w : world) (input_path output_path mode : string) (cs : bool)
        (idx total : nat) (file : string) (fs : filesystem) (n : N).

Let inp := OsPath.join input_path file.
Let tmp := tempname w fs.
Let dir := OsPath.join output_path (OsPath.splitext file).1.
Let fs0 : filesystem := <[tmp := File 0]> fs.
Let o := process_file w input_path output_path mode cs idx total file fs.

Hypothesis input_is_file : fs !! inp = Some (File n).
Hypothesis temp_is_fresh : fs !! tmp = None.

Lemma process_file_cases :
  ∃ b fs1 ev1,
    convert_to_mp4 w inp tmp mode fs0 = (Ok b, fs1, ev1) ∧
    forallb (convert_event tmp) ev1 = true ∧
    ((b = false ∧
      o = (Ok (), fs1, preamble tmp idx total file ++ ev1 ++
                       [Printed ErrorProcessing; Printed TotalRuntime]) ∧
      fs1 !! inp = Some (File n) ∧ is_file fs1 tmp = true) ∨
     (b = true ∧ ∃ fs' mk real_dst m,
      o = (Ok (), fs', (preamble tmp idx total file ++ ev1 ++ mk) ++
                       [Moved tmp real_dst;
                        Printed (MovedEncoded (round_mb n) (round_mb m));
                        Removed inp; Printed TotalRuntime]) ∧
      fs' !! inp = None ∧ (mk = [] ∨ mk = [MadeDirs dir])) ∨
     (b = true ∧ ∃ e fs' mk,
      o = (Ok (), fs', preamble tmp idx total file ++ ev1 ++ mk ++
                       [Printed (UnexpectedError e); Removed tmp]) ∧
      fs' !! inp = Some (File n) ∧ fs' !! tmp = None ∧
      (mk = [] ∨ mk = [MadeDirs dir]))).
Proof.
  assert (Hne : inp ≠ tmp) by (intros Heq; rewrite Heq in input_is_file; congruence).
  destruct (convert_to_mp4_effect w inp tmp mode fs0) as (b & fs1 & ev1 & Hc & Hfs1 & Hev1).
  assert (Hinp1 : fs1 !! inp = Some (File n)).
  { destruct Hfs1 as [-> | [k ->]]; unfold fs0;
      rewrite ?lookup_insert_ne by done; done. }
  assert (Htmp1 : ∃ m, fs1 !! tmp = Some (File m)).
  { destruct Hfs1 as [-> | [k ->]]; unfold fs0; rewrite lookup_insert_eq; eauto. }
  destruct Htmp1 as [m Htmp1].
  exists b, fs1, ev1. split; [done|]. split; [done|].
  destruct b.
  - right. unfold o. rewrite (process_file_converted _ _ _ _ _ _ _ _ _ _ _ Hc).
    fold inp tmp dir.
    destruct (finalize_spec w inp tmp (output_file_path_of output_path file cs) dir cs
                fs1 n m Hinp1 Htmp1 Hne)
      as [(fs' & ev & rd & -> & Hgone & Hev) | (e & fs' & ev & -> & He & Hi & Ht & Hev)].
    + left. split; [done|]. exists fs', ev, rd, m. split; [|done].
      f_equal. by rewrite <- !app_assoc.
    + right. split; [done|]. rewrite He. unfold is_file. rewrite Ht.
      exists e, (delete tmp fs'), ev. split; [done|].
      rewrite lookup_delete_ne by done. rewrite lookup_delete_eq. done.
  - left. split; [done|]. split; [exact (process_file_failed _ _ _ _ _ _ _ _ _ _ _ Hc)|].
    split; [done|]. unfold is_file. by rewrite Htmp1.
Qed.
End one_file.


Lemma convert_event_elem tmp ev e :
  forallb (convert_event tmp) ev = true → e ∈ ev → convert_event tmp e = true.
Proof.
  intros Hall He. rewrite forallb_forall in Hall. apply Hall. by apply list_elem_of_In.
Qed.

Lemma preamble_elem tmp idx total file e :
  e ∈ preamble tmp idx total file →
  e = Created tmp ∨ e = Printed (FileCount idx total) ∨ e = Printed (Processing file).
Proof. unfold preamble. rewrite !elem_of_cons, elem_of_nil. tauto. Qed.


(** ** The loop body: move, then delete *)



(** ** The natural order is a total preorder *)

Lemma string_compare_refl s : String.compare s s = Eq.
Proof.
  induction s as [|c s IH]; simpl; [done|].
  unfold Ascii.compare. by rewrite N.compare_refl.
Qed.

Lemma string_compare_lt_trans s1 s2 s3 :
  String.compare s1 s2 = Lt → String.compare s2 s3 = Lt → String.compare s1 s3 = Lt.
Proof.
  intros H12 H23.
  assert (Hle : String.le s1 s3).
  { transitivity s2; unfold String.le, String.leb; [by rewrite H12 | by rewrite H23]. }
  unfold String.le, String.leb in Hle.
  destruct (String.compare s1 s3) eqn:H13; [|done|done].
  apply String.compare_eq_iff in H13 as ->.
  rewrite String.compare_antisym, H23 in H12. done.
Qed.

Lemma chunk_compare_refl a : chunk_compare a a = Eq.
Proof. destruct a; simpl; [apply string_compare_refl | apply N.compare_refl]. Qed.

Lemma chunk_compare_eq a b : chunk_compare a b = Eq → a = b.
Proof.
  destruct a, b; simpl; try done.
  - by intros ->%String.compare_eq_iff.
  - by intros ->%N.compare_eq_iff.
Qed.

Lemma chunk_compare_antisym a b : chunk_compare b a = CompOpp (chunk_compare a b).
Proof.
  destruct a, b; simpl; try done.
  - rewrite String.compare_antisym. by destruct (String.compare _ _).
  - apply N.compare_antisym.
Qed.

Lemma chunk_compare_lt_trans a b c :
  chunk_compare a b = Lt → chunk_compare b c = Lt → chunk_compare a c = Lt.
Proof.
  destruct a, b, c; simpl; try done.
  - apply string_compare_lt_trans.
  - rewrite !N.compare_lt_iff. lia.
Qed.

Lemma key_compare_refl k : key_compare k k = Eq.
Proof. induction k as [|a k IH]; simpl; [done|]. by rewrite chunk_compare_refl. Qed.

Lemma key_compare_eq k1 k2 : key_compare k1 k2 = Eq → k1 = k2.
Proof.
  revert k2. induction k1 as [|a k1 IH]; intros [|b k2]; simpl; try done.
  destruct (chunk_compare a b) eqn:Hab; try done.
  apply chunk_compare_eq in Hab as ->. by intros ->%IH.
Qed.

Lemma key_compare_antisym k1 k2 : key_compare k2 k1 = CompOpp (key_compare k1 k2).
Proof.
  revert k2. induction k1 as [|a k1 IH]; intros [|b k2]; simpl; try done.
  rewrite (chunk_compare_antisym a b). destruct (chunk_compare a b); simpl; auto.
Qed.

Lemma key_compare_lt_trans k1 k2 k3 :
  key_compare k1 k2 = Lt → key_compare k2 k3 = Lt → key_compare k1 k3 = Lt.
Proof.
  revert k2 k3. induction k1 as [|a k1 IH]; intros [|b k2] [|c k3]; simpl; try done.
  destruct (chunk_compare a b) eqn:Hab; try done.
  - apply chunk_compare_eq in Hab as ->.
    destruct (chunk_compare b c); try done. apply IH.
  - intros _. destruct (chunk_compare b c) eqn:Hbc; try done.
    + apply chunk_compare_eq in Hbc as ->. by rewrite Hab.
    + by rewrite (chunk_compare_lt_trans _ _ _ Hab Hbc).
Qed.

Lemma natural_le_refl a : natural_le a a.
Proof. unfold natural_le, natural_leb. by rewrite key_compare_refl. Qed.

Lemma natural_le_trans a b c : natural_le a b → natural_le b c → natural_le a c.
Proof.
  unfold natural_le, natural_leb.
  destruct (key_compare (key a) (key b)) eqn:Hab; try done.
  - apply key_compare_eq in Hab. by rewrite Hab.
  - destruct (key_compare (key b) (key c)) eqn:Hbc; try done.
    + apply key_compare_eq in Hbc. by rewrite <- Hbc, Hab.
    + by rewrite (key_compare_lt_trans _ _ _ Hab Hbc).
Qed.

Lemma natural_le_total a b : natural_le a b ∨ natural_le b a.
Proof.
  unfold natural_le, natural_leb.
  rewrite (key_compare_antisym (key a) (key b)).
  destruct (key_compare (key a) (key b)); simpl; auto.
Qed.

Lemma natural_leb_false a b : natural_leb a b = false → natural_le b a.
Proof.
  intros Hab. destruct (natural_le_total a b) as [H|H]; [|done].
  unfold natural_le in H. congruence.
Qed.

(** *** Keys alternate, so Python never compares text with a number *)

Lemma runs_alternate_runs s :
  match runs s with
  | [] => True
  | (d, _) :: _ => runs_alternate d (runs s)
  end.
Proof.
  induction s as [|c s IH]; simpl; [done|].
  destruct (runs s) as [|[d' r] rest]; simpl; [done|].
  destruct (Bool.eqb (is_digit c) d') eqn:Hd; simpl.
  - apply Bool.eqb_prop in Hd. rewrite Hd. simpl in IH. done.
  - split; [done|]. simpl in IH.
    assert (negb (is_digit c) = d') as -> by (by destruct (is_digit c), d').
    done.
Qed.

Lemma alternates_chunks d rs :
  runs_alternate d rs → alternates (negb d) (chunk_of <$> rs).
Proof.
  revert d. induction rs as [|[d' r] rs IH]; intros d; simpl; [done|].
  intros [-> Hrs]. unfold chunk_of at 1. simpl.
  destruct d; simpl; (split; [done|]); by apply (IH _ Hrs).
Qed.

Lemma key_alternates s : alternates true (key s).
Proof.
  unfold key. pose proof (runs_alternate_runs s) as H.
  destruct (runs s) as [|[d r] rest] eqn:Hr; [done|].
  apply alternates_chunks in H. rewrite fmap_cons in *.
  unfold chunk_of at 1 in H. unfold chunk_of at 1. unfold chunk_of at 1. simpl in *.
  destruct d; simpl in *; [|done]. done.
Qed.

Lemma key_compare_py_alternates t k1 k2 :
  alternates t k1 → alternates t k2 → key_compare_py k1 k2 = Some (key_compare k1 k2).
Proof.
  revert t k2. induction k1 as [|a k1 IH]; intros t [|b k2]; simpl; try done.
  destruct a, b; simpl; intros [-> H1] [? H2]; try done.
  - destruct (String.compare s s0); try done. by apply (IH false).
  - destruct (N.compare n n0); try done. by apply (IH true).
Qed.

Lemma key_compare_no_mix a b :
  key_compare_py (key a) (key b) = Some (key_compare (key a) (key b)).
Proof. apply (key_compare_py_alternates true); apply key_alternates. Qed.

(** *** Sorting *)

Lemma insert_sorted_perm x l : insert_sorted x l ≡ₚ x :: l.
Proof.
  induction l as [|y l IH]; simpl; [done|].
  destruct (natural_leb x y); [done|]. rewrite IH. apply Permutation_swap.
Qed.

Lemma insert_sorted_sorted x l :
  StronglySorted natural_le l → StronglySorted natural_le (insert_sorted x l).
Proof.
  induction 1 as [|y l Hl IH Hy]; simpl.
  - repeat constructor.
  - destruct (natural_leb x y) eqn:Hxy.
    + constructor; [by constructor|]. constructor; [done|].
      eapply Forall_impl; [exact Hy|]. intros z Hz. by apply (natural_le_trans x y z).
    + constructor; [done|].
      rewrite (insert_sorted_perm x l). constructor; [|done].
      by apply natural_leb_false.
Qed.

Lemma natsorted_perm names : natsorted names ≡ₚ names.
Proof.
  induction names as [|x l IH]; simpl; [done|].
  unfold natsorted in *. simpl. by rewrite insert_sorted_perm, IH.
Qed.

Lemma natsorted_sorted names : StronglySorted natural_le (natsorted names).
Proof.
  induction names as [|x l IH]; simpl; [constructor|].
  unfold natsorted in *. simpl. by apply insert_sorted_sorted.
Qed.

Lemma StronglySorted_filter {A} (R : relation A) (P : A → Prop) `{∀ x, Decision (P x)} l :
  StronglySorted R l → StronglySorted R (filter P l).
Proof.
  induction 1 as [|x l Hl IH Hx]; [constructor|].
  destruct (decide (P x)).
  - rewrite filter_cons_True by done. constructor; [done|].
    apply Forall_forall. intros y [_ Hy]%list_elem_of_filter.
    rewrite Forall_forall in Hx. by apply Hx.
  - by rewrite filter_cons_False.
Qed.


(** ** Candidate files *)

Lemma append_nil_l t : "" +:+ t = t.
Proof. reflexivity. Qed.

Lemma append_cons a s t : String a s +:+ t = String a (s +:+ t).
Proof. reflexivity. Qed.

Lemma startswith_spec s p : PyStr.startswith s p = true ↔ ∃ q, s = p +:+ q.
Proof.
  revert s. induction p as [|a p IH]; intros s; simpl.
  - split; [intros _; by exists s | done].
  - destruct s as [|b s]; simpl.
    + split; [done | by intros [q ?]].
    + setoid_rewrite append_cons. case_decide as Hab.
      * subst. rewrite IH. split; intros [q Hq]; exists q; congruence.
      * split; [done | intros [q Hq]; congruence].
Qed.

Lemma endswith_spec s p : PyStr.endswith s p = true ↔ ∃ q, s = q +:+ p.
Proof.
  induction s as [|b s IH]; simpl.
  - rewrite orb_false_r, bool_decide_eq_true. split.
    + intros <-. by exists "".
    + intros [[|??] Hq]; [done | rewrite append_cons in Hq; discriminate].
  - rewrite orb_true_iff, bool_decide_eq_true, IH. split.
    + intros [<- | [q ->]]; [by exists "" | by exists (String b q)].
    + intros [[|c q] Hq]; [by left|].
      rewrite append_cons in Hq. right. exists q. congruence.
Qed.

Lemma contains_spec s w : PyStr.contains s w = true ↔ ∃ p q, s = p +:+ w +:+ q.
Proof.
  induction s as [|b s IH]; simpl.
  - rewrite orb_false_r, startswith_spec. split.
    + intros [q Hq]. by exists "", q.
    + intros ([|??] & q & Hq); [by exists q | rewrite append_cons in Hq; discriminate].
  - rewrite orb_true_iff, startswith_spec, IH. split.
    + intros [[q Hq] | (p & q & ->)]; [by exists "", q | by exists (String b p), q].
    + intros ([|c p] & q & Hq); [left; by exists q|].
      rewrite append_cons in Hq. right. exists p, q. congruence.
Qed.

Lemma is_candidate_spec f :
  is_candidate f = true ↔
    (∃ ext, ext ∈ video_formats ∧ ∃ p, f = p +:+ ext) ∧
    (∀ wd, wd ∈ words_to_ignore → ¬ ∃ p q, f = p +:+ wd +:+ q).
Proof.
  unfold is_candidate. rewrite andb_true_iff, negb_true_iff.
  rewrite existsb_exists, <- not_true_iff_false, existsb_exists.
  split.
  - intros [(ext & Hext%list_elem_of_In & He%endswith_spec) Hno]. split; [eauto|].
    intros wd Hwd%list_elem_of_In Hc%contains_spec. apply Hno. eauto.
  - intros [(ext & Hext%list_elem_of_In & He%endswith_spec) Hno]. split; [eauto|].
    intros (wd & Hwd%list_elem_of_In & Hc%contains_spec). by apply (Hno wd).
Qed.

(** ** The files a run processes *)

Lemma processed_app ev1 ev2 : processed (ev1 ++ ev2) = processed ev1 ++ processed ev2.
Proof. apply omap_app. Qed.

Lemma processed_convert tmp ev :
  forallb (convert_event tmp) ev = true → processed ev = [].
Proof.
  induction ev as [|e ev IH]; simpl; [done|].
  intros [He Hev]%andb_true_iff. unfold processed in *. simpl.
  rewrite IH by done. by destruct e as [[]| | | | | |].
Qed.

Lemma processed_finalize ev :
  forallb finalize_event ev = true → processed ev = [].
Proof.
  induction ev as [|e ev IH]; simpl; [done|].
  intros [He Hev]%andb_true_iff. unfold processed in *. simpl.
  rewrite IH by done. by destruct e as [[]| | | | | |].
Qed.

Lemma process_file_processed w input_path output_path mode cs idx total file
    (fs : filesystem) :
  let o := process_file w input_path output_path mode cs idx total file fs in
  result_of o = Ok () ∧ processed (events_of o) = [file].
Proof.
  intros o. subst o.
  destruct (convert_to_mp4_effect w (OsPath.join input_path file) (tempname w fs) mode
              (<[tempname w fs := File 0]> fs)) as (b & fs1 & ev1 & Hc & _ & Hev1).
  destruct b.
  - rewrite (process_file_converted _ _ _ _ _ _ _ _ _ _ _ Hc).
    destruct (finalize_total w (OsPath.join input_path file) (tempname w fs)
                (output_file_path_of output_path file cs)
                (OsPath.join output_path (OsPath.splitext file).1) cs fs1)
      as (r & fs2 & ev2 & -> & Hr & Hev2).
    assert (Hp : processed (preamble (tempname w fs) idx total file ++ ev1 ++ ev2) = [file]).
    { rewrite !processed_app, (processed_convert _ _ Hev1), (processed_finalize _ Hev2).
      done. }
    destruct Hr as [-> | [-> | ->]]; cbn [is_Exception result_of events_of fst snd].
    + split; [done|]. rewrite !app_assoc, processed_app, <- !app_assoc, Hp. done.
    + split; [done|]. rewrite !app_assoc, processed_app, <- !app_assoc, Hp.
      by destruct (is_file fs2 _).
    + split; [done|]. rewrite !app_assoc, processed_app, <- !app_assoc, Hp.
      by destruct (is_file fs2 _).
  - rewrite (process_file_failed _ _ _ _ _ _ _ _ _ _ _ Hc).
    cbn [result_of events_of fst snd]. split; [done|].
    rewrite !processed_app, (processed_convert _ _ Hev1). done.
Qed.

Lemma for_each_processed {A} (body : A → M unit) (name : A → string) (l : list A)
    (fs : filesystem) :
  (∀ x fs, result_of (body x fs) = Ok () ∧ processed (events_of (body x fs)) = [name x]) →
  result_of (for_each body l fs) = Ok () ∧
  processed (events_of (for_each body l fs)) = name <$> l.
Proof.
  intros Hbody. revert fs. induction l as [|x l IH]; intros fs; simpl; [done|].
  unfold mbind, M_bind. destruct (Hbody x fs) as [Hr Hp].
  destruct (body x fs) as [[r fs1] ev1]. cbn [result_of events_of fst snd] in *. subst r.
  destruct (IH fs1) as [Hr2 Hp2].
  destruct (for_each body l fs1) as [[r2 fs2] ev2]. cbn [result_of events_of fst snd] in *.
  split; [done|]. by rewrite processed_app, Hp, Hp2.
Qed.

Lemma process_folder_run w input_path output_path mode cs (fs : filesystem) :
  is_dir fs input_path = true → is_dir fs output_path = true →
  process_folder w input_path output_path mode cs fs =
    let files := discover w input_path fs in
    match for_each
            (λ '(idx, file), process_file w input_path output_path mode cs idx
                               (length files) file)
            (zip (seq 1 (length files)) files) fs with
    | (r, fs', ev) => (r, fs', Printed Banner :: ev)
    end.
Proof.
  intros Hin Hout. unfold process_folder, mbind, M_bind, os_path_isdir, print, emit.
  rewrite Hin. cbn beta iota delta [negb]. rewrite Hout. cbn beta iota delta [negb].
  by destruct (for_each _ _ fs) as [[r fs'] ev].
Qed.

Lemma process_folder_processed w input_path output_path mode cs (fs : filesystem) :
  is_dir fs input_path = true → is_dir fs output_path = true →
  let o := process_folder w input_path output_path mode cs fs in
  result_of o = Ok () ∧ processed (events_of o) = discover w input_path fs.
Proof.
  intros Hin Hout o. subst o. rewrite process_folder_run by done. cbv zeta.
  set (files := discover w input_path fs).
  destruct (for_each_processed
    (λ '(idx, file), process_file w input_path output_path mode cs idx (length files) file)
    snd (zip (seq 1 (length files)) files) fs) as [Hr Hp].
  { intros [idx file] fs'. apply process_file_processed. }
  destruct (for_each _ _ fs) as [[r fs2] ev2]. cbn [result_of events_of fst snd] in *.
  split; [done|].
  change (processed ev2 = files). rewrite Hp. apply snd_zip. by rewrite length_seq.
Qed.


Lemma Forall2_elem_of_l {A B} (P : A → B → Prop) l k x :
  Forall2 P l k → x ∈ l → ∃ y, y ∈ k ∧ P x y.
Proof.
  induction 1 as [|a b l k Hab _ IH]; [by intros ?%elem_of_nil|].
  intros [-> | Hx]%elem_of_cons.
  - exists b. split; [by left|done].
  - destruct (IH Hx) as (y & ? & ?). exists y. split; [by right|done].
Qed.

Lemma Forall2_elem_of_r {A B} (P : A → B → Prop) l k y :
  Forall2 P l k → y ∈ k → ∃ x, x ∈ l ∧ P x y.
Proof.
  induction 1 as [|a b l k Hab _ IH]; [by intros ?%elem_of_nil|].
  intros [-> | Hy]%elem_of_cons.
  - exists a. split; [by left|done].
  - destruct (IH Hy) as (x & ? & ?). exists x. split; [by right|done].
Qed.


(** ** Audio selection *)



Lemma probe_events_no_print input_file m : Printed m ∉ probe_events input_file.
Proof.
  unfold probe_events. rewrite !elem_of_cons, elem_of_nil.
  intros [? | [? | [? | []]]]; discriminate.
Qed.

Lemma run_ffmpeg_no_print w cmd (fs : filesystem) m :
  Printed m ∉ events_of (run_ffmpeg w cmd fs).
Proof.
  destruct (run_ffmpeg_effect w cmd fs) as (r & fs' & ev & -> & _ & Hfs).
  cbn [events_of snd].
  destruct Hfs as [[_ ->] | (k & _ & ->)]; rewrite !elem_of_cons, elem_of_nil;
    intros H; repeat (destruct H as [H | H]; try discriminate); done.
Qed.

Lemma print_last (ev : list event) m m' :
  (∀ m, Printed m ∉ ev) → Printed m ∈ ev ++ [Printed m'] → m = m'.
Proof.
  intros Hev [Hin | Hin]%elem_of_app; [by apply Hev in Hin|].
  apply list_elem_of_singleton in Hin. congruence.
Qed.

Lemma convert_to_mp4_av1 w input_file temp_file (fs : filesystem) a v s ai subs :
  selected w input_file fs a v s ai subs →
  get_video_codec v = Some "av1" →
  convert_to_mp4 w input_file temp_file "remux" fs =
    (Ok false, fs,
     probe_events input_file ++
     [Printed (if bool_decide (ai = []) then NoEnglishAudio else AV1Detected)]).
Proof.
  intros Hsel Hcodec. rewrite (convert_to_mp4_selected _ _ _ _ _ _ _ _ _ _ Hsel).
  case_bool_decide; [done|]. by rewrite !bool_decide_true.
Qed.

Lemma convert_to_mp4_av1_printed w input_file temp_file mode (fs : filesystem) :
  Printed AV1Detected ∈ events_of (convert_to_mp4 w input_file temp_file mode fs) →
  mode = "remux" ∧
  ∃ a v s ai subs, selected w input_file fs a v s ai subs ∧
    ai ≠ [] ∧ get_video_codec v = Some "av1".
Proof.
  destruct (convert_to_mp4_selection w input_file temp_file mode fs)
    as [(a & v & s & ai & subs & Hsel) | (_ & ev & m & -> & Hev & Hm)].
  - rewrite (convert_to_mp4_selected _ _ _ _ _ _ _ _ _ _ Hsel).
    case_bool_decide as Hnil.
    { cbn [events_of snd]. intros Hin%print_last; [done|]. apply probe_events_no_print. }
    destruct (bool_decide (mode = "remux")) eqn:Hmode; cbn [andb].
    + destruct (bool_decide (get_video_codec v = Some "av1")) eqn:Hcodec.
      * intros _. apply bool_decide_eq_true in Hmode, Hcodec.
        split; [done|]. by exists a, v, s, ai, subs.
      * cbv zeta. intros Hin. exfalso. revert Hin.
        pose proof (run_ffmpeg_no_print w
          (build_ffmpeg_cmd input_file temp_file mode (get_video_codec v) ai subs) fs) as Hno.
        destruct (run_ffmpeg _ _ fs) as [[[[]|e] fs'] ev]; cbn [events_of snd] in *;
          rewrite !elem_of_app, !elem_of_cons, elem_of_nil;
          intros [Hin | [[Hin | []] | [Hin | Hin]]];
          try (by apply probe_events_no_print in Hin); try (by apply Hno in Hin);
          try discriminate;
          rewrite ?elem_of_cons, ?elem_of_nil in Hin;
          repeat (destruct Hin as [Hin | Hin]; try discriminate); try done.
        all: destruct e; discriminate.
    + cbv zeta. intros Hin. exfalso. revert Hin.
      pose proof (run_ffmpeg_no_print w
        (build_ffmpeg_cmd input_file temp_file mode (get_video_codec v) ai subs) fs) as Hno.
      destruct (run_ffmpeg _ _ fs) as [[[[]|e] fs'] ev]; cbn [events_of snd] in *;
        rewrite !elem_of_app, !elem_of_cons, elem_of_nil;
        intros [Hin | [[Hin | []] | [Hin | Hin]]];
        try (by apply probe_events_no_print in Hin); try (by apply Hno in Hin);
        try discriminate;
        rewrite ?elem_of_cons, ?elem_of_nil in Hin;
        repeat (destruct Hin as [Hin | Hin]; try discriminate); try done.
      all: destruct e; discriminate.
  - cbn [events_of snd]. intros Hin%print_last.
    + destruct Hm as [-> | [e ->]]; discriminate.
    + intros m0 Hm0. rewrite Forall_forall in Hev. by destruct (Hev _ Hm0).
Qed.

(** ** The AV1 check *)

(** C4, as the code has it: the AV1 error is printed exactly when the mode
    is remux, probing and selection succeeded, at least one audio stream
    qualifies and the detected codec is av1; it makes the conversion fail
    without running the engine and is never accompanied by the
    no-English-audio error; and a remux of an av1 file always fails once
    probing and selection succeeded, with the no-English-audio error when no
    audio stream qualifies and with the AV1 error otherwise. *)
Theorem C4_av1_rejected_in_remux (w : world) (input_file temp_file mode : string)
    (fs : filesystem) :
  let o := convert_to_mp4 w input_file temp_file mode fs in
  (Printed AV1Detected ∈ events_of o ↔
     mode = "remux" ∧
     ∃ a v s audio_indices subs,
       selected w input_file fs a v s audio_indices subs ∧
       audio_indices ≠ [] ∧ get_video_codec v = Some "av1") ∧
  (Printed AV1Detected ∈ events_of o →
     result_of o = Ok false ∧ fs_of o = fs ∧ Printed NoEnglishAudio ∉ events_of o) ∧
  (mode = "remux" →
   ∀ a v s audio_indices subs,
     selected w input_file fs a v s audio_indices subs →
     get_video_codec v = Some "av1" →
     o = (Ok false, fs,
          probe_events input_file ++
          [Printed (if bool_decide (audio_indices = []) then NoEnglishAudio
                  else AV1Detected)])).
Proof.
  intros o.
  assert (Hrun : mode = "remux" →
    ∀ a v s ai subs, selected w input_file fs a v s ai subs →
      get_video_codec v = Some "av1" →
      o = (Ok false, fs, probe_events input_file ++
             [Printed (if bool_decide (ai = []) then NoEnglishAudio else AV1Detected)])).
  { intros -> a v s ai subs Hsel Hcodec. by apply (convert_to_mp4_av1 _ _ _ _ a v s ai subs). }
  split; [split|split].
  - apply convert_to_mp4_av1_printed.
  - intros (Hmode & a & v & s & ai & subs & Hsel & Hne & Hcodec).
    rewrite (Hrun Hmode _ _ _ _ _ Hsel Hcodec). cbn [events_of snd].
    rewrite bool_decide_false by done. apply elem_of_app. right. by left.
  - intros Hin.
    destruct (convert_to_mp4_av1_printed _ _ _ _ _ Hin)
      as (Hmode & a & v & s & ai & subs & Hsel & Hne & Hcodec).
    rewrite (Hrun Hmode _ _ _ _ _ Hsel Hcodec). cbn [events_of fs_of result_of fst snd].
    rewrite bool_decide_false by done. split; [done|]. split; [done|].
    intros Hno%print_last; [done | apply probe_events_no_print].
  - exact Hrun.
Qed.



Lemma head_args_remux input_file video_codec :
  head_args input_file "remux" video_codec =
    ["ffmpeg"; "-i"; input_file; "-y"] ++ stream_copy_flags ++
    ["-map"; "0:v:0"; "-map_metadata"; "-1"; "-movflags"; "+faststart";
     "-loglevel"; "quiet"] ++
    (if decide (video_codec = Some "hevc") then ["-tag:v"; "hvc1"] else []).
Proof.
  unfold head_args, build_ffmpeg_cmd.
  destruct (decide ("remux" = "encode")) as [?|_]; [discriminate|].
  by destruct (decide (video_codec = Some "hevc")).
Qed.

(** ** The templates of the two modes *)


(** ** Audio mappings *)

(** C7: the command maps every selected audio index in order, four
    arguments per index, and the metadata option after each map is the same
    [-metadata:s:a:0 language=eng], whatever the position of the stream in
    the output. *)
Theorem C7_audio_mapping (input_file temp_file mode : string) (video_codec : option string)
    (audio_indices : list string) (subs : list subtitle) :
  let cmd := build_ffmpeg_cmd input_file temp_file mode video_codec audio_indices subs in
  let base := length (head_args input_file mode video_codec) in
  cmd = head_args input_file mode video_codec ++
        (idx ← audio_indices; ["-map"; "0:" +:+ idx; "-metadata:s:a:0"; "language=eng"]) ++
        subtitle_args (head subs) ++ [temp_file] ∧
  ∀ k idx, audio_indices !! k = Some idx →
    cmd !! (base + 4 * k) = Some "-map" ∧
    cmd !! (base + 4 * k + 1) = Some ("0:" +:+ idx) ∧
    cmd !! (base + 4 * k + 2) = Some "-metadata:s:a:0" ∧
    cmd !! (base + 4 * k + 3) = Some "language=eng".
Proof.
  intros cmd base. split; [apply build_ffmpeg_cmd_shape|].
  intros k idx Hk. subst cmd base. rewrite build_ffmpeg_cmd_shape.
  destruct (audio_args_lookup audio_indices k idx Hk) as (H0 & H1 & H2 & H3).
  assert (Hshift : ∀ i x, audio_args audio_indices !! i = Some x →
    (head_args input_file mode video_codec ++ audio_args audio_indices ++
     subtitle_args (head subs) ++ [temp_file])
      !! (length (head_args input_file mode video_codec) + i) = Some x).
  { intros i x Hi. rewrite lookup_app_r by lia.
    replace (length (head_args input_file mode video_codec) + i
             - length (head_args input_file mode video_codec)) with i by lia.
    by apply lookup_app_l_Some. }
  rewrite <- !Nat.add_assoc. repeat split; by apply Hshift.
Qed.

(** ** The subtitle *)



Lemma get_video_codec_first (video_streams : probe_output) sv :
  first_video (default [] (streams video_streams)) sv →
  get_video_codec video_streams = Some (PyStr.lower (default "" (codec_name sv))).
Proof.
  intros (before & after & Hss & Hb & Hv). unfold get_video_codec. rewrite Hss.
  clear Hss. induction Hb as [|x before Hx _ IH]; simpl.
  - by rewrite bool_decide_true.
  - by rewrite bool_decide_false.
Qed.

(** ** Streams without a language *)

(** C9: a stream without tags, or without a language among its tags, is
    read as und: as an audio stream its index is selected, and as a subtitle
    stream it is selected when its codec is in the allow-list and rejected
    otherwise. *)
Theorem C9_missing_language_is_und (doc : probe_output) (s : stream) (z : Z) :
  let ss := default [] (streams doc) in
  Forall has_index ss → s ∈ ss → no_language s → index s = Some z →
  language s = "und" ∧
  (∃ audio_indices,
     get_english_audio_indices doc = Ok audio_indices ∧ pretty z ∈ audio_indices) ∧
  (allowed_codec s →
     ∃ subs sub, get_subtitle_streams doc = Ok subs ∧ sub ∈ subs ∧
       sub_index sub = pretty z ∧ sub_language sub = "und") ∧
  (¬ allowed_codec s → subtitle_ok s = false).
Proof.
  intros ss Hidx Hs Hno Hz.
  pose proof (no_language_und s Hno) as Hund.
  assert (Hq : eng_or_und s) by (by right).
  split; [done|]. split; [|split].
  - destruct (get_english_audio_indices_ok doc Hidx) as (l & Hl & Hf). fold ss in Hf.
    exists l. split; [done|].
    assert (Hs' : s ∈ filter eng_or_und ss) by (by apply list_elem_of_filter).
    destruct (Forall2_elem_of_r _ _ _ _ Hf Hs') as (i & Hi & z' & Hz' & ->).
    by assert (z' = z) as -> by congruence.
  - intros Hcodec.
    destruct (get_subtitle_streams_ok doc Hidx) as (subs & Hsubs & Hf). fold ss in Hf.
    assert (Hs' : s ∈ filter allowed_subtitle ss) by (by apply list_elem_of_filter).
    destruct (Forall2_elem_of_r _ _ _ _ Hf Hs') as (sub & Hsub & z' & Hz' & Hi & _ & Hl).
    exists subs, sub. split; [done|]. split; [done|].
    split; [congruence | by rewrite Hl].
  - intros Hcodec. apply not_true_is_false. rewrite subtitle_ok_spec. by intros [? _].
Qed.

(** ** The video codec *)

(** C10: [get_video_codec] is the lower-cased codec name of the first
    stream of type video and [None] exactly when there is no such stream;
    so a first video stream named hevc in any letter case gets the hvc1 tag
    in remux mode, and one named av1 in any letter case is rejected in remux
    mode. *)
Theorem C10_video_codec_lowercased (video_streams : probe_output) :
  let ss := default [] (streams video_streams) in
  (∀ sv, first_video ss sv →
     get_video_codec video_streams = Some (PyStr.lower (default "" (codec_name sv)))) ∧
  (get_video_codec video_streams = None ↔ Forall (λ s, ¬ is_video s) ss) ∧
  (∀ sv name, first_video ss sv → codec_name sv = Some name →
     PyStr.lower name = "hevc" →
     ∀ input_file temp_file audio_indices subs,
       build_ffmpeg_cmd input_file temp_file "remux" (get_video_codec video_streams)
         audio_indices subs =
       ["ffmpeg"; "-i"; input_file; "-y"] ++ stream_copy_flags ++
       ["-map"; "0:v:0"; "-map_metadata"; "-1"; "-movflags"; "+faststart";
        "-loglevel"; "quiet"; "-tag:v"; "hvc1"] ++
       audio_args audio_indices ++ subtitle_args (head subs) ++ [temp_file]) ∧
  (∀ sv name, first_video ss sv → codec_name sv = Some name →
     PyStr.lower name = "av1" →
     ∀ w input_file temp_file (fs : filesystem) a s audio_indices subs,
       selected w input_file fs a video_streams s audio_indices subs →
       audio_indices ≠ [] →
       convert_to_mp4 w input_file temp_file "remux" fs =
         (Ok false, fs, probe_events input_file ++ [Printed AV1Detected])).
Proof.
  intros ss. split; [|split; [|split]].
  - apply get_video_codec_first.
  - unfold get_video_codec. fold ss.
    destruct (get_video_codec_loop_spec ss)
      as [[Hnone Hn] | (before & sv & after & Hss & Hb & Hv & Hc)].
    + by rewrite Hn.
    + rewrite Hc. split; [done|]. rewrite Hss, Forall_app, Forall_cons.
      intros (_ & Hsv & _). done.
  - intros sv name Hfirst Hname Hlow input_file temp_file audio_indices subs.
    rewrite (get_video_codec_first _ _ Hfirst), Hname. simpl. rewrite Hlow.
    rewrite build_ffmpeg_cmd_shape, head_args_remux.
    rewrite decide_True by done. by rewrite <- !app_assoc.
  - intros sv name Hfirst Hname Hlow w input_file temp_file fs a s audio_indices subs
      Hsel Hne.
    rewrite (convert_to_mp4_av1 _ _ _ _ _ _ _ _ _ Hsel).
    + by rewrite bool_decide_false.
    + rewrite (get_video_codec_first _ _ Hfirst), Hname. simpl. by rewrite Hlow.
Qed.

(** ** Discovery *)

(** C8: a run of [process_folder] over two existing directories processes
    exactly the listed names that end in .mkv, .mp4 or .avi and contain none
    of the ignore words, each as often as it is listed, in natural order;
    comparing two keys never compares text with a number; and Episode 2
    comes before Episode 10, against their order as plain strings. *)
Theorem C8_discovery_order (w : world) (input_path output_path mode : string)
    (create_subfolders : bool) (fs : filesystem) :
  is_dir fs input_path = true → is_dir fs output_path = true →
  let files := discover w input_path fs in
  let o := process_folder w input_path output_path mode create_subfolders fs in
  result_of o = Ok () ∧
  processed (events_of o) = files ∧
  (∀ f, f ∈ files ↔
        f ∈ listdir w input_path fs ∧
        (∃ ext, ext ∈ video_formats ∧ ∃ p, f = p +:+ ext) ∧
        (∀ wd, wd ∈ words_to_ignore → ¬ ∃ p q, f = p +:+ wd +:+ q)) ∧
  files ≡ₚ filter (λ f, is_candidate f = true) (listdir w input_path fs) ∧
  StronglySorted natural_le files ∧
  (∀ a b, key_compare_py (key a) (key b) = Some (key_compare (key a) (key b))) ∧
  natsorted ["Episode 10.mkv"; "Episode 2.mkv"] = ["Episode 2.mkv"; "Episode 10.mkv"] ∧
  String.ltb "Episode 10.mkv" "Episode 2.mkv" = true.
Proof.
  intros Hin Hout files o.
  destruct (process_folder_processed w input_path output_path mode create_subfolders fs
              Hin Hout) as [Hr Hp].
  split; [done|]. split; [done|]. split; [|split; [|split; [|split; [|split]]]].
  - intros f. unfold files, discover.
    rewrite list_elem_of_filter, is_candidate_spec, (natsorted_perm (listdir w input_path fs)).
    tauto.
  - unfold files, discover. by rewrite natsorted_perm.
  - unfold files, discover. apply StronglySorted_filter, natsorted_sorted.
  - apply key_compare_no_mix.
  - reflexivity.
  - reflexivity.
Qed.


(** ** The temporary file after a failed conversion *)

(** Whenever [convert_to_mp4] returns [False], the iteration ends with the
    input file unchanged and with the temporary file still in place: the
    [else] branch of the loop body only prints. *)
Lemma process_file_failed_keeps_temp (w : world) (input_path output_path mode : string)
    (create_subfolders : bool) (idx total : nat) (file : string)
    (fs : filesystem) (n : N) :
  let inp := OsPath.join input_path file in
  let tmp := tempname w fs in
  let o := process_file w input_path output_path mode create_subfolders idx total file fs in
  fs !! inp = Some (File n) →
  fs !! tmp = None →
  result_of (convert_to_mp4 w inp tmp mode (<[tmp := File 0]> fs)) = Ok false →
  result_of o = Ok () ∧ fs_of o !! inp = Some (File n) ∧
  is_file (fs_of o) tmp = true ∧ Removed tmp ∉ events_of o.
Proof.
  intros inp tmp o Hinp Htmp Hfail.
  destruct (process_file_cases w input_path output_path mode create_subfolders idx total
              file fs n Hinp Htmp) as (b & fs1 & ev1 & Hc & Hev1 & Hcases).
  fold inp tmp o in Hc, Hcases. rewrite Hc in Hfail. cbn [result_of fst] in Hfail.
  simplify_eq.
  destruct Hcases as [(_ & Ho & Hi & Ht) | [(? & _) | (? & _)]]; [|done..].
  rewrite Ho. cbn [events_of fs_of result_of fst snd]. do 3 (split; [done|]).
  rewrite !elem_of_app. intros [Hin | [Hin | Hin]].
  - apply preamble_elem in Hin as [? | [? | ?]]; discriminate.
  - by apply (convert_event_elem _ _ _ Hev1) in Hin.
  - rewrite !elem_of_cons, elem_of_nil in Hin. destruct Hin as [? | [? | []]]; discriminate.
Qed.

(** C2, at scenario B (the only audio track is French): the conversion
    fails with the no-English-audio error, the input file is still there,
    and so is the temporary file, which nothing has tried to remove. *)
Theorem C2_temp_file_left_after_failed_conversion :
  result_of Runs.clip_conversion = Ok false ∧
  events_of Runs.clip_conversion =
    probe_events "in/Clip.mkv" ++ [Printed NoEnglishAudio] ∧
  result_of Runs.clip_run = Ok () ∧
  fs_of Runs.clip_run !! "in/Clip.mkv" = Some (File 1000) ∧
  fs_of Runs.clip_run !! Scenario.temp_name = Some (File 0) ∧
  Removed Scenario.temp_name ∉ events_of Runs.clip_run.
Proof.
  split; [by vm_compute|]. split; [by vm_compute|]. split; [by vm_compute|].
  split; [by vm_compute|]. split; [by vm_compute|].
  compute_done.
Qed.

(** ** The theorems at the scenarios *)


(** C4 as the spec words it fails on an AV1 file whose only audio track is
    French: the detected codec is av1 and the mode is remux, yet the error
    printed is the no-English-audio one and the AV1 error is not printed. *)
Lemma C4_counterexample :
  ffprobe Runs.show_fre_host (probe_cmd "in/Show.mkv" None) (Scenario.folders "Show.mkv")
    = ProbeJson {| streams := Some Scenario.show_fre |} ∧
  get_video_codec {| streams := Some Scenario.show_fre |} = Some "av1" ∧
  Runs.show_fre_remux =
    (Ok false, Scenario.folders "Show.mkv",
     probe_events "in/Show.mkv" ++ [Printed NoEnglishAudio]) ∧
  Printed AV1Detected ∉ events_of Runs.show_fre_remux.
Proof.
  split; [by vm_compute|]. split; [by vm_compute|]. split; [by vm_compute|].
  compute_done.
Qed.

(** C4 at scenario C: the AV1 error is printed and the conversion fails. *)
Lemma C4_witness :
  Printed AV1Detected ∈ events_of Runs.show_remux ∧
  result_of Runs.show_remux = Ok false.
Proof.
  assert (H : Printed AV1Detected ∈ events_of Runs.show_remux).
  { apply (C4_av1_rejected_in_remux Runs.show_host "in/Show.mkv" Scenario.temp_name
             "remux" (Scenario.folders "Show.mkv")).
    split; [done|].
    exists {| streams := Some (Scenario.streams_for (probe_cmd "in/Show.mkv" (Some "a"))
                                 Scenario.show) |},
           {| streams := Some Scenario.show |},
           {| streams := Some (Scenario.streams_for (probe_cmd "in/Show.mkv" (Some "s"))
                                 Scenario.show) |},
           ["1"], [].
    by vm_compute. }
  split; [exact H|].
  by apply (C4_av1_rejected_in_remux Runs.show_host "in/Show.mkv" Scenario.temp_name
              "remux" (Scenario.folders "Show.mkv")).
Defined.




(** C7 for two audio streams: the key of the second is that of the first. *)
Lemma C7_witness :
  build_ffmpeg_cmd "in/Movie.mkv" Scenario.temp_name "remux" None ["1"; "3"] []
    !! (length (head_args "in/Movie.mkv" "remux" None) + 4 * 1 + 2)
  = Some "-metadata:s:a:0".
Proof.
  destruct (C7_audio_mapping "in/Movie.mkv" Scenario.temp_name "remux" None ["1"; "3"] [])
    as [_ Hmap].
  destruct (Hmap 1 "3" eq_refl) as (_ & _ & Hkey & _). exact Hkey.
Defined.

(** C8 at scenario D. *)
Lemma C8_witness :
  is_dir (Scenario.folders "Episode 2.mkv") "in" = true ∧
  is_dir (Scenario.folders "Episode 2.mkv") "out" = true ∧
  processed (events_of Runs.episodes_batch) =
    discover Runs.episodes_host "in" (Scenario.folders "Episode 2.mkv") ∧
  discover Runs.episodes_host "in" (Scenario.folders "Episode 2.mkv") =
    ["Episode 2.mkv"; "Episode 10.mkv"].
Proof.
  split; [by vm_compute|]. split; [by vm_compute|]. split; [|by vm_compute].
  apply (C8_discovery_order Runs.episodes_host "in" "out" "remux" false
           (Scenario.folders "Episode 2.mkv")); by vm_compute.
Defined.

(** C9 on an untagged stream. *)
Lemma C9_witness :
  Forall has_index Scenario.subbed ∧
  Scenario.a_stream 3 "subtitle" "ass" None ∈ Scenario.subbed ∧
  no_language (Scenario.a_stream 3 "subtitle" "ass" None) ∧
  ∃ audio_indices,
    get_english_audio_indices {| streams := Some Scenario.subbed |} = Ok audio_indices ∧
    pretty 3%Z ∈ audio_indices.
Proof.
  assert (Hidx : Forall has_index Scenario.subbed) by (repeat constructor; by eexists).
  assert (Hin : Scenario.a_stream 3 "subtitle" "ass" None ∈ Scenario.subbed).
  { unfold Scenario.subbed. rewrite !elem_of_cons. tauto. }
  assert (Hno : no_language (Scenario.a_stream 3 "subtitle" "ass" None)) by (by left).
  split; [exact Hidx|]. split; [exact Hin|]. split; [exact Hno|].
  apply (C9_missing_language_is_und {| streams := Some Scenario.subbed |}
           (Scenario.a_stream 3 "subtitle" "ass" None) 3 Hidx Hin Hno eq_refl).
Defined.

(** C10 at scenario C, where the probe reports the codec in upper case. *)
Lemma C10_witness :
  first_video Scenario.show (Scenario.a_stream 0 "video" "AV1" None) ∧
  get_video_codec {| streams := Some Scenario.show |} = Some "av1".
Proof.
  assert (Hfirst : first_video Scenario.show (Scenario.a_stream 0 "video" "AV1" None)).
  { exists [], [Scenario.a_stream 1 "audio" "opus" (Some "eng")].
    split; [reflexivity|]. split; [constructor | reflexivity]. }
  split; [exact Hfirst|].
  destruct (C10_video_codec_lowercased {| streams := Some Scenario.show |}) as [Hcodec _].
  exact (Hcodec (Scenario.a_stream 0 "video" "AV1" None) Hfirst).
Defined.


(** ** The end-to-end scenarios of the spec *)

(** Scenario A: the output folder gains Movie.mp4 and Movie.mkv is gone. *)
Example scenario_A_moved :
  fs_of Runs.movie_run !! "out/Movie.mp4" = Some (File 700) ∧
  fs_of Runs.movie_run !! "in/Movie.mkv" = None ∧
  fs_of Runs.movie_run !! Scenario.temp_name = None.
Proof. by vm_compute. Qed.

(** Scenario C: the AV1 file that remux rejects is converted in encode
    mode. *)
Example scenario_C_encode :
  result_of (convert_to_mp4 Runs.show_host "in/Show.mkv" Scenario.temp_name "encode"
               (Scenario.folders "Show.mkv")) = Ok true.
Proof. by vm_compute. Qed.


(** * Further properties *)

(** ** The command line *)

Lemma ascii_lower_idemp c : PyStr.ascii_lower (PyStr.ascii_lower c) = PyStr.ascii_lower c.
Proof. by destruct c as [[] [] [] [] [] [] [] []]. Qed.

Lemma lower_idemp s : PyStr.lower (PyStr.lower s) = PyStr.lower s.
Proof. induction s as [|c s IH]; simpl; [done|]. by rewrite ascii_lower_idemp, IH. Qed.

Lemma tokens_disjoint t : t ∈ false_tokens → t ∉ true_tokens.
Proof.
  unfold false_tokens, true_tokens. rewrite !elem_of_cons, !elem_of_nil.
  intros Hf Ht. destruct Hf as [-> | [-> | [-> | [-> | [-> | []]]]]];
    destruct Ht as [? | [? | [? | [? | [? | []]]]]]; discriminate.
Qed.

(** X1: the script starts a batch exactly when it is given at least four
    arguments of which the third, lower-cased, is encode or remux and the
    fourth, lower-cased, is one of the ten boolean spellings; the batch
    then gets the two paths as typed, the lower-cased mode and the flag.
    Otherwise it stops on the first of three errors: too few arguments,
    then the mode, then the boolean. *)
Theorem main_outcomes (w : world) (argv : list string) :
  (∀ run, main w argv = inr run ↔
     ∃ prog input_path output_path mode flag rest create_subfolders,
       argv = prog :: input_path :: output_path :: mode :: flag :: rest ∧
       PyStr.lower mode ∈ ["encode"; "remux"] ∧
       (PyStr.lower flag ∈ true_tokens ∧ create_subfolders = true ∨
        PyStr.lower flag ∈ false_tokens ∧ create_subfolders = false) ∧
       run = process_folder w input_path output_path (PyStr.lower mode)
               create_subfolders) ∧
  (main w argv = inl UsageError ↔ length argv < 5) ∧
  (main w argv = inl ModeError ↔
     5 ≤ length argv ∧ PyStr.lower (argv_at argv 3) ∉ ["encode"; "remux"]) ∧
  (main w argv = inl BooleanError ↔
     5 ≤ length argv ∧ PyStr.lower (argv_at argv 3) ∈ ["encode"; "remux"] ∧
     PyStr.lower (argv_at argv 4) ∉ true_tokens ++ false_tokens).
Proof.
  unfold main. fold true_tokens false_tokens.
  destruct (decide (length argv < 5)) as [Hlen | Hlen].
  { split; [|split; [|split]].
    - intros run. split; [done|].
      intros (prog & i & o & m & b & rest & cs & -> & _). simpl in Hlen. lia.
    - done.
    - split; [done | lia].
    - split; [done | lia]. }
  destruct argv as [|prog [|i [|o [|m [|b rest]]]]]; simpl in Hlen; try lia.
  unfold argv_at. cbn [lookup list_lookup default].
  change (prog :: i :: o :: m :: b :: rest) with ([prog; i; o] ++ m :: b :: rest).
  cbn [app].
  assert (H5 : 5 ≤ length (prog :: i :: o :: m :: b :: rest)) by (simpl; lia).
  destruct (decide (PyStr.lower m ∈ ["encode"; "remux"])) as [Hm | Hm].
  2:{ rewrite bool_decide_true by done. split; [|split; [|split]].
      - intros run. split; [done|].
        intros (? & ? & ? & ? & ? & ? & ? & [= <- <- <- <- <- <-] & Hm' & _). done.
      - split; [done | lia].
      - done.
      - split; [done | tauto]. }
  rewrite bool_decide_false by (by intros ?).
  destruct (decide (PyStr.lower b ∈ true_tokens)) as [Ht | Ht].
  { rewrite bool_decide_true by done. split; [|split; [|split]].
    - intros run. split.
      + intros [= <-]. exists prog, i, o, m, b, rest, true. tauto.
      + intros (? & ? & ? & ? & ? & ? & cs & [= <- <- <- <- <- <-] & _ & Hb & ->).
        destruct Hb as [[_ ->] | [Hf _]]; [done|]. by apply tokens_disjoint in Hf.
    - split; [done | lia].
    - split; [done | tauto].
    - split; [done|]. rewrite elem_of_app. tauto. }
  rewrite (bool_decide_false _ Ht).
  destruct (decide (PyStr.lower b ∈ false_tokens)) as [Hf | Hf].
  { rewrite bool_decide_true by done. split; [|split; [|split]].
    - intros run. split.
      + intros [= <-]. exists prog, i, o, m, b, rest, false. tauto.
      + intros (? & ? & ? & ? & ? & ? & cs & [= <- <- <- <- <- <-] & _ & Hb & ->).
        destruct Hb as [[Ht' _] | [_ ->]]; done.
    - split; [done | lia].
    - split; [done | tauto].
    - split; [done|]. rewrite elem_of_app. tauto. }
  rewrite (bool_decide_false _ Hf). split; [|split; [|split]].
  - intros run. split; [done|].
    intros (? & ? & ? & ? & ? & ? & cs & [= <- <- <- <- <- <-] & _ & Hb & _). tauto.
  - split; [done | lia].
  - split; [done | tauto].
  - split; [|done]. intros _. rewrite elem_of_app. tauto.
Qed.

(** X2: the mode and the boolean are read without regard to letter case,
    and neither the program name nor anything after the fourth argument
    matters. *)
Theorem main_case_insensitive (w : world) (prog prog' input_path output_path mode flag : string)
    (rest rest' : list string) :
  main w (prog :: input_path :: output_path :: mode :: flag :: rest) =
  main w (prog' :: input_path :: output_path :: PyStr.lower mode :: PyStr.lower flag :: rest').
Proof.
  unfold main, argv_at. simpl. by rewrite !lower_idemp.
Qed.

(** ** The directory checks *)

Lemma process_folder_exits w input_path output_path first_run create_subfolders
    (fs : filesystem) :
  is_dir fs input_path = false ∨ is_dir fs output_path = false →
  process_folder w input_path output_path first_run create_subfolders fs =
    (Raise SystemExit, fs, []).
Proof.
  intros Hno. unfold process_folder, os_path_isdir, raise, mbind, M_bind.
  destruct (is_dir fs input_path); [|done]. simpl.
  destruct Hno as [? | ->]; done.
Qed.

(** X3: [process_folder] ends with [sys.exit] exactly when the input or the
    output path is not an existing directory, and then before anything is
    printed, probed or changed; in every other case it returns normally,
    after the banner. *)
Theorem process_folder_checks_directories (w : world)
    (input_path output_path first_run : string) (create_subfolders : bool)
    (fs : filesystem) :
  let o := process_folder w input_path output_path first_run create_subfolders fs in
  (result_of o = Raise SystemExit ↔
     is_dir fs input_path = false ∨ is_dir fs output_path = false) ∧
  (result_of o = Raise SystemExit → fs_of o = fs ∧ events_of o = []) ∧
  (result_of o ≠ Raise SystemExit →
     result_of o = Ok () ∧ head (events_of o) = Some (Printed Banner)).
Proof.
  intros o.
  destruct (is_dir fs input_path) eqn:Hin; [destruct (is_dir fs output_path) eqn:Hout|].
  - destruct (process_folder_processed w input_path output_path first_run
                create_subfolders fs Hin Hout) as [Hr _].
    fold o in Hr.
    assert (Hhd : head (events_of o) = Some (Printed Banner)).
    { unfold o. rewrite process_folder_run by done. cbv zeta.
      by destruct (for_each _ _ fs) as [[r fs'] ev]. }
    rewrite Hr. split; [|split]; [|done..].
    split; [done|]. intros [?|?]; done.
  - assert (Ho : o = (Raise SystemExit, fs, [])) by (apply process_folder_exits; by right).
    rewrite Ho. cbn [result_of fs_of events_of fst snd]. split; [|split]; [|done..].
    split; [by right | done].
  - assert (Ho : o = (Raise SystemExit, fs, [])) by (apply process_folder_exits; by left).
    rewrite Ho. cbn [result_of fs_of events_of fst snd]. split; [|split]; [|done..].
    split; [by left | done].
Qed.

(** ** Where the converted file goes *)

Lemma append_length s t : String.length (s +:+ t) = String.length s + String.length t.
Proof. induction s as [|a s IH]; [done|]. rewrite append_cons. simpl. by rewrite IH. Qed.

Lemma substring_all s : String.substring 0 (String.length s) s = s.
Proof. induction s as [|a s IH]; simpl; [done | by rewrite IH]. Qed.

Lemma substring_app_l s t : String.substring 0 (String.length s) (s +:+ t) = s.
Proof.
  induction s as [|a s IH].
  - rewrite append_nil_l. by destruct t.
  - rewrite append_cons. simpl. by rewrite IH.
Qed.

Lemma substring_app_r s t k :
  String.substring (String.length s) k (s +:+ t) = String.substring 0 k t.
Proof.
  induction s as [|a s IH].
  - by rewrite append_nil_l.
  - rewrite append_cons. simpl. exact IH.
Qed.

Lemma rfind_from_app i c s t found :
  PyStr.rfind_from i c (s +:+ t) found =
  PyStr.rfind_from (i + Z.of_nat (String.length s))%Z c t (PyStr.rfind_from i c s found).
Proof.
  revert i found. induction s as [|a s IH]; intros i found.
  - rewrite append_nil_l. simpl. by rewrite Z.add_0_r.
  - rewrite append_cons. simpl PyStr.rfind_from. rewrite IH. f_equal.
    simpl String.length. lia.
Qed.

Lemma rfind_from_absent i c s found :
  PyStr.contains s (String c "") = false → PyStr.rfind_from i c s found = found.
Proof.
  revert i found. induction s as [|a s IH]; intros i found; simpl; [done|].
  destruct (decide (c = a)) as [->|Hne]; [done|].
  rewrite decide_False by done. simpl. apply IH.
Qed.

Lemma only_dots_no_sep s : only_dots s → no_sep s.
Proof.
  unfold only_dots, no_sep. induction s as [|a s IH]; simpl; [done|].
  destruct (decide (a = "."%char)) as [->|]; [|done]. intros H.
  rewrite decide_False by done. by apply IH.
Qed.

(** [os.path.splitext] on a name that ends in one of the video extensions. *)
Lemma splitext_video_name (base ext : string) :
  ext ∈ video_formats → no_sep base →
  OsPath.splitext (base +:+ ext) =
    if PyStr.all_char "." base then (base +:+ ext, "") else (base, ext).
Proof.
  intros Hext Hsep. unfold OsPath.splitext, PyStr.rfind.
  rewrite !rfind_from_app. rewrite (rfind_from_absent _ "/" base) by exact Hsep.
  assert (Hs : PyStr.rfind_from (0 + Z.of_nat (String.length base)) "/" ext (-1) = (-1)%Z).
  { unfold video_formats in Hext. rewrite !elem_of_cons, elem_of_nil in Hext.
    destruct Hext as [-> | [-> | [-> | []]]]; reflexivity. }
  assert (Hd : ∀ f, PyStr.rfind_from (0 + Z.of_nat (String.length base)) "." ext f
                    = Z.of_nat (String.length base)).
  { intros f. unfold video_formats in Hext. rewrite !elem_of_cons, elem_of_nil in Hext.
    destruct Hext as [-> | [-> | [-> | []]]]; simpl; lia. }
  rewrite Hs, Hd. rewrite decide_True by lia.
  unfold PyStr.slice, PyStr.slice_from.
  replace (Z.to_nat (-1 + 1)) with 0 by lia.
  replace (Z.to_nat (Z.of_nat (String.length base) - (-1 + 1))) with (String.length base) by lia.
  replace (Z.to_nat (Z.of_nat (String.length base) - 0)) with (String.length base) by lia.
  replace (Z.to_nat 0) with 0 by lia.
  rewrite Nat2Z.id, !substring_app_l, substring_app_r, append_length.
  replace (String.length base + String.length ext - String.length base)
    with (String.length ext) by lia.
  by rewrite substring_all.
Qed.

(** X4: for a file name made of a base without a separator and one of the
    three video extensions, the destination is the output folder joined
    with the base and [.mp4], below a folder named after the base when
    subfolders are asked for; when the base is empty or only dots, the
    extension is not split off and stays in both names. *)
Theorem output_file_path_of_video_name (output_path base ext : string) :
  ext ∈ video_formats → no_sep base →
  (¬ only_dots base →
     output_file_path_of output_path (base +:+ ext) false =
       OsPath.join output_path (base +:+ ".mp4") ∧
     output_file_path_of output_path (base +:+ ext) true =
       OsPath.join (OsPath.join output_path base) (base +:+ ".mp4")) ∧
  (only_dots base →
     output_file_path_of output_path (base +:+ ext) false =
       OsPath.join output_path ((base +:+ ext) +:+ ".mp4") ∧
     output_file_path_of output_path (base +:+ ext) true =
       OsPath.join (OsPath.join output_path (base +:+ ext)) ((base +:+ ext) +:+ ".mp4")).
Proof.
  intros Hext Hsep. unfold output_file_path_of, only_dots.
  rewrite (splitext_video_name base ext Hext Hsep).
  destruct (PyStr.all_char "." base); split; done.
Qed.

(** ** The success branch, step by step *)

Lemma shutil_move_run src dst (fs : filesystem) m :
  fs !! src = Some (File m) →
  shutil_move src dst fs =
    let real_dst := if is_dir fs dst then OsPath.join dst (OsPath.basename src) else dst in
    if is_dir fs dst && bool_decide (is_Some (fs !! real_dst)) then (Raise ShutilError, fs, [])
    else if negb (is_dir fs dst) && negb (parent_ok fs dst) then (Raise OSError, fs, [])
    else (Ok (), <[real_dst := File m]> (delete src fs), [Moved src real_dst]).
Proof.
  intros Hsrc. unfold shutil_move. rewrite Hsrc. cbv zeta.
  destruct (is_dir fs dst); simpl; [by case_bool_decide|].
  by destruct (parent_ok fs dst).
Qed.

(** [finalize] on a state where the input and the temporary output are two
    distinct regular files: the sizes are read, and removing the input
    after the move cannot fail. *)
Lemma finalize_run w inp tmp dst dir cs (fs : filesystem) n m :
  fs !! inp = Some (File n) → fs !! tmp = Some (File m) → inp ≠ tmp →
  ∃ fs1 mk,
    (fs1 = fs ∧ mk = [] ∨
     cs = true ∧ fs !! dir = None ∧ fs1 = <[dir := Dir (mkdir_size w)]> fs ∧
     mk = [MadeDirs dir]) ∧
    fs1 !! inp = Some (File n) ∧ fs1 !! tmp = Some (File m) ∧
    ((cs = true ∧ ∃ e, finalize w inp tmp dst dir cs fs = (Raise e, fs1, mk)) ∨
     finalize w inp tmp dst dir cs fs =
       match shutil_move tmp dst fs1 with
       | (Ok _, fs2, ev2) =>
           (Ok (), delete inp fs2,
            mk ++ ev2 ++ [Printed (MovedEncoded (round_mb n) (round_mb m)); Removed inp])
       | (Raise e, fs2, ev2) => (Raise e, fs2, mk ++ ev2)
       end).
Proof.
  intros Hinp Htmp Hne.
  assert (Hmk : ∃ r fs1 ev1,
    (if cs then os_makedirs w dir else mret ()) fs = (r, fs1, ev1) ∧
    (r = Ok () ∨ cs = true) ∧
    (fs1 = fs ∧ ev1 = [] ∨
     r = Ok () ∧ cs = true ∧ fs !! dir = None ∧ fs1 = <[dir := Dir (mkdir_size w)]> fs ∧
     ev1 = [MadeDirs dir])).
  { destruct cs.
    - destruct (os_makedirs_spec w dir fs) as (r & fs1 & ev1 & -> & H).
      exists r, fs1, ev1. split; [done|]. split; [by right|].
      destruct H as [(-> & -> & ->) | [(-> & -> & ->) | (-> & Hd & -> & ->)]];
        [by left | by left | right; by repeat split].
    - eexists _, _, _. split; [reflexivity|]. split; by left. }
  destruct Hmk as (r & fs1 & ev1 & Hmk & Hcs & Hfs1).
  assert (Hinp1 : fs1 !! inp = Some (File n)).
  { destruct Hfs1 as [[-> _] | (_ & _ & Hd & -> & _)]; [done|].
    rewrite lookup_insert_ne by congruence. done. }
  assert (Htmp1 : fs1 !! tmp = Some (File m)).
  { destruct Hfs1 as [[-> _] | (_ & _ & Hd & -> & _)]; [done|].
    rewrite lookup_insert_ne by congruence. done. }
  exists fs1, ev1. split; [|split; [done|split; [done|]]].
  { destruct Hfs1 as [[-> ->] | (_ & -> & Hd & -> & ->)]; [by left | by right]. }
  destruct r as [[]|e].
  - right. unfold finalize, mbind, M_bind, os_path_getsize, print, emit. rewrite Hmk.
    rewrite Hinp1, Htmp1. simpl.
    destruct (shutil_move_spec tmp dst fs1 m Htmp1) as [(rd & Hmv & _) | (e & Hmv & _)];
      rewrite Hmv; [|done].
    unfold os_remove.
    assert (Hrm : ∃ k, <[rd := File m]> (delete tmp fs1) !! inp = Some (File k)).
    { destruct (decide (rd = inp)) as [->|Hn].
      - exists m. by rewrite lookup_insert_eq.
      - exists n. rewrite lookup_insert_ne, lookup_delete_ne by done. done. }
    destruct Hrm as [k ->]. done.
  - left. destruct Hcs as [?|Hcs]; [done|]. split; [done|].
    exists e. unfold finalize, mbind, M_bind. by rewrite Hmk.
Qed.



Lemma parent_ok_insert (fs : filesystem) p q nd :
  fs !! q = None → parent_ok fs p = true → parent_ok (<[q := nd]> fs) p = true.
Proof.
  intros Hq. unfold parent_ok, is_dir. cbv zeta.
  destruct (bool_decide (OsPath.dirname p = "")); [done|]. simpl.
  destruct (decide (OsPath.dirname p = q)) as [->|Hne].
  - by rewrite Hq.
  - by rewrite lookup_insert_ne.
Qed.

(** X5: with the same folder for input and output, no subfolders and an
    input that is already an [.mp4], the destination is the input path; a
    successful conversion is moved onto the input and the input is then
    removed, so the run ends without the original and without the
    converted file: its only lasting effect is that the input is gone. *)
Theorem in_place_conversion_loses_the_file (w : world) (folder mode base : string)
    (idx total : nat) (fs : filesystem) (n : N) :
  let file := base +:+ ".mp4" in
  let inp := OsPath.join folder file in
  let tmp := tempname w fs in
  let o := process_file w folder folder mode false idx total file fs in
  no_sep base → ¬ only_dots base →
  fs !! inp = Some (File n) → fs !! tmp = None → parent_ok fs inp = true →
  result_of (convert_to_mp4 w inp tmp mode (<[tmp := File 0]> fs)) = Ok true →
  result_of o = Ok () ∧
  Moved tmp inp ∈ events_of o ∧ Removed inp ∈ events_of o ∧
  fs_of o = delete inp fs.
Proof.
  intros file inp tmp o Hsep Hdots Hinp Htmp Hpar Hconv.
  assert (Hne : inp ≠ tmp) by (intros Heq; rewrite Heq in Hinp; congruence).
  assert (Hdst : output_file_path_of folder file false = inp).
  { unfold output_file_path_of, file.
    rewrite (splitext_video_name base ".mp4") by (done || compute_done).
    unfold only_dots in Hdots. by destruct (PyStr.all_char "." base). }
  destruct (convert_to_mp4_effect w inp tmp mode (<[tmp := File 0]> fs))
    as (b & fs1 & ev1 & Hc & Hfs1 & Hev1).
  assert (b = true) as ->
    by (rewrite Hc in Hconv; cbn [result_of fst] in Hconv; congruence).
  assert (Hfs1' : ∃ m, fs1 = <[tmp := File m]> fs).
  { destruct Hfs1 as [-> | [k ->]]; [by eexists|]. exists k. by rewrite insert_insert_eq. }
  destruct Hfs1' as [m ->].
  unfold o. rewrite (process_file_converted _ _ _ _ _ _ _ _ _ _ _ Hc).
  fold inp tmp file. rewrite Hdst.
  destruct (finalize_run w inp tmp inp (OsPath.join folder (OsPath.splitext file).1) false
              (<[tmp := File m]> fs) n m)
    as (fs1 & mk & Hmk & _ & _ & Hfin).
  { by rewrite lookup_insert_ne. }
  { by rewrite lookup_insert_eq. }
  { done. }
  destruct Hmk as [[-> ->] | (? & _)]; [|done].
  destruct Hfin as [[? _] | Hfin]; [done|].
  rewrite Hfin. rewrite (shutil_move_run _ _ _ m) by (by rewrite lookup_insert_eq).
  assert (Hnd : is_dir (<[tmp := File m]> fs) inp = false).
  { unfold is_dir. by rewrite lookup_insert_ne, Hinp. }
  rewrite Hnd. cbv zeta. rewrite (parent_ok_insert _ _ _ _ Htmp Hpar).
  cbn [andb negb]. cbn [result_of events_of fs_of fst snd].
  split; [done|]. split; [|split].
  - rewrite !elem_of_app, !elem_of_cons. tauto.
  - rewrite !elem_of_app, !elem_of_cons. tauto.
  - apply map_eq. intros p. destruct (decide (p = inp)) as [->|Hp].
    + by rewrite !lookup_delete_eq.
    + rewrite !lookup_delete_ne, lookup_insert_ne by done.
      destruct (decide (p = tmp)) as [->|Hp'].
      * by rewrite lookup_delete_eq.
      * by rewrite lookup_delete_ne, lookup_insert_ne.
Qed.

Section placed.
Context (w : world) (input_path output_path mode : string) (cs : bool)
        (idx total : nat) (file : string) (fs : filesystem) (n : N).

Let inp := OsPath.join input_path file.
Let tmp := tempname w fs.
Let dst := output_file_path_of output_path file cs.
Let dir := OsPath.join output_path (OsPath.splitext file).1.
Let fs0 : filesystem := <[tmp := File 0]> fs.
Let o := process_file w input_path output_path mode cs idx total file fs.

Hypothesis input_is_file : fs !! inp = Some (File n).
Hypothesis temp_is_fresh : fs !! tmp = None.

(** The iteration in full when the conversion succeeded. *)
Lemma process_file_moved_or_cleaned fs1 ev1 :
  convert_to_mp4 w inp tmp mode fs0 = (Ok true, fs1, ev1) →
  ∃ m fsm mk,
    fs1 !! tmp = Some (File m) ∧
    (fsm = fs1 ∧ mk = [] ∨
     cs = true ∧ fs1 !! dir = None ∧ fsm = <[dir := Dir (mkdir_size w)]> fs1 ∧
     mk = [MadeDirs dir]) ∧
    ((∃ real_dst,
        o = (Ok (), delete inp (<[real_dst := File m]> (delete tmp fsm)),
             preamble tmp idx total file ++ ev1 ++ mk ++
             [Moved tmp real_dst; Printed (MovedEncoded (round_mb n) (round_mb m));
              Removed inp; Printed TotalRuntime]) ∧
        real_dst = (if is_dir fsm dst then OsPath.join dst (OsPath.basename tmp) else dst)) ∨
     (∃ e, o = (Ok (), delete tmp fsm,
                preamble tmp idx total file ++ ev1 ++ mk ++
                [Printed (UnexpectedError e); Removed tmp]))).
Proof.
  intros Hc.
  assert (Hne : inp ≠ tmp) by (intros Heq; rewrite Heq in input_is_file; congruence).
  destruct (convert_to_mp4_effect w inp tmp mode fs0) as (b & fs1' & ev1' & Hc' & Hfs1 & _).
  rewrite Hc in Hc'. symmetry in Hc'. simplify_eq.
  assert (Hinp1 : fs1 !! inp = Some (File n)).
  { destruct Hfs1 as [-> | [k ->]]; unfold fs0; rewrite ?lookup_insert_ne by done; done. }
  assert (Htmp1 : ∃ m, fs1 !! tmp = Some (File m)).
  { destruct Hfs1 as [-> | [k ->]]; unfold fs0; rewrite lookup_insert_eq; eauto. }
  destruct Htmp1 as [m Htmp1].
  destruct (finalize_run w inp tmp dst dir cs fs1 n m Hinp1 Htmp1 Hne)
    as (fsm & mk & Hmk & Hinpm & Htmpm & Hfin).
  exists m, fsm, mk. split; [done|]. split; [done|].
  unfold o. rewrite (process_file_converted _ _ _ _ _ _ _ _ _ _ _ Hc).
  fold inp tmp dst dir.
  assert (Hfail : ∀ e, is_Exception e = true →
    (if is_Exception e
     then (Ok (), if is_file fsm tmp then delete tmp fsm else fsm,
           preamble tmp idx total file ++ ev1 ++ mk ++
           Printed (UnexpectedError e) :: (if is_file fsm tmp then [Removed tmp] else []))
     else (Raise e, fsm, preamble tmp idx total file ++ ev1 ++ mk)) =
    (Ok (), delete tmp fsm,
     preamble tmp idx total file ++ ev1 ++ mk ++ [Printed (UnexpectedError e); Removed tmp])).
  { intros e ->. unfold is_file. by rewrite Htmpm. }
  destruct Hfin as [[_ [e Hfin]] | Hfin].
  - right. exists e. rewrite Hfin. apply Hfail.
    destruct (finalize_total w inp tmp dst dir cs fs1) as (r & ? & ? & Hr & Hcase & _).
    rewrite Hfin in Hr. simplify_eq. by destruct Hcase as [? | [? | ?]]; simplify_eq.
  - rewrite Hfin. rewrite (shutil_move_run _ _ _ m Htmpm). cbv zeta.
    destruct (is_dir fsm dst && _) eqn:H1.
    { right. exists ShutilError. rewrite app_nil_r. by apply Hfail. }
    destruct (negb (is_dir fsm dst) && _) eqn:H2.
    { right. exists OSError. rewrite app_nil_r. by apply Hfail. }
    left. eexists. split; [|reflexivity]. simpl. by rewrite <- !app_assoc.
Qed.

End placed.


(** X7: when the conversion returned [True] but the iteration records no
    move - creating the subfolder or moving failed - the [except] clause
    has run: the error is printed, the temporary file is removed, the input
    file is kept with its content, the "Total runtime" line is skipped and
    the loop goes on. *)
Theorem failed_move_is_cleaned_up (w : world) (input_path output_path mode : string)
    (create_subfolders : bool) (idx total : nat) (file : string)
    (fs : filesystem) (n : N) :
  let inp := OsPath.join input_path file in
  let tmp := tempname w fs in
  let conv := convert_to_mp4 w inp tmp mode (<[tmp := File 0]> fs) in
  let o := process_file w input_path output_path mode create_subfolders idx total file fs in
  fs !! inp = Some (File n) →
  fs !! tmp = None →
  result_of conv = Ok true →
  (∀ d, Moved tmp d ∉ events_of o) →
  result_of o = Ok () ∧
  fs_of o !! inp = Some (File n) ∧
  fs_of o !! tmp = None ∧
  (∃ e before, events_of o = before ++ [Printed (UnexpectedError e); Removed tmp]) ∧
  Printed TotalRuntime ∉ events_of o.
Proof.
  intros inp tmp conv o Hinp Htmp Hconv Hnomove.
  assert (Hne : inp ≠ tmp) by (intros Heq; rewrite Heq in Hinp; congruence).
  destruct (convert_to_mp4_effect w inp tmp mode (<[tmp := File 0]> fs))
    as (b & fs1 & ev1 & Hc & Hfs1 & Hev1).
  assert (b = true) as ->
    by (unfold conv in Hconv; rewrite Hc in Hconv; cbn [result_of fst] in Hconv; congruence).
  assert (Hinp1 : fs1 !! inp = Some (File n)).
  { destruct Hfs1 as [-> | [k ->]]; rewrite ?lookup_insert_ne by done; done. }
  destruct (process_file_moved_or_cleaned w input_path output_path mode create_subfolders
              idx total file fs n Hinp Htmp fs1 ev1 Hc)
    as (m & fsm & mk & Htmp1 & Hmk & [(rd & Ho & Hrd) | (e & Ho)]); fold o in Ho.
  { exfalso. apply (Hnomove rd). rewrite Ho. cbn [events_of snd].
    rewrite !elem_of_app, !elem_of_cons. tauto. }
  rewrite Ho. cbn [result_of events_of fs_of fst snd]. split; [done|].
  assert (Hinpm : fsm !! inp = Some (File n)).
  { destruct Hmk as [[-> _] | (_ & Hd & -> & _)]; [done|].
    rewrite lookup_insert_ne by congruence. done. }
  split; [by rewrite lookup_delete_ne|]. split; [by rewrite lookup_delete_eq|]. split.
  - exists e, (preamble tmp idx total file ++ ev1 ++ mk). by rewrite <- !app_assoc.
  - rewrite !elem_of_app. intros [H | [H | [H | H]]].
    + apply preamble_elem in H as [? | [? | ?]]; discriminate.
    + by apply (convert_event_elem _ _ _ Hev1) in H.
    + destruct Hmk as [[_ ->] | (_ & _ & _ & ->)].
      * by apply elem_of_nil in H.
      * apply list_elem_of_singleton in H. discriminate.
    + rewrite !elem_of_cons, elem_of_nil in H. destruct H as [? | [? | []]]; discriminate.
Qed.

(** ** What a conversion can and cannot do *)

(** X8: [convert_to_mp4] never raises - it returns [True] or [False] on
    every file, in every mode, whatever the probes and the engine do - and
    the only path whose content it can change is the temporary output. *)
Theorem convert_to_mp4_is_contained (w : world) (input_file temp_file mode : string)
    (fs : filesystem) :
  let o := convert_to_mp4 w input_file temp_file mode fs in
  (∃ b, result_of o = Ok b) ∧
  (∀ p, p ≠ temp_file → fs_of o !! p = fs !! p) ∧
  (∀ e, e ∈ events_of o →
        (∃ m, e = Printed m) ∨ (∃ cmd, e = Ran cmd) ∨ e = Wrote temp_file).
Proof.
  intros o.
  destruct (convert_to_mp4_effect w input_file temp_file mode fs)
    as (b & fs' & ev & Ho & Hfs & Hev).
  fold o in Ho. rewrite Ho. cbn [result_of fs_of events_of fst snd].
  split; [by exists b|]. split.
  - intros p Hp. destruct Hfs as [-> | [n ->]]; [done|]. by rewrite lookup_insert_ne.
  - intros e He. apply (convert_event_elem _ _ _ Hev) in He.
    destruct e as [m|cmd|p|p|d|src dst|p]; simpl in He; try done; eauto.
    apply bool_decide_eq_true in He as ->. eauto.
Qed.

Lemma build_ffmpeg_cmd_head input_file temp_file mode video_codec audio_indices subs :
  ∃ rest, build_ffmpeg_cmd input_file temp_file mode video_codec audio_indices subs =
          "ffmpeg" :: "-i" :: input_file :: "-y" :: rest.
Proof.
  rewrite build_ffmpeg_cmd_shape. unfold head_args, build_ffmpeg_cmd.
  repeat case_decide; simpl; eexists; reflexivity.
Qed.

Lemma engine_cmds_app ev1 ev2 : engine_cmds (ev1 ++ ev2) = engine_cmds ev1 ++ engine_cmds ev2.
Proof. apply omap_app. Qed.

Lemma engine_cmds_probes input_file : engine_cmds (probe_events input_file) = [].
Proof. reflexivity. Qed.

Lemma engine_cmds_run w cmd (fs : filesystem) rest :
  cmd = "ffmpeg" :: rest → engine_cmds (events_of (run_ffmpeg w cmd fs)) = [cmd].
Proof.
  intros ->. unfold run_ffmpeg.
  by destruct (ffmpeg w _ fs) as [[] [n|]].
Qed.

(** The conversion on a file whose probes and selections went through. *)
Lemma convert_to_mp4_engine w inp tmp mode (fs : filesystem) a v s ai subs :
  selected w inp fs a v s ai subs →
  let o := convert_to_mp4 w inp tmp mode fs in
  let cmd := build_ffmpeg_cmd inp tmp mode (get_video_codec v) ai subs in
  if bool_decide (ai = []) ||
     bool_decide (mode = "remux") && bool_decide (get_video_codec v = Some "av1")
  then result_of o = Ok false ∧ engine_cmds (events_of o) = []
  else engine_cmds (events_of o) = [cmd] ∧
       result_of o =
         Ok (bool_decide (engine_exit_status (ffmpeg w cmd fs) = EngineExitZero)).
Proof.
  intros Hsel o cmd. unfold o.
  rewrite (convert_to_mp4_selected _ _ _ _ _ _ _ _ _ _ Hsel).
  case_bool_decide; [done|].
  destruct (bool_decide (mode = "remux") && _); [done|].
  cbn [orb]. fold cmd.
  destruct (build_ffmpeg_cmd_head inp tmp mode (get_video_codec v) ai subs) as [rest Hcmd].
  fold cmd in Hcmd.
  pose proof (engine_cmds_run w cmd fs _ Hcmd) as Hrun.
  assert (Hres : result_of (run_ffmpeg w cmd fs) =
    if bool_decide (engine_exit_status (ffmpeg w cmd fs) = EngineExitZero)
    then Ok () else
      match engine_exit_status (ffmpeg w cmd fs) with
      | EngineNotStarted => Raise OSError
      | _ => Raise CalledProcessError
      end).
  { unfold run_ffmpeg. by destruct (ffmpeg w cmd fs) as [[] [n|]]. }
  destruct (run_ffmpeg w cmd fs) as [[[[]|e] fs'] ev]; cbn [result_of events_of fst snd] in *.
  - split.
    + rewrite !engine_cmds_app, engine_cmds_probes, Hrun. done.
    + case_bool_decide; [done|]. by destruct (engine_exit_status _).
  - split.
    + rewrite !engine_cmds_app, engine_cmds_probes, Hrun. done.
    + case_bool_decide; [done|]. done.
Qed.

(** No ffmpeg command is run for a file whose probing or selection failed. *)
Lemma convert_to_mp4_unselected w inp tmp mode (fs : filesystem) :
  (∀ a v s ai subs, ¬ selected w inp fs a v s ai subs) →
  engine_cmds (events_of (convert_to_mp4 w inp tmp mode fs)) = [].
Proof.
  intros Hno.
  destruct (ffprobe w (probe_cmd inp (Some "a")) fs) as [| | |a] eqn:Ha;
    [unfold_M; rewrite Ha; reflexivity..|].
  destruct (ffprobe w (probe_cmd inp None) fs) as [| | |v] eqn:Hv;
    [unfold_M; rewrite Ha, Hv; reflexivity..|].
  destruct (ffprobe w (probe_cmd inp (Some "s")) fs) as [| | |s] eqn:Hs;
    [unfold_M; rewrite Ha, Hv, Hs; reflexivity..|].
  destruct (get_english_audio_indices a) as [ai|e] eqn:Hai.
  - destruct (get_subtitle_streams s) as [subs|e] eqn:Hsubs.
    + destruct (Hno a v s ai subs). by repeat split.
    + unfold_M. rewrite Ha, Hv, Hs. simpl. rewrite Hai, Hsubs. by destruct e.
  - unfold_M. rewrite Ha, Hv, Hs. simpl. rewrite Hai. by destruct e.
Qed.

(** X9: [convert_to_mp4] returns [True] exactly when the three probes
    delivered documents, both selectors went through, at least one audio
    stream qualified, the file is not an AV1 file in remux mode, and the
    engine, run on the command built from the selections, exited with
    status zero. *)
Theorem convert_to_mp4_true_iff (w : world) (input_file temp_file mode : string)
    (fs : filesystem) :
  result_of (convert_to_mp4 w input_file temp_file mode fs) = Ok true ↔
  ∃ a v s audio_indices subs,
    selected w input_file fs a v s audio_indices subs ∧
    audio_indices ≠ [] ∧
    ¬ (mode = "remux" ∧ get_video_codec v = Some "av1") ∧
    engine_exit_status
      (ffmpeg w (build_ffmpeg_cmd input_file temp_file mode (get_video_codec v)
                   audio_indices subs) fs) = EngineExitZero.
Proof.
  split.
  - intros Hres.
    destruct (convert_to_mp4_selection w input_file temp_file mode fs)
      as [(a & v & s & ai & subs & Hsel) | (_ & ev & m & Ho & _)].
    2:{ by rewrite Ho in Hres. }
    pose proof (convert_to_mp4_engine w input_file temp_file mode fs a v s ai subs Hsel)
      as Heng. cbv zeta in Heng.
    exists a, v, s, ai, subs. split; [done|].
    destruct (bool_decide (ai = [])) eqn:Hai.
    { destruct Heng as [Hf _]. congruence. }
    apply bool_decide_eq_false in Hai. split; [done|].
    destruct (bool_decide (mode = "remux") && _) eqn:Hav.
    { destruct Heng as [Hf _]. congruence. }
    split.
    + intros [Hm Hc]. by rewrite !bool_decide_true in Hav.
    + destruct Heng as [_ Hr]. rewrite Hr in Hres.
      injection Hres as Hres. by apply bool_decide_eq_true in Hres.
  - intros (a & v & s & ai & subs & Hsel & Hai & Hav & Hexit).
    pose proof (convert_to_mp4_engine w input_file temp_file mode fs a v s ai subs Hsel)
      as Heng. cbv zeta in Heng.
    rewrite (bool_decide_false _ Hai) in Heng.
    assert (Hav' : bool_decide (mode = "remux") &&
                   bool_decide (get_video_codec v = Some "av1") = false).
    { apply andb_false_iff. rewrite !bool_decide_eq_false.
      destruct (decide (mode = "remux")); [right|left]; tauto. }
    rewrite Hav' in Heng. destruct Heng as [_ ->]. by rewrite bool_decide_true.
Qed.

(** X10: the engine is started exactly when probing and selection went
    through, some audio stream qualified and the file is not an AV1 file
    in remux mode; it is then started once, on the command
    [build_ffmpeg_cmd] gives for the selections, and no other ffmpeg
    command is run for the file. *)
Theorem engine_started_iff (w : world) (input_file temp_file mode : string)
    (fs : filesystem) :
  let o := convert_to_mp4 w input_file temp_file mode fs in
  (engine_cmds (events_of o) ≠ [] ↔
     ∃ a v s audio_indices subs,
       selected w input_file fs a v s audio_indices subs ∧
       audio_indices ≠ [] ∧
       ¬ (mode = "remux" ∧ get_video_codec v = Some "av1")) ∧
  (∀ a v s audio_indices subs,
     selected w input_file fs a v s audio_indices subs →
     engine_cmds (events_of o) ≠ [] →
     engine_cmds (events_of o) =
       [build_ffmpeg_cmd input_file temp_file mode (get_video_codec v)
          audio_indices subs]).
Proof.
  intros o.
  assert (Hcase : ∀ a v s ai subs, selected w input_file fs a v s ai subs →
    (engine_cmds (events_of o) = [] ∧
     ¬ (ai ≠ [] ∧ ¬ (mode = "remux" ∧ get_video_codec v = Some "av1"))) ∨
    (engine_cmds (events_of o) =
       [build_ffmpeg_cmd input_file temp_file mode (get_video_codec v) ai subs] ∧
     ai ≠ [] ∧ ¬ (mode = "remux" ∧ get_video_codec v = Some "av1"))).
  { intros a v s ai subs Hsel.
    pose proof (convert_to_mp4_engine w input_file temp_file mode fs a v s ai subs Hsel)
      as Heng. cbv zeta in Heng. fold o in Heng.
    destruct (bool_decide (ai = [])) eqn:Hai.
    { apply bool_decide_eq_true in Hai. left. split; [apply Heng | tauto]. }
    apply bool_decide_eq_false in Hai.
    destruct (bool_decide (mode = "remux") && _) eqn:Hav.
    { apply andb_true_iff in Hav as [Hm Hc%bool_decide_eq_true].
      apply bool_decide_eq_true in Hm. left. split; [apply Heng | tauto]. }
    apply andb_false_iff in Hav. rewrite !bool_decide_eq_false in Hav.
    right. split; [apply Heng|]. tauto. }
  split.
  - split.
    + intros Hne.
      destruct (convert_to_mp4_selection w input_file temp_file mode fs)
        as [(a & v & s & ai & subs & Hsel) | (Hno & _)].
      * exists a, v, s, ai, subs. split; [done|].
        destruct (Hcase _ _ _ _ _ Hsel) as [[Hnil _] | [_ ?]]; done.
      * exfalso. apply Hne. by apply convert_to_mp4_unselected.
    + intros (a & v & s & ai & subs & Hsel & Hai & Hav).
      destruct (Hcase _ _ _ _ _ Hsel) as [[_ Hno] | [-> _]]; [tauto | done].
  - intros a v s ai subs Hsel Hne.
    destruct (Hcase _ _ _ _ _ Hsel) as [[Hnil _] | [? _]]; done.
Qed.

(** ** Probes that fail *)

(** X11: the first probe that does not deliver a document ends the
    conversion: the later probes and the engine are not run, nothing is
    changed, the result is [False], and the line printed is "FFmpeg error"
    when ffprobe exited with a non-zero status - although ffmpeg never ran -
    and "Unexpected error" when it could not be started or its output was
    not JSON. *)
Theorem failed_probe_is_reported (w : world) (input_file temp_file mode : string)
    (fs : filesystem) (m : message) :
  let o := convert_to_mp4 w input_file temp_file mode fs in
  let audio := probe_cmd input_file (Some "a") in
  let video := probe_cmd input_file None in
  let subs := probe_cmd input_file (Some "s") in
  (probe_failure (ffprobe w audio fs) = Some m →
     o = (Ok false, fs, [Ran audio; Printed m])) ∧
  (probe_failure (ffprobe w audio fs) = None →
   probe_failure (ffprobe w video fs) = Some m →
     o = (Ok false, fs, [Ran audio; Ran video; Printed m])) ∧
  (probe_failure (ffprobe w audio fs) = None →
   probe_failure (ffprobe w video fs) = None →
   probe_failure (ffprobe w subs fs) = Some m →
     o = (Ok false, fs, [Ran audio; Ran video; Ran subs; Printed m])).
Proof.
  intros o audio video subs. subst o audio video subs. split; [|split].
  - intros Ha.
    destruct (ffprobe w (probe_cmd input_file (Some "a")) fs) eqn:Ea;
      cbn [probe_failure] in Ha; [injection Ha as <-..|discriminate];
      unfold_M; rewrite Ea; reflexivity.
  - intros Ha Hv.
    destruct (ffprobe w (probe_cmd input_file (Some "a")) fs) eqn:Ea;
      cbn [probe_failure] in Ha; [discriminate..|].
    destruct (ffprobe w (probe_cmd input_file None) fs) eqn:Ev;
      cbn [probe_failure] in Hv; [injection Hv as <-..|discriminate];
      unfold_M; rewrite Ea, Ev; reflexivity.
  - intros Ha Hv Hs.
    destruct (ffprobe w (probe_cmd input_file (Some "a")) fs) eqn:Ea;
      cbn [probe_failure] in Ha; [discriminate..|].
    destruct (ffprobe w (probe_cmd input_file None) fs) eqn:Ev;
      cbn [probe_failure] in Hv; [discriminate..|].
    destruct (ffprobe w (probe_cmd input_file (Some "s")) fs) eqn:Es;
      cbn [probe_failure] in Hs; [injection Hs as <-..|discriminate];
      unfold_M; rewrite Ea, Ev, Es; reflexivity.
Qed.

(** ** Streams without an index *)

Lemma comprehension_inv {A B} (f : A → result B) (cond : A → bool) (l : list A) bs :
  comprehension f cond l = Ok bs →
  Forall2 (λ b s, f s = Ok b) bs (filter (λ s, cond s = true) l).
Proof.
  revert bs. induction l as [|s l IH]; intros bs; simpl.
  - intros [= <-]. constructor.
  - destruct (cond s) eqn:Hc.
    + rewrite filter_cons_True by done.
      destruct (f s) as [b|e] eqn:Hf; simpl; [|done].
      destruct (comprehension f cond l) as [bs'|e]; simpl; [|done].
      intros [= <-]. constructor; [done | by apply IH].
    + rewrite filter_cons_False by (by rewrite Hc). apply IH.
Qed.

Lemma comprehension_raises {A B} (f : A → result B) (cond : A → bool) (l : list A) s e :
  s ∈ l → cond s = true → f s = Raise e → ∃ e', comprehension f cond l = Raise e'.
Proof.
  intros Hs Hc Hf. induction l as [|x l IH]; [by apply elem_of_nil in Hs|].
  simpl. apply elem_of_cons in Hs as [<- | Hs].
  - rewrite Hc, Hf. by exists e.
  - destruct (IH Hs) as [e' He']. destruct (cond x); [|by exists e'].
    destruct (f x) as [b|e'']; simpl; [|by eexists].
    rewrite He'. by exists e'.
Qed.

Lemma str_index_raise s e : str_index s = Raise e ↔ e = KeyError ∧ index s = None.
Proof.
  unfold str_index. destruct (index s); split; try done.
  - by intros [_ ?].
  - by intros [= <-].
  - by intros [-> _].
Qed.

Lemma subtitle_entry_raise s e : subtitle_entry s = Raise e ↔ e = KeyError ∧ index s = None.
Proof.
  rewrite <- str_index_raise. unfold subtitle_entry.
  destruct (str_index s); simpl; split; congruence.
Qed.

(** X12: a selector raises only [KeyError], and it does so exactly when a
    stream that passes its filter has no index; streams that are filtered
    out may lack one.  When either selector raises, the conversion prints
    "Unexpected error", returns [False] and leaves everything as it was:
    a subtitle stream without an index is enough to skip the file. *)
Theorem missing_index_skips_the_file (doc : probe_output) :
  let ss := default [] (streams doc) in
  (∀ e, get_english_audio_indices doc = Raise e ↔
        e = KeyError ∧ ∃ s, s ∈ ss ∧ eng_or_und s ∧ index s = None) ∧
  (∀ e, get_subtitle_streams doc = Raise e ↔
        e = KeyError ∧ ∃ s, s ∈ ss ∧ allowed_subtitle s ∧ index s = None) ∧
  (∀ w input_file temp_file mode (fs : filesystem) a v s,
     probed w input_file fs a v s →
     (a = doc ∧ get_english_audio_indices doc = Raise KeyError) ∨
     (s = doc ∧ get_subtitle_streams doc = Raise KeyError) →
     convert_to_mp4 w input_file temp_file mode fs =
       (Ok false, fs, probe_events input_file ++ [Printed (UnexpectedError KeyError)])).
Proof.
  intros ss. split; [|split].
  - intros e. unfold get_english_audio_indices. fold ss. split.
    + intros He. apply comprehension_raise in He as (s & Hs & Hc & Hf).
      apply str_index_raise in Hf as [-> Hi]. split; [done|].
      exists s. by rewrite <- english_or_und_spec.
    + intros (-> & s & Hs & Hc & Hi). apply english_or_und_spec in Hc.
      destruct (comprehension_raises str_index english_or_und ss s KeyError Hs Hc)
        as [e' He']; [by apply str_index_raise|].
      rewrite He'. f_equal.
      apply comprehension_raise in He' as (s' & _ & _ & Hf).
      by apply str_index_raise in Hf as [-> _].
  - intros e. unfold get_subtitle_streams. fold ss. split.
    + intros He. apply comprehension_raise in He as (s & Hs & Hc & Hf).
      apply subtitle_entry_raise in Hf as [-> Hi]. split; [done|].
      exists s. by rewrite <- subtitle_ok_spec.
    + intros (-> & s & Hs & Hc & Hi). apply subtitle_ok_spec in Hc.
      destruct (comprehension_raises subtitle_entry subtitle_ok ss s KeyError Hs Hc)
        as [e' He']; [by apply subtitle_entry_raise|].
      rewrite He'. f_equal.
      apply comprehension_raise in He' as (s' & _ & _ & Hf).
      by apply subtitle_entry_raise in Hf as [-> _].
  - intros w input_file temp_file mode fs a v s (Ha & Hv & Hs) Hraise.
    unfold_M. rewrite Ha, Hv, Hs. simpl.
    destruct Hraise as [[-> Hr] | [-> Hr]].
    + by rewrite Hr.
    + destruct (get_english_audio_indices a) as [ai|e] eqn:Hai; simpl.
      * by rewrite Hr.
      * apply comprehension_raise in Hai as (x & _ & _ & Hx).
        by apply str_index_raise in Hx as [-> _].
Qed.

(** ** The subtitle entries *)

(** X13: every entry [get_subtitle_streams] returns has a codec of the
    allow-list - the ["unknown"] default is never used - a language that is
    eng or und, and the decimal index of a probed stream; so the language
    written into the command is one of these two. *)
Theorem subtitle_entries_are_valid (doc : probe_output) (subs : list subtitle) :
  get_subtitle_streams doc = Ok subs →
  Forall (λ sub,
            sub_codec sub ∈ valid_codecs ∧
            sub_language sub ∈ ["eng"; "und"] ∧
            ∃ s z, s ∈ default [] (streams doc) ∧ index s = Some z ∧
                   sub_index sub = pretty z) subs ∧
  (∀ sub a, head subs = Some sub → a ∈ subtitle_args (Some sub) →
     a ∈ ["-map"; "0:" +:+ sub_index sub; "-c:s"; "mov_text"; "-metadata:s:s:0";
          "language=eng"; "language=und"]).
Proof.
  intros Hsubs.
  assert (Hall : Forall (λ sub,
            sub_codec sub ∈ valid_codecs ∧
            sub_language sub ∈ ["eng"; "und"] ∧
            ∃ s z, s ∈ default [] (streams doc) ∧ index s = Some z ∧
                   sub_index sub = pretty z) subs).
  { apply comprehension_inv in Hsubs. apply Forall_forall. intros sub Hsub.
    destruct (Forall2_elem_of_l _ _ _ _ Hsubs Hsub) as (s & Hs & Hentry).
    apply list_elem_of_filter in Hs as [Hok Hs].
    unfold subtitle_entry, str_index in Hentry.
    destruct (index s) as [z|] eqn:Hz; simplify_eq/=.
    unfold subtitle_ok in Hok. apply andb_true_iff in Hok as [Hcodec Hlang].
    destruct (codec_name s) as [c|]; [|done]. simpl.
    apply bool_decide_eq_true in Hcodec. unfold english_or_und in Hlang.
    apply bool_decide_eq_true in Hlang. eauto 10. }
  split; [done|].
  intros sub a Hhead Ha. destruct subs as [|sub' subs']; simplify_eq/=.
  apply Forall_cons in Hall as [(_ & Hlang & _) _].
  rewrite !elem_of_cons, elem_of_nil in Hlang.
  rewrite !elem_of_cons, elem_of_nil in Ha. rewrite !elem_of_cons.
  destruct Hlang as [Hl | [Hl | []]]; rewrite Hl in Ha;
    destruct Ha as [->|[->|[->|[->|[->|[->|[]]]]]]];
    repeat first [left; reflexivity | right].
Qed.

(** ** Modes other than encode *)

Lemma audio_args_elem (ai : list string) (a : string) :
  a ∈ audio_args ai →
  a = "-map" ∨ (∃ idx, a = "0:" +:+ idx) ∨ a = "-metadata:s:a:0" ∨ a = "language=eng".
Proof.
  unfold audio_args. rewrite list_elem_of_bind. intros (idx & Ha & _).
  rewrite !elem_of_cons, elem_of_nil in Ha.
  destruct Ha as [->|[->|[->|[->|[]]]]]; eauto.
Qed.

Lemma no_tag_in_selections (ai : list string) (o : option subtitle) :
  "-tag:v" ∉ audio_args ai ++ subtitle_args o.
Proof.
  rewrite elem_of_app. intros [H | H].
  - apply audio_args_elem in H as [? | [[idx ?] | [? | ?]]]; done.
  - destruct o as [sub|]; simpl in H; [|by apply elem_of_nil in H].
    rewrite !elem_of_cons, elem_of_nil in H.
    destruct H as [?|[?|[?|[?|[?|[?|[]]]]]]]; done.
Qed.

(** X14: every mode string other than ["encode"] - not only ["remux"] -
    gets the stream-copy template; the hvc1 tag follows the template
    exactly when the video codec is the string ["hevc"], and then once. *)
Theorem other_modes_get_the_remux_template (input_file temp_file mode : string)
    (video_codec : option string) (audio_indices : list string) (subs : list subtitle) :
  mode ≠ "encode" →
  ∃ tag,
    build_ffmpeg_cmd input_file temp_file mode video_codec audio_indices subs =
      ["ffmpeg"; "-i"; input_file; "-y"] ++ remux_profile ++ tag ++
      audio_args audio_indices ++ subtitle_args (head subs) ++ [temp_file] ∧
    tag = (if decide (video_codec = Some "hevc") then ["-tag:v"; "hvc1"] else []) ∧
    ("-tag:v" ∈ remux_profile ++ tag ++ audio_args audio_indices ++
                subtitle_args (head subs) ↔ video_codec = Some "hevc").
Proof.
  intros Hmode.
  exists (if decide (video_codec = Some "hevc") then ["-tag:v"; "hvc1"] else []).
  split; [|split; [done|]].
  - rewrite build_ffmpeg_cmd_shape. unfold head_args, build_ffmpeg_cmd.
    rewrite decide_False by done. by destruct (decide (video_codec = Some "hevc")).
  - pose proof (no_tag_in_selections audio_indices (head subs)) as Hno.
    rewrite !elem_of_app in *. unfold remux_profile.
    rewrite !elem_of_cons, elem_of_nil.
    destruct (decide (video_codec = Some "hevc")) as [Hc|Hc].
    + split; [done|]. intros _. right. left. by left.
    + split; [|done]. intros [H | [H | H]].
      * destruct H as [?|[?|[?|[?|[?|[?|[?|[?|[?|[?|[?|[?|[]]]]]]]]]]]]]; done.
      * by apply elem_of_nil in H.
      * by destruct Hno.
Qed.

(** ** What a batch touches *)

Lemma body_event_convert inp tmp ev :
  forallb (convert_event tmp) ev = true → Forall (body_event inp tmp) ev.
Proof.
  intros Hev. apply Forall_forall. intros e He.
  apply (convert_event_elem _ _ _ Hev) in He.
  destruct e as [[]| | | | | |]; simpl in *; try done.
  by apply bool_decide_eq_true in He.
Qed.

Lemma body_event_finalize w inp tmp dst dir cs (fs : filesystem) :
  Forall (body_event inp tmp) (events_of (finalize w inp tmp dst dir cs fs)).
Proof.
  unfold finalize, mbind, M_bind, mret, M_ret, print, emit,
    os_makedirs, os_path_getsize, shutil_move, os_remove.
  destruct cs; repeat (case_match; simplify_eq/=);
    repeat constructor; simpl; eauto.
Qed.

(** Every iteration returns normally; it opens with its three events and
    goes on with events on its own input and temporary file. *)
Lemma process_file_shape w input_path output_path mode cs idx total file (fs : filesystem) :
  let inp := OsPath.join input_path file in
  let tmp := tempname w fs in
  let o := process_file w input_path output_path mode cs idx total file fs in
  result_of o = Ok () ∧
  ∃ rest, events_of o = preamble tmp idx total file ++ rest ∧
          Forall (body_event inp tmp) rest.
Proof.
  intros inp tmp o. subst o.
  destruct (convert_to_mp4_effect w inp tmp mode (<[tmp := File 0]> fs))
    as (b & fs1 & ev1 & Hc & _ & Hev1).
  apply (body_event_convert inp) in Hev1.
  destruct b.
  - rewrite (process_file_converted _ _ _ _ _ _ _ _ _ _ _ Hc). fold inp tmp.
    pose proof (body_event_finalize w inp tmp (output_file_path_of output_path file cs)
                  (OsPath.join output_path (OsPath.splitext file).1) cs fs1) as Hev2.
    destruct (finalize_total w inp tmp (output_file_path_of output_path file cs)
                (OsPath.join output_path (OsPath.splitext file).1) cs fs1)
      as (r & fs2 & ev2 & Hfin & Hr & _).
    rewrite Hfin in Hev2 |- *. cbn [events_of snd] in Hev2.
    destruct Hr as [-> | [-> | ->]]; cbn [is_Exception result_of events_of fst snd];
      (split; [done|]); eexists; (split; [reflexivity|]);
      rewrite !Forall_app; repeat split; try done;
      destruct (is_file fs2 tmp);
      repeat first [apply Forall_nil_2 | apply Forall_cons; split; [simpl; auto|]].
  - rewrite (process_file_failed _ _ _ _ _ _ _ _ _ _ _ Hc).
    cbn [result_of events_of fst snd]. split; [done|]. eexists. split; [reflexivity|].
    rewrite Forall_app. split; [done|]. by repeat constructor.
Qed.

Lemma process_file_events w input_path output_path mode cs idx total file (fs : filesystem) :
  Forall (iteration_event (OsPath.join input_path file) (tempname w fs))
    (events_of (process_file w input_path output_path mode cs idx total file fs)).
Proof.
  destruct (process_file_shape w input_path output_path mode cs idx total file fs)
    as (_ & rest & -> & Hrest).
  rewrite Forall_app. split.
  - by repeat constructor.
  - eapply Forall_impl; [exact Hrest|]. intros e He.
    by destruct e as [[]| | | | | |].
Qed.

Lemma batch_event_mono inputs inputs' all all' e :
  batch_event inputs all e → inputs ⊆ inputs' → all ⊆ all' → batch_event inputs' all' e.
Proof.
  intros He Hi Ha. destruct e as [m|cmd|p|p|d|src dst|p]; simpl in *; try done; auto.
  destruct He; auto.
Qed.

Lemma process_file_batch_events w input_path output_path mode cs idx total file
    (fs : filesystem) :
  let ev := events_of (process_file w input_path output_path mode cs idx total file fs) in
  Forall (batch_event [OsPath.join input_path file] ev) ev.
Proof.
  intros ev. pose proof (process_file_events w input_path output_path mode cs idx total
                           file fs) as Hev. fold ev in Hev.
  assert (Hcr : Created (tempname w fs) ∈ ev).
  { unfold ev.
    destruct (process_file_shape w input_path output_path mode cs idx total file fs)
      as (_ & rest & -> & _).
    apply elem_of_app. left. by left. }
  eapply Forall_impl; [exact Hev|]. intros e He.
  destruct e as [m|cmd|p|p|d|src dst|p]; simpl in *; try done; try by subst.
  destruct He as [-> | ->]; [left; by apply list_elem_of_singleton | by right].
Qed.

Lemma for_each_batch_events {A} (body : A → M unit) (input : A → string) (l : list A)
    (fs : filesystem) :
  (∀ x fs, let ev := events_of (body x fs) in Forall (batch_event [input x] ev) ev) →
  let ev := events_of (for_each body l fs) in
  Forall (batch_event (input <$> l) ev) ev.
Proof.
  intros Hbody. revert fs. induction l as [|x l IH]; intros fs; simpl; [constructor|].
  unfold mbind, M_bind. pose proof (Hbody x fs) as Hx. cbv zeta in Hx.
  destruct (body x fs) as [[[[]|e] fs1] ev1]; cbn [events_of snd] in *.
  - pose proof (IH fs1) as Hl. cbv zeta in Hl.
    destruct (for_each body l fs1) as [[r2 fs2] ev2]. cbn [events_of snd] in *.
    rewrite Forall_app. split.
    + eapply Forall_impl; [exact Hx|]. intros e He.
      apply (batch_event_mono _ _ _ _ _ He).
      * intros y Hy%list_elem_of_singleton. subst. by left.
      * intros y Hy. apply elem_of_app. by left.
    + eapply Forall_impl; [exact Hl|]. intros e He.
      apply (batch_event_mono _ _ _ _ _ He).
      * intros y Hy. by right.
      * intros y Hy. apply elem_of_app. by right.
  - eapply Forall_impl; [exact Hx|]. intros e' He.
    apply (batch_event_mono _ _ _ _ _ He); [|done].
    intros y Hy%list_elem_of_singleton. subst. by left.
Qed.

(** X15: a batch removes nothing but inputs it discovered and temporary
    files it created itself, moves nothing but such a temporary file, and
    the engine's output goes nowhere else: no other file of the input
    folder, and no name that was filtered out, is ever deleted. *)
Theorem batch_touches_only_inputs_and_temps (w : world)
    (input_path output_path first_run : string) (create_subfolders : bool)
    (fs : filesystem) :
  let o := process_folder w input_path output_path first_run create_subfolders fs in
  (∀ p, Removed p ∈ events_of o →
        (∃ f, f ∈ listdir w input_path fs ∧ is_candidate f = true ∧
              p = OsPath.join input_path f) ∨
        Created p ∈ events_of o) ∧
  (∀ src dst, Moved src dst ∈ events_of o → Created src ∈ events_of o) ∧
  (∀ p, Wrote p ∈ events_of o → Created p ∈ events_of o).
Proof.
  intros o.
  set (files := discover w input_path fs).
  assert (Hall : Forall (batch_event (OsPath.join input_path <$> files) (events_of o))
                   (events_of o)).
  { destruct (is_dir fs input_path) eqn:Hin; [destruct (is_dir fs output_path) eqn:Hout|].
    - unfold o. rewrite process_folder_run by done. cbv zeta. fold files.
      pose proof (for_each_batch_events
        (λ '(idx, file), process_file w input_path output_path first_run create_subfolders
                           idx (length files) file)
        (λ x, OsPath.join input_path x.2)
        (zip (seq 1 (length files)) files) fs) as Hev.
      destruct (for_each _ _ fs) as [[r fs2] ev2]. cbn [events_of snd] in *.
      constructor; [done|].
      eapply Forall_impl; [apply Hev|].
      + intros [idx file] fs'. apply process_file_batch_events.
      + intros e He. apply (batch_event_mono _ _ _ _ _ He).
        * intros y ([idx f] & -> & Hx)%list_elem_of_fmap.
          apply elem_of_zip_r in Hx. apply list_elem_of_fmap. by exists f.
        * intros y Hy. by right.
    - unfold o. rewrite process_folder_exits by (by right). constructor.
    - unfold o. rewrite process_folder_exits by (by left). constructor. }
  rewrite Forall_forall in Hall.
  split; [|split].
  - intros p Hp. destruct (Hall _ Hp) as [Hf | Hc]; [left | by right].
    apply list_elem_of_fmap in Hf as (f & -> & Hf). exists f.
    unfold files, discover in Hf.
    rewrite list_elem_of_filter, (natsorted_perm _) in Hf. tauto.
  - intros src dst Hp. exact (Hall _ Hp).
  - intros p Hp. exact (Hall _ Hp).
Qed.

(** ** The counter *)

Lemma counted_app ev1 ev2 : counted (ev1 ++ ev2) = counted ev1 ++ counted ev2.
Proof. apply omap_app. Qed.

Lemma counted_body inp tmp ev : Forall (body_event inp tmp) ev → counted ev = [].
Proof.
  induction 1 as [|e ev He _ IH]; [done|].
  destruct e as [[]| | | | | |]; simpl in He; try done; exact IH.
Qed.

Lemma for_each_counted {A} (body : A → M unit) (count : A → nat * nat) (l : list A)
    (fs : filesystem) :
  (∀ x fs, result_of (body x fs) = Ok () ∧ counted (events_of (body x fs)) = [count x]) →
  counted (events_of (for_each body l fs)) = count <$> l.
Proof.
  intros Hbody. revert fs. induction l as [|x l IH]; intros fs; simpl; [done|].
  unfold mbind, M_bind. destruct (Hbody x fs) as [Hr Hp].
  destruct (body x fs) as [[r fs1] ev1]. cbn [result_of events_of fst snd] in *. subst r.
  pose proof (IH fs1) as Hp2.
  destruct (for_each body l fs1) as [[r2 fs2] ev2]. cbn [result_of events_of fst snd] in *.
  by rewrite counted_app, Hp, Hp2.
Qed.

(** X16: between two existing directories, the "File idx/total" lines of
    a batch count the candidates from 1 to their number, one line per
    file whatever happens to the files before it, and the total is the
    number found when the folder was listed. *)
Theorem files_are_counted_from_one (w : world)
    (input_path output_path first_run : string) (create_subfolders : bool)
    (fs : filesystem) :
  is_dir fs input_path = true → is_dir fs output_path = true →
  let total_files := length (discover w input_path fs) in
  counted (events_of (process_folder w input_path output_path first_run
                        create_subfolders fs)) =
    (λ idx, (idx, total_files)) <$> seq 1 total_files.
Proof.
  intros Hin Hout total_files. rewrite process_folder_run by done. cbv zeta.
  set (files := discover w input_path fs). fold files in total_files.
  pose proof (for_each_counted
    (λ '(idx, file), process_file w input_path output_path first_run create_subfolders
                       idx (length files) file)
    (λ x, (x.1, total_files)) (zip (seq 1 (length files)) files) fs) as Hc.
  destruct (for_each _ _ fs) as [[r fs2] ev2]. cbn [events_of snd] in *.
  change (counted (Printed Banner :: ev2)) with (counted ev2).
  rewrite Hc.
  - transitivity ((λ idx, (idx, total_files)) <$> (zip (seq 1 (length files)) files).*1).
    + by rewrite <- list_fmap_compose.
    + by rewrite fst_zip by (by rewrite length_seq).
  - intros [idx file] fs'.
    destruct (process_file_shape w input_path output_path first_run create_subfolders
                idx (length files) file fs') as (Hr & rest & Hev & Hrest).
    split; [done|]. rewrite Hev, counted_app, (counted_body _ _ _ Hrest). done.
Qed.

(** ** The scanning scripts *)

Lemma truthy_named s : truthy (codec_name s) = true ↔ ∃ c, named s c.
Proof.
  unfold truthy, named. destruct (codec_name s) as [c|].
  - rewrite negb_true_iff, bool_decide_eq_false. split.
    + intros Hc. by exists c.
    + by intros (c' & [= <-] & Hc).
  - split; [done|]. by intros (c & [=] & _).
Qed.

(** The names [audio_codecs] returns are those of the named streams. *)
Lemma codec_names_elem (doc : probe_output) (c : string) :
  c ∈ codec_names doc ↔ ∃ s, s ∈ default [] (streams doc) ∧ named s c.
Proof.
  unfold codec_names. rewrite list_elem_of_fmap. split.
  - intros (s & -> & Hs). apply list_elem_of_filter in Hs as [Ht Hs].
    apply truthy_named in Ht as (c & Hc & Hne). exists s. split; [done|].
    unfold named. by rewrite Hc.
  - intros (s & Hs & Hc & Hne). exists s. split; [by rewrite Hc|].
    apply list_elem_of_filter. split; [|done]. apply truthy_named. by exists c.
Qed.

Lemma codec_names_nonempty (doc : probe_output) :
  codec_names doc ≠ [] ↔ ∃ s c, s ∈ default [] (streams doc) ∧ named s c.
Proof.
  split.
  - intros Hne. destruct (codec_names doc) as [|c l] eqn:Hl; [done|].
    assert (Hc : c ∈ codec_names doc) by (rewrite Hl; by left).
    apply codec_names_elem in Hc as (s & Hs & Hn). by exists s, c.
  - intros (s & c & Hs & Hn) Hnil.
    assert (Hc : c ∈ codec_names doc) by (apply codec_names_elem; by exists s).
    rewrite Hnil in Hc. by apply elem_of_nil in Hc.
Qed.

Lemma is_dts_only_spec (codecs : list string) :
  ScanDTS.is_dts_only codecs = true ↔
  codecs ≠ [] ∧ ∀ c, c ∈ codecs → ∃ q, PyStr.lower c = "dts" +:+ q.
Proof.
  unfold ScanDTS.is_dts_only. case_bool_decide as Hnil.
  - split; [done | by intros [? _]].
  - rewrite forallb_forall. split.
    + intros Hall. split; [done|]. intros c Hc%list_elem_of_In.
      by apply startswith_spec, Hall.
    + intros [_ Hall] c Hc%list_elem_of_In. by apply startswith_spec, Hall.
Qed.

Lemma is_dts_only_names (doc : probe_output) :
  ScanDTS.is_dts_only (codec_names doc) = true ↔
  (∃ s c, s ∈ default [] (streams doc) ∧ named s c) ∧
  (∀ s c, s ∈ default [] (streams doc) → named s c → ∃ q, PyStr.lower c = "dts" +:+ q).
Proof.
  rewrite is_dts_only_spec, codec_names_nonempty. split; intros [Hne Hall]; (split; [done|]).
  - intros s c Hs Hn. apply Hall, codec_names_elem. by exists s.
  - intros c (s & Hs & Hn)%codec_names_elem. by apply (Hall s).
Qed.

Lemma dts_audio_codecs_run w path (fs : filesystem) :
  ScanDTS.audio_codecs w path fs =
    match ffprobe w (scan_cmd path) fs with
    | ProbeNotStarted => Raise OSError
    | ProbeExitNonZero | ProbeGarbage => Ok None
    | ProbeJson doc => Ok (Some (codec_names doc))
    end.
Proof. reflexivity. Qed.

Lemma csv_audio_codecs_run w path (fs : filesystem) :
  ScanCSV.audio_codecs w path fs =
    match ffprobe w (scan_cmd path) fs with
    | ProbeNotStarted => Raise OSError
    | ProbeExitNonZero | ProbeGarbage => Ok None
    | ProbeJson doc => Ok (Some (codec_names doc))
    end.
Proof. reflexivity. Qed.

(** X17: for a file whose probe delivers a document, [audio_codecs]
    returns the codec names of the streams that have a non-empty one, and
    [is_dts_only] holds of them exactly when there is such a stream and
    every such name starts with dts in some letter case; streams without
    a name do not count, and a file without named audio is not DTS-only. *)
Theorem dts_only_criterion (w : world) (path : string) (fs : filesystem)
    (doc : probe_output) :
  let ss := default [] (streams doc) in
  ffprobe w (scan_cmd path) fs = ProbeJson doc →
  ∃ codecs,
    ScanDTS.audio_codecs w path fs = Ok (Some codecs) ∧
    (∀ c, c ∈ codecs ↔ ∃ s, s ∈ ss ∧ named s c) ∧
    (ScanDTS.is_dts_only codecs = true ↔
       (∃ s c, s ∈ ss ∧ named s c) ∧
       (∀ s c, s ∈ ss → named s c → ∃ q, PyStr.lower c = "dts" +:+ q)).
Proof.
  intros ss Hdoc. exists (codec_names doc). rewrite dts_audio_codecs_run, Hdoc.
  split; [done|]. split; [apply codec_names_elem | apply is_dts_only_names].
Qed.

Lemma dts_for_paths_spec w (fs : filesystem) (paths : list string) :
  let o := ScanDTS.for_paths w fs paths in
  sublist o.1 paths ∧
  (∀ p, p ∈ o.1 → dts_only_file w fs p) ∧
  (probes_start w fs paths →
     o.2 = Ok () ∧ ∀ p, p ∈ paths → dts_only_file w fs p → p ∈ o.1) ∧
  (Exists (λ p, ffprobe w (scan_cmd p) fs = ProbeNotStarted) paths → o.2 = Raise OSError).
Proof.
  induction paths as [|path paths IH]; cbv zeta.
  { simpl. split; [done|]. split; [by intros p ?%elem_of_nil|]. split.
    - intros _. split; [done|]. by intros p ?%elem_of_nil.
    - by intros ?%Exists_nil. }
  cbv zeta in IH. destruct IH as (Hsub & Hout & Hall & Hex).
  cbn [ScanDTS.for_paths]. rewrite dts_audio_codecs_run.
  assert (Hlisted : ∀ doc, ffprobe w (scan_cmd path) fs = ProbeJson doc →
            (ScanDTS.is_dts_only (codec_names doc) = true ↔ dts_only_file w fs path)).
  { intros doc Hp. rewrite is_dts_only_names. unfold dts_only_file. split.
    - intros [? ?]. by exists doc.
    - intros (doc' & Hd & ? & ?). by assert (doc' = doc) as -> by congruence. }
  assert (Hnot : (∀ doc, ffprobe w (scan_cmd path) fs ≠ ProbeJson doc) →
            ¬ dts_only_file w fs path).
  { intros Hno (doc & Hd & _). by apply (Hno doc). }
  assert (Hskip : ffprobe w (scan_cmd path) fs ≠ ProbeNotStarted →
            ¬ dts_only_file w fs path →
            let o := ScanDTS.for_paths w fs paths in
            sublist o.1 (path :: paths) ∧
            (∀ p, p ∈ o.1 → dts_only_file w fs p) ∧
            (probes_start w fs (path :: paths) →
               o.2 = Ok () ∧ ∀ p, p ∈ path :: paths → dts_only_file w fs p → p ∈ o.1) ∧
            (Exists (λ p, ffprobe w (scan_cmd p) fs = ProbeNotStarted) (path :: paths) →
               o.2 = Raise OSError)).
  { intros Hst Hno. cbv zeta. split; [by apply sublist_cons|]. split; [done|]. split.
    - intros [_ Hps]%Forall_cons. destruct (Hall Hps) as [Hr Hin]. split; [done|].
      intros p [-> | Hp]%elem_of_cons Hd; [done | by apply Hin].
    - intros [? | ?]%Exists_cons; [done | by apply Hex]. }
  destruct (ffprobe w (scan_cmd path) fs) as [| | |doc] eqn:Hp.
  - cbn [fst snd]. split; [apply sublist_nil_l|]. split; [by intros p ?%elem_of_nil|].
    split; [|done]. by intros [? _]%Forall_cons.
  - apply Hskip; [done|]. by apply Hnot.
  - apply Hskip; [done|]. by apply Hnot.
  - destruct (ScanDTS.is_dts_only (codec_names doc)) eqn:Hdts.
    + assert (Hd : dts_only_file w fs path) by (by apply (Hlisted doc)).
      destruct (ScanDTS.for_paths w fs paths) as [out r]. cbn [fst snd] in *.
      split; [by apply sublist_skip|]. split.
      * intros p [-> | Hp']%elem_of_cons; [done | by apply Hout].
      * split.
        -- intros [_ Hps]%Forall_cons. destruct (Hall Hps) as [Hr Hin]. split; [done|].
           intros p [-> | Hp']%elem_of_cons Hd'; [by left | right; by apply Hin].
        -- intros [? | ?]%Exists_cons; [congruence | by apply Hex].
    + apply Hskip; [done|]. rewrite <- (Hlisted doc) by done. by rewrite Hdts.
Qed.

(** X18: the DTS scan ends with status 2, having printed nothing, when the
    root does not exist.  Otherwise the paths it prints are DTS-only files
    of the tree, in the order of the sorted listing; when ffprobe starts
    on every file the status is 0 and every DTS-only file is printed -
    files whose probe failed are passed over without a word - and when it
    cannot be started on some file the script ends with the uncaught
    error.  Without an argument the root is the current directory. *)
Theorem dts_scan_lists (w : world) (t : tree) (argv : list string) (fs : filesystem) :
  let root := root_of argv in
  let paths := rglob_mp4 t root in
  let o := ScanDTS.main w t argv fs in
  (length argv ≤ 1 → root = ".") ∧
  (exists_path t root = false → o = ([], Ok 2%Z)) ∧
  (exists_path t root = true →
     sublist o.1 paths ∧
     (∀ p, p ∈ o.1 → dts_only_file w fs p) ∧
     (probes_start w fs paths →
        o.2 = Ok 0%Z ∧ ∀ p, p ∈ paths → dts_only_file w fs p → p ∈ o.1) ∧
     (Exists (λ p, ffprobe w (scan_cmd p) fs = ProbeNotStarted) paths →
        o.2 = Raise OSError)).
Proof.
  intros root paths o. split; [|split].
  - intros Hlen. unfold root, root_of. by rewrite decide_False by lia.
  - intros Hno. unfold o, ScanDTS.main. fold root. by rewrite Hno.
  - intros Hex. unfold o, ScanDTS.main. fold root paths. rewrite Hex. cbn [negb].
    pose proof (dts_for_paths_spec w fs paths) as Hspec. cbv zeta in Hspec.
    destruct (ScanDTS.for_paths w fs paths) as [out r]. cbn [fst snd] in *.
    destruct Hspec as (Hsub & Hout & Hall & Hfail).
    split; [done|]. split; [done|]. split.
    + intros Hps. destruct (Hall Hps) as [-> Hin]. done.
    + intros He. by rewrite (Hfail He).
Qed.

(** *** The CSV export *)

Lemma concat_nonempty sep (l : list string) :
  l ≠ [] → Forall (λ c, c ≠ "") l → String.concat sep l ≠ "".
Proof.
  intros Hne Hall. destruct l as [|c l]; [done|].
  apply Forall_cons in Hall as [Hc _]. destruct c as [|a c]; [done|].
  destruct l as [|c' l]; simpl; [done|].
  change (String a c +:+ sep +:+ String.concat sep (c' :: l) ≠ "").
  by rewrite append_cons.
Qed.

Lemma codec_names_named (doc : probe_output) : Forall (λ c, c ≠ "") (codec_names doc).
Proof.
  apply Forall_forall. intros c (s & _ & _ & Hne)%codec_names_elem. done.
Qed.

Lemma csv_for_paths_spec w (fs : filesystem) (paths : list string) :
  let o := ScanCSV.for_paths w fs paths in
  Forall (λ row, ∃ p doc v,
            row = [p; v] ∧ p ∈ paths ∧ ffprobe w (scan_cmd p) fs = ProbeJson doc ∧
            v ≠ "" ∧
            (codec_names doc = [] → v = "unknown") ∧
            (codec_names doc ≠ [] → v = String.concat ";" (codec_names doc))) o.1 ∧
  (probes_start w fs paths →
     o.2 = Ok () ∧
     (λ row, default "" (head row)) <$> o.1 = filter (λ p, delivers w fs p = true) paths) ∧
  (Exists (λ p, ffprobe w (scan_cmd p) fs = ProbeNotStarted) paths → o.2 = Raise OSError).
Proof.
  induction paths as [|path paths IH]; cbv zeta.
  { simpl. split; [constructor|]. split; [done|]. by intros ?%Exists_nil. }
  cbv zeta in IH. destruct IH as (Hrows & Hall & Hex).
  assert (Hrows' : Forall (λ row, ∃ p doc v,
            row = [p; v] ∧ p ∈ path :: paths ∧ ffprobe w (scan_cmd p) fs = ProbeJson doc ∧
            v ≠ "" ∧
            (codec_names doc = [] → v = "unknown") ∧
            (codec_names doc ≠ [] → v = String.concat ";" (codec_names doc)))
            (ScanCSV.for_paths w fs paths).1).
  { eapply Forall_impl; [exact Hrows|]. intros row (p & doc & v & ? & ? & ?).
    exists p, doc, v. split; [done|]. split; [by right | done]. }
  cbn [ScanCSV.for_paths]. rewrite csv_audio_codecs_run.
  assert (Hskip : delivers w fs path = false →
            ffprobe w (scan_cmd path) fs ≠ ProbeNotStarted →
            let o := ScanCSV.for_paths w fs paths in
            (probes_start w fs (path :: paths) →
               o.2 = Ok () ∧
               (λ row, default "" (head row)) <$> o.1 =
                 filter (λ p, delivers w fs p = true) (path :: paths)) ∧
            (Exists (λ p, ffprobe w (scan_cmd p) fs = ProbeNotStarted) (path :: paths) →
               o.2 = Raise OSError)).
  { intros Hd Hst. cbv zeta. split.
    - intros [_ Hps]%Forall_cons. destruct (Hall Hps) as [Hr Hf]. split; [done|].
      rewrite filter_cons_False by (by rewrite Hd). done.
    - intros [? | ?]%Exists_cons; [done | by apply Hex]. }
  unfold delivers in Hskip at 1.
  destruct (ffprobe w (scan_cmd path) fs) as [| | |doc] eqn:Hp.
  - cbn [fst snd]. split; [constructor|]. split; [|done]. by intros [? _]%Forall_cons.
  - split; [done|]. by apply Hskip.
  - split; [done|]. by apply Hskip.
  - destruct (ScanCSV.for_paths w fs paths) as [rows r]. cbn [fst snd] in *.
    split; [|split].
    + constructor; [|done].
      exists path, doc, (if bool_decide (codec_names doc = []) then "unknown"
                         else String.concat ";" (codec_names doc)).
      split; [done|]. split; [by left|]. split; [done|].
      case_bool_decide as Hnil.
      * split; [done|]. split; [done|]. by intros ?.
      * split; [by apply concat_nonempty, codec_names_named|]. split; [done|]. done.
    + intros [_ Hps]%Forall_cons. destruct (Hall Hps) as [Hr Hf]. split; [done|].
      rewrite filter_cons_True by (unfold delivers; by rewrite Hp).
      rewrite fmap_cons, Hf. done.
    + intros [? | ?]%Exists_cons; [congruence | by apply Hex].
Qed.

(** X19: the CSV export leaves no output file and ends with status 2 when
    the root does not exist.  Otherwise the file and standard output get
    the same rows: the header, then one row per file whose probe delivered
    a document, in the order of the sorted listing; the codec cell is
    never empty - it is the named codecs joined by semicolons, or
    "unknown" when the file has none.  Files whose probe failed have no
    row; the status is 0 when ffprobe starts on every file. *)
Theorem csv_scan_rows (w : world) (t : tree) (argv : list string) (fs : filesystem) :
  let root := root_of argv in
  let paths := rglob_mp4 t root in
  let o := ScanCSV.main w t argv fs in
  (exists_path t root = false →
     o = {| ScanCSV.file_rows := None; ScanCSV.stdout_rows := [];
            ScanCSV.status := Ok 2%Z |}) ∧
  (exists_path t root = true →
     ∃ rows,
       ScanCSV.file_rows o = Some (ScanCSV.header :: rows) ∧
       ScanCSV.stdout_rows o = ScanCSV.header :: rows ∧
       Forall (λ row, ∃ p doc v,
                 row = [p; v] ∧ p ∈ paths ∧ ffprobe w (scan_cmd p) fs = ProbeJson doc ∧
                 v ≠ "" ∧
                 (codec_names doc = [] → v = "unknown") ∧
                 (codec_names doc ≠ [] → v = String.concat ";" (codec_names doc))) rows ∧
       (probes_start w fs paths →
          ScanCSV.status o = Ok 0%Z ∧
          (λ row, default "" (head row)) <$> rows =
            filter (λ p, delivers w fs p = true) paths)).
Proof.
  intros root paths o. split.
  - intros Hno. unfold o, ScanCSV.main. fold root. by rewrite Hno.
  - intros Hex. unfold o, ScanCSV.main. fold root paths. rewrite Hex. cbn [negb].
    pose proof (csv_for_paths_spec w fs paths) as Hspec. cbv zeta in Hspec.
    destruct (ScanCSV.for_paths w fs paths) as [rows r]. cbn [fst snd] in *.
    destruct Hspec as (Hrows & Hall & _).
    exists rows. split; [done|]. split; [done|]. split; [done|].
    intros Hps. destruct (Hall Hps) as [-> Hf]. done.
Qed.

(** ** Waiting for a running ffmpeg *)

Lemma listed_spec tasklist name n :
  listed tasklist name n ↔
  ∃ stdout, tasklist n = Some stdout ∧
            PyStr.contains (PyStr.lower stdout) (PyStr.lower name) = true.
Proof. unfold listed. by setoid_rewrite contains_spec. Qed.

Lemma check_if_process_running_from tasklist name k : ∀ depth n,
  k < depth →
  (∀ i, i < k → listed tasklist name (n + i)) →
  ¬ listed tasklist name (n + k) →
  check_if_process_running tasklist depth n name =
    (Some (if decide (k = 0) then Some false else None),
     flat_map (λ _, [StillRunning name; Slept 10]) (seq 0 k) ++
     [if tasklist (n + k) is Some _ then NotRunning name else CheckError]).
Proof.
  induction k as [|k IH]; intros depth n Hdepth Hbusy Hfree.
  - destruct depth as [|depth]; [lia|]. simpl. rewrite Nat.add_0_r in *.
    destruct (tasklist n) as [stdout|] eqn:Hpoll; [|done].
    destruct (PyStr.contains _ _) eqn:Hc; [|done].
    destruct Hfree. apply listed_spec. by exists stdout.
  - destruct depth as [|depth]; [lia|]. cbn [check_if_process_running].
    assert (H0 : listed tasklist name (n + 0)) by (apply Hbusy; lia).
    apply listed_spec in H0 as (stdout & Hpoll & Hc).
    rewrite Nat.add_0_r in Hpoll. rewrite Hpoll, Hc.
    rewrite (IH depth (S n)); [| lia | | ].
    + replace (S n + k) with (n + S k) by lia.
      rewrite decide_False by lia. cbn [seq flat_map app].
      rewrite <- (fmap_S_seq 0 k). clear. f_equal. f_equal. f_equal. f_equal.
      induction (seq 0 k) as [|x l IHl]; [done|]. simpl. by rewrite IHl.
    + intros i Hi. replace (S n + i) with (n + S i) by lia. apply Hbusy. lia.
    + by replace (S n + k) with (n + S k) by lia.
Qed.

Lemma slept_waits name start k rest :
  slept (flat_map (λ _, [StillRunning name; Slept 10]) (seq start k) ++ rest) =
  10 * k + slept rest.
Proof.
  unfold slept. revert start. induction k as [|k IH]; intros start.
  - simpl. lia.
  - cbn [seq flat_map app]. cbn [omap list_omap sum_list sum_list_with].
    rewrite IH. unfold id. lia.
Qed.

(** X20: when the first [k] polls list the process and the next one does
    not, the wait ends at that poll: one warning and one sleep of ten
    seconds per earlier poll, then the "not running" line - or the error
    line when [tasklist] could not be run, as on a host without it.  The
    name is matched as a substring of the output without regard to letter
    case.  The function returns [False] only when it did not wait; after
    a wait the result of the nested call is dropped and it returns
    [None]. *)
Theorem wait_ends_at_first_free_poll (tasklist : nat → option string)
    (depth k : nat) (process_name : string) :
  k < depth →
  (∀ i, i < k → listed tasklist process_name i) →
  ¬ listed tasklist process_name k →
  let o := check_if_process_running tasklist depth 0 process_name in
  o.1 = Some (if decide (k = 0) then Some false else None) ∧
  o.2 = flat_map (λ _, [StillRunning process_name; Slept 10]) (seq 0 k) ++
        [if tasklist k is Some _ then NotRunning process_name else CheckError] ∧
  slept o.2 = 10 * k.
Proof.
  intros Hdepth Hbusy Hfree o. unfold o.
  rewrite (check_if_process_running_from tasklist process_name k depth 0) by done.
  cbn [fst snd]. split; [done|]. split; [done|].
  rewrite slept_waits. change (0 + k) with k.
  destruct (tasklist k);
    [change (slept [NotRunning process_name]) with 0 | change (slept [CheckError]) with 0];
    lia.
Qed.

(** ** The further properties at concrete cases *)

(** X4 on Movie.mkv, with subfolders. *)
Lemma output_file_path_of_video_name_witness :
  output_file_path_of "out" ("Movie" +:+ ".mkv") true = "out/Movie/Movie.mp4".
Proof.
  destruct (output_file_path_of_video_name "out" "Movie" ".mkv") as [Hsplit _].
  - compute_done.
  - reflexivity.
  - destruct Hsplit as [_ ->]; [|reflexivity]. intros H. discriminate H.
Defined.

(** X5 on Movie.mp4 converted within the folder in. *)
Lemma in_place_conversion_witness :
  Moved Scenario.temp_name "in/Movie.mp4" ∈ events_of Cases.in_place_run ∧
  fs_of Cases.in_place_run !! "in/Movie.mp4" = None.
Proof.
  destruct (in_place_conversion_loses_the_file Cases.in_place_host "in" "remux" "Movie"
              1 1 (Scenario.folders "Movie.mp4") 1000) as (_ & Hmoved & _ & Hfs).
  - reflexivity.
  - intros H. discriminate H.
  - by vm_compute.
  - by vm_compute.
  - by vm_compute.
  - by vm_compute.
  - split; [exact Hmoved|].
    change (fs_of Cases.in_place_run) with
      (fs_of (process_file Cases.in_place_host "in" "in" "remux" false 1 1
                ("Movie" +:+ ".mp4") (Scenario.folders "Movie.mp4"))).
    rewrite Hfs. by vm_compute.
Defined.


(** X7 where a regular file blocks the subfolder. *)
Lemma failed_move_is_cleaned_up_witness :
  fs_of Cases.blocked_run !! "in/Movie.mkv" = Some (File 1000) ∧
  fs_of Cases.blocked_run !! Scenario.temp_name = None.
Proof.
  destruct (failed_move_is_cleaned_up Runs.movie_host "in" "out" "remux" true 1 1
              "Movie.mkv" Cases.blocked 1000) as (_ & Hinp & Htmp & _).
  - by vm_compute.
  - by vm_compute.
  - by vm_compute.
  - intros d Hd. vm_compute in Hd.
    repeat (apply elem_of_cons in Hd as [Hd | Hd]; [discriminate Hd|]).
    by apply elem_of_nil in Hd.
  - split; [exact Hinp | exact Htmp].
Defined.

(** X11 on a host whose ffprobe fails. *)
Lemma failed_probe_is_reported_witness :
  convert_to_mp4 Cases.failing_probe_host "in/Movie.mkv" Scenario.temp_name "encode"
    (Scenario.folders "Movie.mkv") =
  (Ok false, Scenario.folders "Movie.mkv",
   [Ran (probe_cmd "in/Movie.mkv" (Some "a")); Printed FFmpegError]).
Proof.
  destruct (failed_probe_is_reported Cases.failing_probe_host "in/Movie.mkv"
              Scenario.temp_name "encode" (Scenario.folders "Movie.mkv") FFmpegError)
    as [Hfirst _].
  apply Hfirst. reflexivity.
Defined.

(** X12 on a subtitle stream without an index. *)
Lemma missing_index_skips_the_file_witness :
  get_subtitle_streams Cases.unindexed = Raise KeyError.
Proof.
  destruct (missing_index_skips_the_file Cases.unindexed) as (_ & Hsubs & _).
  apply Hsubs. split; [reflexivity|].
  eexists. split; [by left|]. split; [|reflexivity].
  split; [|by left]. eexists. split; [reflexivity | compute_done].
Defined.

(** X13 on the file with two qualifying subtitles. *)
Lemma subtitle_entries_are_valid_witness :
  ∃ subs,
    get_subtitle_streams {| streams := Some Scenario.subbed |} = Ok subs ∧
    Forall (λ sub, sub_codec sub ∈ valid_codecs ∧ sub_language sub ∈ ["eng"; "und"]) subs.
Proof.
  eexists. split; [reflexivity|].
  destruct (subtitle_entries_are_valid {| streams := Some Scenario.subbed |} _ eq_refl)
    as [Hall _].
  eapply Forall_impl; [exact Hall|]. intros sub (Hc & Hl & _). by split.
Defined.

(** X14 for the mode string Remux and an h264 video. *)
Lemma other_modes_get_the_remux_template_witness :
  build_ffmpeg_cmd "in/Movie.mkv" Scenario.temp_name "Remux" (Some "h264") ["1"] [] =
    ["ffmpeg"; "-i"; "in/Movie.mkv"; "-y"] ++ remux_profile ++
    ["-map"; "0:1"; "-metadata:s:a:0"; "language=eng"; Scenario.temp_name].
Proof.
  destruct (other_modes_get_the_remux_template "in/Movie.mkv" Scenario.temp_name "Remux"
              (Some "h264") ["1"] []) as (tag & Hcmd & Htag & _).
  - intros H. discriminate H.
  - rewrite Hcmd, Htag. reflexivity.
Defined.

(** X16 at scenario D. *)
Lemma files_are_counted_from_one_witness :
  counted (events_of Runs.episodes_batch) = [(1, 2); (2, 2)].
Proof.
  etrans.
  - apply (files_are_counted_from_one Runs.episodes_host "in" "out" "remux" false
             (Scenario.folders "Episode 2.mkv")); by vm_compute.
  - by vm_compute.
Defined.

(** X17 on a file with two DTS tracks and an unnamed one. *)
Lemma dts_only_criterion_witness :
  ∃ codecs,
    ScanDTS.audio_codecs Cases.library_host "movies/a.mp4" ∅ = Ok (Some codecs) ∧
    ScanDTS.is_dts_only codecs = true.
Proof.
  destruct (dts_only_criterion Cases.library_host "movies/a.mp4" ∅ Cases.dts_tracks
              eq_refl) as (codecs & Hcodecs & Helem & Hdts).
  exists codecs. split; [exact Hcodecs|].
  assert (Hc : codecs = ["dts"; "DTS-HD MA"]).
  { rewrite dts_audio_codecs_run in Hcodecs. vm_compute in Hcodecs. congruence. }
  rewrite Hc. reflexivity.
Defined.

(** X18 on the library: only the first file is DTS-only. *)
Lemma dts_scan_lists_witness :
  (ScanDTS.main Cases.library_host Cases.library ["scan.py"; "movies"] ∅).2 = Ok 0%Z ∧
  (ScanDTS.main Cases.library_host Cases.library ["scan.py"] ∅) = ([], Ok 2%Z).
Proof.
  split.
  - destruct (dts_scan_lists Cases.library_host Cases.library ["scan.py"; "movies"] ∅)
      as (_ & _ & Hscan).
    destruct (Hscan eq_refl) as (_ & _ & Hall & _). apply Hall.
    repeat constructor; discriminate.
  - destruct (dts_scan_lists Cases.library_host Cases.library ["scan.py"] ∅)
      as (_ & Hmissing & _).
    apply Hmissing. reflexivity.
Defined.

(** X19 on the library. *)
Lemma csv_scan_rows_witness :
  ∃ rows,
    ScanCSV.stdout_rows
      (ScanCSV.main Cases.library_host Cases.library ["scan.py"; "movies"] ∅) =
      ScanCSV.header :: rows ∧
    (λ row, default "" (head row)) <$> rows = ["movies/a.mp4"; "movies/b.mp4"].
Proof.
  destruct (csv_scan_rows Cases.library_host Cases.library ["scan.py"; "movies"] ∅)
    as (_ & Hscan).
  destruct (Hscan eq_refl) as (rows & _ & Hout & _ & Hall).
  exists rows. split; [exact Hout|].
  destruct Hall as [_ ->]; [repeat constructor; discriminate|]. reflexivity.
Defined.

(** X20 where ffmpeg is gone at the third poll. *)
Lemma wait_ends_at_first_free_poll_witness :
  check_if_process_running Cases.polls 100 0 "ffmpeg.exe" =
    (Some None,
     [StillRunning "ffmpeg.exe"; Slept 10; StillRunning "ffmpeg.exe"; Slept 10;
      NotRunning "ffmpeg.exe"]).
Proof.
  destruct (wait_ends_at_first_free_poll Cases.polls 100 2 "ffmpeg.exe")
    as (Hret & Hev & _).
  - lia.
  - intros i Hi. apply listed_spec.
    destruct i as [|[|i]]; [| |lia]; eexists; (split; [reflexivity | by vm_compute]).
  - intros (stdout & Hpoll & Hc)%listed_spec. vm_compute in Hpoll.
    injection Hpoll as <-. vm_compute in Hc. discriminate Hc.
  - destruct (check_if_process_running _ _ _ _) as [r ev]. cbn [fst snd] in *.
    by rewrite Hret, Hev.
Defined.
